(** * ECPBuilder: a shallow embedding of [src/ecph5/ECPBuilder.py]

    The Python class [ECPBuilder] builds and searches a hierarchical
    cluster-pruning index. Its methods are embedded here as Rocq functions:

    - Python exceptions are the constructors of [exn]; a call yields a
      [result]: a value, a raised exception, or (for the one unbounded
      loop, in [search_tree]) exhausted fuel;
    - the attributes of [self] are the fields of the record [ECPBuilder];
      methods that assign attributes run in the state monad [Py], whose
      state survives a raised exception, as the attributes of a Python
      object do;
    - dictionaries keyed by ["lvl_i"] and ["node_j"] are [gmap string];
    - numpy floats are an abstract type with the operations the code
      uses (class [Scalar]), of which binary64 ([float_scalar]) is the
      instance the examples run on;
    - the vector operations ([np.dot], subtraction, [cosine_similarity])
      are embedded on operands of matching shapes, and [np.argsort] as a
      stable sort; the predicates [rankable] and [tie_free] say on which
      inputs these are what the libraries compute;
    - HDF5 persistence, logging and progress bars are left out; the
      embeddings dataset, the random sampler, the CPU count and the
      floating-point root are collaborators passed in ([World]). *)

From Stdlib Require Import ZArith List Floats.
From stdpp Require Import gmap strings list pretty.

Open Scope Z_scope.

(** ** Exceptions and results *)

Inductive exn : Type :=
  | AttributeError
  | IndexError
  | KeyError
  | NotImplementedError
  | TypeError
  | UnboundLocalError
  | ValueError
  | ZeroDivisionError.

Inductive result (A : Type) : Type :=
  | Ok (a : A)
  | Raise (e : exn)
  | OutOfFuel.

Arguments Ok {A} a.
Arguments Raise {A} e.
Arguments OutOfFuel {A}.

#[global] Instance result_ret : MRet result := @Ok.

#[global] Instance result_bind : MBind result := λ A B k r,
  match r with
  | Ok a => k a
  | Raise e => Raise e
  | OutOfFuel => OutOfFuel
  end.

(** [l[i]] for a non-negative position [i]. *)
Definition py_index {A} (l : list A) (i : nat) : result A :=
  match l !! i with
  | Some a => Ok a
  | None => Raise IndexError
  end.

(** [d[k]] for a dictionary. *)
Definition py_getitem {A} (d : gmap string A) (k : string) : result A :=
  match d !! k with
  | Some a => Ok a
  | None => Raise KeyError
  end.

(** Reading an attribute that may not have been assigned yet. *)
Definition py_getattr {A} (o : option A) : result A :=
  match o with
  | Some a => Ok a
  | None => Raise AttributeError
  end.

(** ** Scalars and the numpy operations the code calls *)

Class Scalar (F : Type) : Type := {
  fzero : F;
  fone : F;
  fadd : F → F → F;
  fsub : F → F → F;
  fmul : F → F → F;
  fsqrt : F → F;
  flt : F → F → bool;
  feq : F → F → bool;
  (** [sklearn.metrics.pairwise.cosine_similarity] of one row and the query *)
  cosine : list F → list F → F;
}.

(** A 2-D array: its rows and its second dimension ([shape[1]]), which an
    array keeps when it has no row. *)
Record ndarray2 (F : Type) : Type := {
  rows : list (list F);
  shape1 : nat;
}.
Arguments rows {F} _.
Arguments shape1 {F} _.
Arguments Build_ndarray2 {F} _ _.

(** [self.metric]: the three strings the constructor documents, ["L2"],
    ["IP"] and ["cos"]. *)
Inductive Metric : Type := L2 | IP | COS.

Section Numpy.
Context {F : Type} {ops : Scalar F}.

Definition fsum (l : list F) : F := fold_left fadd l fzero.

(** [np.dot(row, emb)], for two vectors of the same length *)
Definition dot (a b : list F) : F :=
  fsum (zip_with fmul a b).

(** [np.dot(M, emb)], for a query that has as many entries as the rows of
    [M] (numpy raises [ValueError] on other shapes: see [rankable]) *)
Definition np_dot (M : list (list F)) (emb : list F) : list F :=
  map (λ row, dot row emb) M.

(** [M - emb] (the query is broadcast over the rows), for a query that has
    as many entries as the rows of [M]; on other shapes numpy broadcasts
    along the second axis as well, or raises [ValueError] (see [rankable]) *)
Definition np_sub (M : list (list F)) (emb : list F) : list (list F) :=
  map (λ row, zip_with fsub row emb) M.

(** [np.linalg.norm(D, axis=1)]: one Euclidean norm per row *)
Definition norm_axis1 (D : list (list F)) : list F :=
  map (λ row, fsqrt (dot row row)) D.

(** [np.linalg.norm(D)]: the Frobenius norm of the whole matrix, a scalar *)
Definition norm_all (D : list (list F)) : F :=
  fsqrt (fsum (map (λ row, dot row row) D)).

(** [cosine_similarity(M, (emb,)).flatten()], for the inputs scikit-learn
    accepts: at least one row, at least one column, a query of the
    dimension of the rows, and finite entries everywhere; it raises
    [ValueError] on the others (see [rankable]) *)
Definition cosine_similarity (M : list (list F)) (emb : list F) : list F :=
  map (λ row, cosine row emb) M.

(** Stable insertion by a strict order: [x] goes before the first element
    that is not smaller than it. *)
Fixpoint insert_by {A} (lt : A → A → bool) (x : A) (l : list A) : list A :=
  match l with
  | [] => [x]
  | y :: l' => if lt y x then y :: insert_by lt x l' else x :: y :: l'
  end.

Definition sort_by {A} (lt : A → A → bool) (l : list A) : list A :=
  foldr (insert_by lt) [] l.

(** No element is smaller than the one before it. *)
Fixpoint ascending {A} (lt : A → A → bool) (l : list A) : Prop :=
  match l with
  | x :: l' =>
      match l' with
      | y :: _ => lt y x = false ∧ ascending lt l'
      | [] => True
      end
  | [] => True
  end.

(** [np.sort(d)] *)
Definition np_sort (d : list F) : list F := sort_by flt d.

Definition key (d : list F) (i : nat) : F := default fzero (d !! i).

(** [np.argsort(d)]: the positions of [d], by ascending value, ties in
    position order (the order numpy's default sort gives short arrays and
    the specification asks for). The scores are taken not to be NaN, which
    numpy would put last. *)
Definition np_argsort (d : list F) : list nat :=
  sort_by (λ i j, flt (key d i) (key d j)) (seq 0 (length d)).

(** [np.zeros(shape=(n,))]; a negative dimension is a [ValueError]. *)
Definition np_zeros (n : Z) : result (list F) :=
  if n <? 0 then Raise ValueError else Ok (replicate (Z.to_nat n) fzero).

(** [np.zeros(shape=(n, d))] *)
Definition np_zeros2 (n : Z) (d : nat) : result (ndarray2 F) :=
  if n <? 0 then Raise ValueError
  else Ok (Build_ndarray2 (replicate (Z.to_nat n) (replicate d fzero)) d).

(** [np.concatenate((a, b))] on the first axis: the second dimensions
    must be the same, or it is a [ValueError]. *)
Definition np_concatenate2 (a b : ndarray2 F) : result (ndarray2 F) :=
  if decide (shape1 a = shape1 b)
  then Ok (Build_ndarray2 (rows a ++ rows b) (shape1 a))
  else Raise ValueError.

(** [a.resize(n)]: in place, truncating or padding with zeros *)
Definition resize (n : nat) (a : list F) : list F :=
  take n a ++ replicate (n - length a) fzero.

(** [a.resize((n, a.shape[1]))] *)
Definition resize2 (n : nat) (a : ndarray2 F) : ndarray2 F :=
  Build_ndarray2
    (take n (rows a) ++ replicate (n - length (rows a)) (replicate (shape1 a) fzero))
    (shape1 a).

(** [a[i] = x] for [0 <= i]; out of range is an [IndexError]. *)
Definition py_setitem {A} (l : list A) (i : nat) (x : A) : result (list A) :=
  if decide (i < length l)%nat then Ok (<[i:=x]> l) else Raise IndexError.

(** [a[i] = r] for a row position [0 <= i] and a vector [r]: a position
    out of range is an [IndexError]; [r] is copied into the row when it has
    [a.shape[1]] entries, a vector of one entry is broadcast over the row,
    and any other length is a [ValueError]. *)
Definition set_row (a : ndarray2 F) (i : nat) (r : list F) : result (ndarray2 F) :=
  if decide (i < length (rows a))%nat then
    if decide (length r = shape1 a)
    then Ok (Build_ndarray2 (<[i:=r]> (rows a)) (shape1 a))
    else match r with
         | [x] => Ok (Build_ndarray2 (<[i:=replicate (shape1 a) x]> (rows a)) (shape1 a))
         | _ => Raise ValueError
         end
  else Raise IndexError.

(** *** The shapes the library calls accept

    The conditions under which the operations above are what numpy and
    scikit-learn compute: [rankable] for the scores of an array against a
    query, [tie_free] for the positions [np.argsort] gives. *)

(** [a.shape == (len(a), d)] *)
Definition has_dim (d : nat) (a : ndarray2 F) : bool :=
  bool_decide (shape1 a = d) && forallb (λ row, bool_decide (length row = d)) (rows a).

(** [np.isfinite(x)]: [x - x] is zero unless [x] is NaN or infinite. *)
Definition isfinite (x : F) : bool := feq (fsub x x) fzero.

(** The array [a] and the query [emb] can be ranked for the metric [m]:
    the query has the dimension of the rows, which is all [np.dot] and the
    subtraction ask for, and for [cos] the array has a row, the dimension
    is not zero and every entry is finite, as [cosine_similarity] checks. *)
Definition rankable (m : Metric) (a : ndarray2 F) (emb : list F) : bool :=
  has_dim (length emb) a
  && match m with
     | IP | L2 => true
     | COS =>
         bool_decide (0 < length (rows a))%nat
         && bool_decide (0 < length emb)%nat
         && forallb isfinite emb
         && forallb (forallb isfinite) (rows a)
     end.

(** No two scores of [d] are tied: of any two, one is smaller than the
    other (so neither is NaN). Every sort, stable or not, orders such an
    array in the same way. *)
Fixpoint tie_free (d : list F) : bool :=
  match d with
  | [] => true
  | x :: d' => forallb (λ y, flt x y || flt y x) d' && tie_free d'
  end.
End Numpy.

(** ** The index and the builder *)

(** One node dictionary of [self.index[lvl]]. *)
Record Node (F : Type) : Type := {
  embeddings : ndarray2 F;
  item_ids : list Z;
  node_ids : list Z;
  distances : list F;
  border : Z * F;
}.
Arguments embeddings {F} _.
Arguments item_ids {F} _.
Arguments node_ids {F} _.
Arguments distances {F} _.
Arguments border {F} _.
Arguments Build_Node {F} _ _ _ _ _.

(** [self.index["root"]] *)
Record Root (F : Type) : Type := {
  root_item_ids : list Z;
  root_embeddings : ndarray2 F;
}.
Arguments root_item_ids {F} _.
Arguments root_embeddings {F} _.
Arguments Build_Root {F} _ _.

(** [self.index]: the entry ["root"] and the entries ["lvl_0"], ["lvl_1"], ...
    The key ["root"] is never written or read through a level name, so it
    is kept apart from the levels. A root dictionary that has no
    embeddings yet is [None], as is a missing one: reading the root's
    embeddings is a [KeyError] in both cases. *)
Record Index (F : Type) : Type := {
  root : option (Root F);
  lvls : gmap string (gmap string (Node F));
}.
Arguments root {F} _.
Arguments lvls {F} _.
Arguments Build_Index {F} _ _.

(** An entry of [self.tree_pq]: [(score, is_leaf, level, node)]. *)
Definition TreeEntry (F : Type) : Type := F * bool * Z * Z.
(** An entry of [self.item_pq]: [(distance, item_id)]. *)
Definition ItemEntry (F : Type) : Type := F * Z.

(** The attributes of [self]. [None] is an attribute no method has
    assigned yet (for the two representative fields, which [__init__] sets
    to Python's [None], it is that [None]). *)
Record ECPBuilder (F : Type) : Type := {
  levels : Z;
  target_cluster_size : Z;
  metric : Metric;
  representative_ids : option (list Z);
  representative_embeddings : option (ndarray2 F);
  item_to_cluster_map : gmap Z (string * F);
  total_clusters : option Z;
  node_size : option Z;
  index : option (Index F);
  tree_pq : option (list (TreeEntry F));
  item_pq : option (list (ItemEntry F));
}.
Arguments levels {F} _.
Arguments target_cluster_size {F} _.
Arguments metric {F} _.
Arguments representative_ids {F} _.
Arguments representative_embeddings {F} _.
Arguments item_to_cluster_map {F} _.
Arguments total_clusters {F} _.
Arguments node_size {F} _.
Arguments index {F} _.
Arguments tree_pq {F} _.
Arguments item_pq {F} _.
Arguments Build_ECPBuilder {F} _ _ _ _ _ _ _ _ _ _ _.

(** [ECPBuilder.__init__] *)
Definition init {F} (levels target_cluster_size : Z) (metric : Metric) : ECPBuilder F :=
  Build_ECPBuilder levels target_cluster_size metric None None ∅ None None None None None.

Definition set_representative_ids {F} (v : option (list Z)) (s : ECPBuilder F) :=
  Build_ECPBuilder (levels s) (target_cluster_size s) (metric s) v
    (representative_embeddings s) (item_to_cluster_map s) (total_clusters s)
    (node_size s) (index s) (tree_pq s) (item_pq s).
Definition set_representative_embeddings {F} (v : option (ndarray2 F)) (s : ECPBuilder F) :=
  Build_ECPBuilder (levels s) (target_cluster_size s) (metric s) (representative_ids s)
    v (item_to_cluster_map s) (total_clusters s)
    (node_size s) (index s) (tree_pq s) (item_pq s).
Definition set_item_to_cluster_map {F} (v : gmap Z (string * F)) (s : ECPBuilder F) :=
  Build_ECPBuilder (levels s) (target_cluster_size s) (metric s) (representative_ids s)
    (representative_embeddings s) v (total_clusters s)
    (node_size s) (index s) (tree_pq s) (item_pq s).
Definition set_total_clusters {F} (v : option Z) (s : ECPBuilder F) :=
  Build_ECPBuilder (levels s) (target_cluster_size s) (metric s) (representative_ids s)
    (representative_embeddings s) (item_to_cluster_map s) v
    (node_size s) (index s) (tree_pq s) (item_pq s).
Definition set_node_size {F} (v : option Z) (s : ECPBuilder F) :=
  Build_ECPBuilder (levels s) (target_cluster_size s) (metric s) (representative_ids s)
    (representative_embeddings s) (item_to_cluster_map s) (total_clusters s)
    v (index s) (tree_pq s) (item_pq s).
Definition set_index {F} (v : option (Index F)) (s : ECPBuilder F) :=
  Build_ECPBuilder (levels s) (target_cluster_size s) (metric s) (representative_ids s)
    (representative_embeddings s) (item_to_cluster_map s) (total_clusters s)
    (node_size s) v (tree_pq s) (item_pq s).
Definition set_tree_pq {F} (v : option (list (TreeEntry F))) (s : ECPBuilder F) :=
  Build_ECPBuilder (levels s) (target_cluster_size s) (metric s) (representative_ids s)
    (representative_embeddings s) (item_to_cluster_map s) (total_clusters s)
    (node_size s) (index s) v (item_pq s).
Definition set_item_pq {F} (v : option (list (ItemEntry F))) (s : ECPBuilder F) :=
  Build_ECPBuilder (levels s) (target_cluster_size s) (metric s) (representative_ids s)
    (representative_embeddings s) (item_to_cluster_map s) (total_clusters s)
    (node_size s) (index s) (tree_pq s) v.

(** ** Methods that assign attributes: state that survives an exception *)

Definition Py (F A : Type) : Type := ECPBuilder F → result A * ECPBuilder F.

Definition py_ret {F A} (a : A) : Py F A := λ s, (Ok a, s).

Definition py_bind {F A B} (c : Py F A) (k : A → Py F B) : Py F B := λ s,
  match c s with
  | (Ok a, s') => k a s'
  | (Raise e, s') => (Raise e, s')
  | (OutOfFuel, s') => (OutOfFuel, s')
  end.

#[global] Instance Py_ret {F} : MRet (Py F) := @py_ret F.
#[global] Instance Py_bind {F} : MBind (Py F) := λ A B k c, py_bind c k.

(** Reading [self]. *)
Definition get_self {F} : Py F (ECPBuilder F) := λ s, (Ok s, s).
(** Assigning attributes of [self]. *)
Definition modify_self {F} (f : ECPBuilder F → ECPBuilder F) : Py F unit := λ s, (Ok (), f s).
(** A computation that reads only: its exception propagates. *)
Definition lift {F A} (r : result A) : Py F A := λ s, (r, s).
Definition raise {F A} (e : exn) : Py F A := lift (Raise e).

(** [for x in l: body x] *)
Fixpoint for_each {F A} (l : list A) (body : A → Py F unit) : Py F unit :=
  match l with
  | [] => mret ()
  | x :: l' => _ ← body x; for_each l' body
  end.

(** The same loop over a computation that reads only, threading [acc]. *)
Fixpoint fold_result {A B} (l : list A) (acc : B) (body : B → A → result B) : result B :=
  match l with
  | [] => Ok acc
  | x :: l' => acc' ← body acc x; fold_result l' acc' body
  end.

(** [range(n)] *)
Definition range (n : Z) : list Z := map Z.of_nat (seq 0 (Z.to_nat n)).

Definition lvl_name (l : Z) : string := "lvl_" +:+ pretty l.
Definition node_name (n : Z) : string := "node_" +:+ pretty n.

(** [l[:n]]: a negative [n] counts from the end. *)
Definition slice_to {A} (n : Z) (l : list A) : list A :=
  if n <? 0 then take (Z.to_nat (Z.of_nat (length l) + n)) l else take (Z.to_nat n) l.

Definition slice_to2 {F} (n : Z) (a : ndarray2 F) : ndarray2 F :=
  Build_ndarray2 (slice_to n (rows a)) (shape1 a).

Section Builder.
Context {F : Type} {ops : Scalar F}.

(** [top, distances = f(...)] when [f] may have returned [None] *)
Definition unpack2 {A B} (r : option (A * B)) : result (A * B) :=
  match r with
  | Some p => Ok p
  | None => Raise TypeError
  end.

(** [self.index["root"]] *)
Definition index_root (self : ECPBuilder F) : result (Root F) :=
  idx ← py_getattr (index self);
  match root idx with
  | Some r => Ok r
  | None => Raise KeyError
  end.

(** [self.index[lvl][node]] *)
Definition index_node (self : ECPBuilder F) (lvl node : string) : result (Node F) :=
  idx ← py_getattr (index self);
  lv ← py_getitem (lvls idx) lvl;
  py_getitem lv node.

(** ** Ranking *)

Definition distance_root_node (self : ECPBuilder F) (emb : list F)
  : result (list nat * list F) :=
  match metric self with
  | IP =>
      r ← index_root self;
      let distances := np_dot (rows (root_embeddings r)) emb in
      let top := rev (np_argsort distances) in
      Ok (top, distances)
  | L2 =>
      r ← index_root self;
      let differences := np_sub (rows (root_embeddings r)) emb in
      let distances := norm_axis1 differences in
      let top := np_argsort distances in
      Ok (top, distances)
  | COS =>
      r ← index_root self;
      let distances := cosine_similarity (rows (root_embeddings r)) emb in
      let top := rev (np_argsort distances) in
      Ok (top, distances)
  end.

(** The raw scores of the rows of [M] against [emb], by metric: what the
    ranking of a node is expected to return as its second component. *)
Definition root_scores (m : Metric) (M : list (list F)) (emb : list F) : list F :=
  match m with
  | IP => np_dot M emb
  | L2 => norm_axis1 (np_sub M emb)
  | COS => cosine_similarity M emb
  end.

(** The [return] statement is inside the [cos] branch; the two other
    branches fall off the end of the function, which returns [None]. In
    the [L2] branch the norm is taken without [axis=1]: [distances] is
    one scalar, and [np.argsort] of a scalar is [[0]]. *)
Definition distance_level_node (self : ECPBuilder F) (emb : list F) (lvl node : string)
  : result (option (list nat * list F)) :=
  match metric self with
  | IP =>
      nd ← index_node self lvl node;
      let distances := np_dot (rows (embeddings nd)) emb in
      let top := rev (np_argsort distances) in
      Ok None
  | L2 =>
      nd ← index_node self lvl node;
      let differences := np_sub (rows (embeddings nd)) emb in
      let distances := norm_all differences in
      let top := np_argsort [distances] in
      Ok None
  | COS =>
      nd ← index_node self lvl node;
      let distances := cosine_similarity (rows (embeddings nd)) emb in
      let top := rev (np_argsort distances) in
      Ok (Some (top, distances))
  end.

(** ** Node updates *)

(** [self.index[lvl][node]], read inside a method that assigns. *)
Definition get_node (lvl node : string) : Py F (Node F) :=
  self ← get_self; lift (index_node self lvl node).

(** Assigning a key of the dictionary [self.index[lvl][node]]: the two
    outer subscripts are looked up first. *)
Definition update_node (lvl node : string) (f : Node F → Node F) : Py F unit :=
  self ← get_self;
  idx ← lift (py_getattr (index self));
  lv ← lift (py_getitem (lvls idx) lvl);
  nd ← lift (py_getitem lv node);
  modify_self (set_index (Some (Build_Index (root idx) (<[lvl := <[node := f nd]> lv]> (lvls idx))))).

Definition set_embeddings (v : ndarray2 F) (nd : Node F) : Node F :=
  Build_Node v (item_ids nd) (node_ids nd) (distances nd) (border nd).
Definition set_item_ids (v : list Z) (nd : Node F) : Node F :=
  Build_Node (embeddings nd) v (node_ids nd) (distances nd) (border nd).
Definition set_node_ids (v : list Z) (nd : Node F) : Node F :=
  Build_Node (embeddings nd) (item_ids nd) v (distances nd) (border nd).
Definition set_distances (v : list F) (nd : Node F) : Node F :=
  Build_Node (embeddings nd) (item_ids nd) (node_ids nd) v (border nd).
Definition set_border (v : Z * F) (nd : Node F) : Node F :=
  Build_Node (embeddings nd) (item_ids nd) (node_ids nd) (distances nd) v.

(** The border a node gets from its [distances]: the array is sorted
    first and [np.argsort] is applied to the sorted copy. *)
Definition new_border (m : Metric) (dists : list F) : result (Z * F) :=
  match m with
  | IP | COS =>
      let new_border_dists := np_argsort (np_sort dists) in
      i ← py_index new_border_dists 0;
      d ← py_index dists i;
      Ok (Z.of_nat i, d)
  | L2 =>
      let new_border_dists := rev (np_argsort (np_sort dists)) in
      i ← py_index new_border_dists 0;
      d ← py_index dists i;
      Ok (Z.of_nat i, d)
  end.

Definition update_node_border_info (lvl node : string) : Py F unit :=
  self ← get_self;
  nd ← get_node lvl node;
  b ← lift (new_border (metric self) (distances nd));
  update_node lvl node (set_border b).

(** The two [resize] calls shared by [align_specific_node] and
    [align_node_embeddings_and_distances]. *)
Definition resize_node (lvl node : string) : Py F unit :=
  nd ← get_node lvl node;
  _ ← update_node lvl node (set_embeddings (resize2 (length (item_ids nd)) (embeddings nd)));
  nd ← get_node lvl node;
  update_node lvl node (set_distances (resize (length (item_ids nd)) (distances nd))).

(** The call of [update_node_border_info] is commented out in the source. *)
Definition align_specific_node (lvl node : string) : Py F unit :=
  resize_node lvl node.

Definition align_one (lvl node : string) : Py F unit :=
  _ ← resize_node lvl node;
  nd ← get_node lvl node;
  if decide (0 < length (item_ids nd))%nat
  then update_node_border_info lvl node
  else mret ().

Fixpoint align_levels (todo : list Z) (lvl_range : Z) : Py F unit :=
  match todo with
  | [] => mret ()
  | i :: todo' =>
      _ ← for_each (range lvl_range) (λ j, align_one (lvl_name i) (node_name j));
      self ← get_self;
      lvl_range' ← (if decide (i + 1 = levels self - 1)
                    then lift (py_getattr (total_clusters self))
                    else ns ← lift (py_getattr (node_size self)); mret (lvl_range * ns));
      align_levels todo' lvl_range'
  end.

Definition align_node_embeddings_and_distances : Py F unit :=
  self ← get_self;
  lvl_range ← lift (py_getattr (node_size self));
  align_levels (range (levels self)) lvl_range.
End Builder.

(** ** Collaborators *)

(** The dataset [f["embeddings"]] of an opened HDF5 file, by the accesses
    the builder makes. *)
Record Dataset (F : Type) : Type := {
  (** [len(f["embeddings"])] *)
  ds_len : Z;
  (** [f["embeddings"][::step]] *)
  ds_stride : Z → result (ndarray2 F);
  (** [f["embeddings"][ids]] *)
  ds_gather : list Z → result (ndarray2 F);
  (** [f["embeddings"][start:stop][...]] *)
  ds_slice : Z → Z → result (ndarray2 F);
}.
Arguments ds_len {F} _.
Arguments ds_stride {F} _ _.
Arguments ds_gather {F} _ _.
Arguments ds_slice {F} _ _ _.

Record World : Type := {
  (** [pathos.multiprocessing.cpu_count()] *)
  cpu_count : Z;
  (** [math.ceil(c ** (1.0 / l))] for [l <> 0], a floating-point power *)
  ceil_root : Z → Z → result Z;
  (** [np.random.choice(n, size=k, replace=False)] *)
  random_choice : Z → Z → result (list Z);
}.

(** [math.ceil(a / b)] on integers: the true quotient is a float, which is
    exact enough for the ceiling to be the integer one as long as [a] is
    below 2^53. *)
Definition ceil_div (a b : Z) : result Z :=
  if decide (b = 0) then Raise ZeroDivisionError else Ok (- ((- a) / b)).

(** [l[::step]] for [step <> 0] *)
Definition stride {A} (step : Z) (l : list A) : list A :=
  let every (k : nat) (l : list A) := omap (λ i : nat, l !! (i * k)%nat) (seq 0 (length l)) in
  if 0 <? step then every (Z.to_nat step) l else every (Z.to_nat (- step)) (rev l).

(** [enumerate(l)] *)
Definition enumerate {A} (l : list A) : list (Z * A) :=
  zip (range (Z.of_nat (length l))) l.

Section Selection.
Context {F : Type} {ops : Scalar F} (w : World).

(** Writing the representatives to [save_to_file] is left out. *)
Definition select_cluster_representatives (f : Dataset F) (opt : string)
  : Py F (option (ndarray2 F) * option (list Z)) :=
  self ← get_self;
  let total_items := ds_len f in
  tc ← lift (ceil_div total_items (target_cluster_size self));
  _ ← modify_self (set_total_clusters (Some tc));
  ns ← lift (if decide (levels self = 0) then Raise ZeroDivisionError
             else ceil_root w tc (levels self));
  _ ← modify_self (set_node_size (Some ns));
  _ ← (if String.eqb opt "offset" then
         let all_item_ids := map (λ i, i mod 2 ^ 32) (range total_items) in
         _ ← modify_self (set_representative_ids
                (Some (stride (target_cluster_size self) all_item_ids)));
         emb ← lift (ds_stride f (target_cluster_size self));
         modify_self (set_representative_embeddings (Some emb))
       else if String.eqb opt "random" then
         ids ← lift (random_choice w total_items tc);
         _ ← modify_self (set_representative_ids (Some ids));
         emb ← lift (ds_gather f ids);
         modify_self (set_representative_embeddings (Some emb))
       else if String.eqb opt "dissimilar" then
         raise NotImplementedError
       else
         raise ValueError);
  self ← get_self;
  mret (representative_embeddings self, representative_ids self).

(** [emb] and [ids] are the two datasets read from the file. *)
Definition get_cluster_representatives_from_file (emb : ndarray2 F) (ids : list Z)
  : Py F (option (ndarray2 F) * option (list Z)) :=
  _ ← modify_self (set_representative_embeddings (Some emb));
  _ ← modify_self (set_representative_ids (Some ids));
  self ← get_self;
  mret (representative_embeddings self, representative_ids self).
End Selection.

Section Build.
Context {F : Type} {ops : Scalar F}.

(** [self.index[lvl] = {}] *)
Definition new_level (lvl : string) : Py F unit :=
  self ← get_self;
  idx ← lift (py_getattr (index self));
  modify_self (set_index (Some (Build_Index (root idx) (<[lvl := ∅]> (lvls idx))))).

(** [self.index[lvl][node] = nd] *)
Definition new_node (lvl node : string) (nd : Node F) : Py F unit :=
  self ← get_self;
  idx ← lift (py_getattr (index self));
  lv ← lift (py_getitem (lvls idx) lvl);
  modify_self (set_index (Some (Build_Index (root idx) (<[lvl := <[node := nd]> lv]> (lvls idx))))).

(** The dictionary a node starts as. *)
Definition empty_node (ns : Z) (dim : nat) : result (Node F) :=
  e ← np_zeros2 ns dim;
  d ← np_zeros ns;
  Ok (Build_Node e [] [] d (-1, fone)).

(** [lvl_range = lvl_range * self.node_size], capped at [self.total_clusters] *)
Definition next_range (lvl_range : Z) : Py F Z :=
  self ← get_self;
  ns ← lift (py_getattr (node_size self));
  let lvl_range := lvl_range * ns in
  tc ← lift (py_getattr (total_clusters self));
  mret (if tc <? lvl_range then tc else lvl_range).

Fixpoint construct_levels (remb : ndarray2 F) (todo : list Z) (lvl_range : Z) : Py F unit :=
  match todo with
  | [] => mret ()
  | l :: todo' =>
      lvl_range ← next_range lvl_range;
      let lvl := lvl_name l in
      _ ← new_level lvl;
      _ ← for_each (range lvl_range) (λ i,
            self ← get_self;
            ns ← lift (py_getattr (node_size self));
            nd ← lift (empty_node ns (shape1 remb));
            new_node lvl (node_name i) nd);
      construct_levels remb todo' lvl_range
  end.

(** A full node grows by [node_size] rows before the next slot is written. *)
Definition grow_if_full (lvl node : string) (next : nat) : Py F unit :=
  nd ← get_node lvl node;
  if decide (length (rows (embeddings nd)) ≤ next)%nat then
    self ← get_self;
    ns ← lift (py_getattr (node_size self));
    remb ← lift (py_getattr (representative_embeddings self));
    concat_array_emb ← lift (np_zeros2 ns (shape1 remb));
    concat_array_dist ← lift (np_zeros ns);
    e ← lift (np_concatenate2 (embeddings nd) concat_array_emb);
    _ ← update_node lvl node (set_embeddings e);
    nd ← get_node lvl node;
    update_node lvl node (set_distances (distances nd ++ concat_array_dist))
  else mret ().

(** The border kept while inserting: the slot just written replaces it
    when its score is worse (smaller for IP and cos, larger for L2). The
    stored score is never [None], so that test is left out. *)
Definition border_on_insert (lvl node : string) (next : nat) (dist : F) : Py F unit :=
  self ← get_self;
  nd ← get_node lvl node;
  match metric self with
  | IP | COS =>
      if flt dist (snd (border nd))
      then update_node lvl node (set_border (Z.of_nat next, dist))
      else mret ()
  | L2 =>
      if flt (snd (border nd)) dist
      then update_node lvl node (set_border (Z.of_nat next, dist))
      else mret ()
  end.

(** The branch [curr_lvl == l] of the descent. *)
Definition append_child (rids : list Z) (lvl node : string)
    (emb : list F) (cl_idx : Z) (top : list nat) (dists : list F) : Py F unit :=
  nd ← get_node lvl node;
  let next := length (item_ids nd) in
  _ ← grow_if_full lvl node next;
  nd ← get_node lvl node;
  e ← lift (set_row (embeddings nd) next emb);
  _ ← update_node lvl node (set_embeddings e);
  nd ← get_node lvl node;
  rid ← lift (py_index rids (Z.to_nat cl_idx));
  _ ← update_node lvl node (set_item_ids (item_ids nd ++ [rid]));
  nd ← get_node lvl node;
  _ ← update_node lvl node (set_node_ids (node_ids nd ++ [cl_idx]));
  nd ← get_node lvl node;
  t0 ← lift (py_index top 0);
  d ← lift (py_index dists t0);
  ds ← lift (py_setitem (distances nd) next d);
  _ ← update_node lvl node (set_distances ds);
  border_on_insert lvl node next d.

(** The [while True] loop of one representative: [rem] is [l - curr_lvl],
    the number of levels still to go down before [curr_lvl == l]. *)
Fixpoint descend (remb : ndarray2 F) (rids : list Z) (emb : list F) (cl_idx : Z)
    (rem : nat) (curr_lvl : Z) (n : Z) (top : list nat) (dists : list F) : Py F unit :=
  let lvl := lvl_name curr_lvl in
  let node := node_name n in
  match rem with
  | O => append_child rids lvl node emb cl_idx top dists
  | S rem' =>
      self ← get_self;
      r ← lift (distance_level_node self emb lvl node);
      '(top, dists) ← lift (unpack2 r);
      nd ← get_node lvl node;
      t0 ← lift (py_index top 0);
      n ← lift (py_index (node_ids nd) t0);
      descend remb rids emb cl_idx rem' (curr_lvl + 1) n top dists
  end.

Fixpoint insert_levels (remb : ndarray2 F) (rids : list Z) (todo : list Z) (lvl_range : Z)
  : Py F unit :=
  match todo with
  | [] => mret ()
  | l :: todo' =>
      lvl_range ← next_range lvl_range;
      let embeddings := slice_to lvl_range (rows remb) in
      _ ← for_each (enumerate embeddings) (λ '(cl_idx, emb),
            self ← get_self;
            '(top, dists) ← lift (distance_root_node self emb);
            t0 ← lift (py_index top 0);
            descend remb rids emb cl_idx (Z.to_nat l) 0 (Z.of_nat t0) top dists);
      insert_levels remb rids todo' lvl_range
  end.

(** Writing the tree to [save_to_file] is left out. The nested function
    [check_to_replace_border] is never called and is not embedded. *)
Definition build_tree_h5 : Py F unit :=
  self ← get_self;
  match representative_embeddings self, representative_ids self with
  | Some remb, Some rids =>
      _ ← modify_self (set_index (Some (Build_Index None ∅)));
      ns ← lift (py_getattr (node_size self));
      _ ← modify_self (set_index (Some (Build_Index
             (Some (Build_Root (slice_to ns rids) (slice_to2 ns remb))) ∅)));
      _ ← construct_levels remb (range (levels self)) 1;
      ns ← lift (py_getattr (node_size self));
      _ ← insert_levels remb rids (range (levels self - 1)) ns;
      align_node_embeddings_and_distances
  | _, _ => raise ValueError
  end.
End Build.

(** ** Assigning items to leaf clusters *)

Section Assign.
Context {F : Type} {ops : Scalar F}.

(** [for t in top: node = f"node_{t}"; if ... > 0: break] over the root's
    ranking: [t] is an element of [top]. The loop variables keep their
    last values when the loop ends without [break]. *)
Fixpoint scan_root (self : ECPBuilder F) (lvl : string) (top : list nat)
    (node : string) (t : option nat) : result (string * option nat) :=
  match top with
  | [] => Ok (node, t)
  | t' :: top' =>
      let node := node_name (Z.of_nat t') in
      nd ← index_node self lvl node;
      if decide (0 < length (item_ids nd))%nat then Ok (node, Some t')
      else scan_root self lvl top' node (Some t')
  end.

(** [for t, n in enumerate(top): node = f"node_{n}"; if ... > 0: break]:
    here [t] is a position of [top]. *)
Fixpoint scan_level (self : ECPBuilder F) (lvl : string) (top : list (Z * nat))
    (node : string) (t : option nat) : result (string * option nat) :=
  match top with
  | [] => Ok (node, t)
  | (t', n) :: top' =>
      let node := node_name (Z.of_nat n) in
      nd ← index_node self lvl node;
      if decide (0 < length (item_ids nd))%nat then Ok (node, Some (Z.to_nat t'))
      else scan_level self lvl top' node (Some (Z.to_nat t'))
  end.

(** The loop [for l in range(self.levels)] shared by [add_items] and
    [determine_node_map]; [found] is the pair recorded at the last level. *)
Fixpoint locate_levels (self : ECPBuilder F) (emb : list F) (todo : list Z)
    (top : list nat) (dists : list F) (lvl node : string) (t : option nat)
    (found : option (string * F)) : result (option (string * F)) :=
  match todo with
  | [] => Ok found
  | l :: todo' =>
      if decide (l = levels self - 1) then
        t' ← match t with Some t' => Ok t' | None => Raise UnboundLocalError end;
        i ← py_index top t';
        d ← py_index dists i;
        locate_levels self emb todo' top dists lvl node t (Some (node, d))
      else
        r ← distance_level_node self emb lvl node;
        '(top, dists) ← unpack2 r;
        let lvl := lvl_name (l + 1) in
        if decide (l + 1 < levels self - 1) then
          '(node, t) ← scan_level self lvl (enumerate top) node t;
          locate_levels self emb todo' top dists lvl node t found
        else
          locate_levels self emb todo' top dists lvl node t found
  end.

Definition locate (self : ECPBuilder F) (emb : list F) : result (option (string * F)) :=
  '(top, dists) ← distance_root_node self emb;
  let lvl := "lvl_0" in
  '(node, t) ← scan_root self lvl top "" None;
  locate_levels self emb (range (levels self)) top dists lvl node t None.

(** Adding to the index file is not part of the method: it fills
    [self.item_to_cluster_map] only. *)
Definition add_items (item_embeddings : list (list F)) (offset : Z) : Py F unit :=
  for_each (enumerate item_embeddings) (λ '(idx, emb),
    self ← get_self;
    found ← lift (locate self emb);
    match found with
    | Some entry =>
        modify_self (set_item_to_cluster_map (<[offset + idx := entry]> (item_to_cluster_map self)))
    | None => mret ()
    end).

Definition determine_node_map (self : ECPBuilder F) (item_embeddings : list (list F))
    (offset : Z) : result (gmap string (list (Z * F))) :=
  fold_result (enumerate item_embeddings) ∅ (λ node_map '(idx, emb),
    found ← locate self emb;
    match found with
    | Some (node, d) =>
        match node_map !! node with
        | Some entries => Ok (<[node := entries ++ [(offset + idx, d)]]> node_map)
        | None => Ok (<[node := [(offset + idx, d)]]> node_map)
        end
    | None => Ok node_map
    end).

(** One [(item, dist, emb)] triple appended to a leaf. *)
Definition append_item (lvl node : string) (item : Z) (dist : F) (emb : list F) : Py F unit :=
  nd ← get_node lvl node;
  let next := length (item_ids nd) in
  _ ← grow_if_full lvl node next;
  nd ← get_node lvl node;
  e ← lift (set_row (embeddings nd) next emb);
  _ ← update_node lvl node (set_embeddings e);
  nd ← get_node lvl node;
  _ ← update_node lvl node (set_item_ids (item_ids nd ++ [item]));
  nd ← get_node lvl node;
  ds ← lift (py_setitem (distances nd) next dist);
  _ ← update_node lvl node (set_distances ds);
  border_on_insert lvl node next dist.

(** [clusters] is a dictionary in insertion order. Writing the leaves to
    [save_to_file] is left out. *)
Definition write_cluster_items_to_file (clusters : list (string * list (Z * F * list F)))
  : Py F unit :=
  self ← get_self;
  let lvl := lvl_name (levels self - 1) in
  for_each clusters (λ '(k, v),
    let node := k in
    _ ← for_each v (λ '(item, dist, emb), append_item lvl node item dist emb);
    align_specific_node lvl node).
End Assign.

(** [range(start, stop, step)] *)
Definition range3 (start stop step : Z) : result (list Z) :=
  if decide (step = 0) then Raise ValueError
  else if 0 <? step
       then Ok (map (λ i, start + i * step) (range ((stop - start + step - 1) / step)))
       else Ok (map (λ i, start + i * step) (range ((start - stop - step - 1) / (- step)))).

(** [fold_result] for a loop that only collects one value per element. *)
Definition map_result {A B} (f : A → result B) (l : list A) : result (list B) :=
  fold_result l [] (λ acc x, y ← f x; Ok (acc ++ [y])).

Section Concurrent.
Context {F : Type} {ops : Scalar F} (w : World).

(** The number of processes the pool is created with. *)
Definition worker_processes (workers : Z) : Z :=
  if cpu_count w <? workers then cpu_count w - 1 else workers.

(** [Pool(processes)]: every task is applied and the results are
    collected with [future.get()] in submission order; the first task that
    raised re-raises there. The pool itself is outside the embedding: how
    many processes run the tasks does not change what they return, and a
    pool asked for fewer than one process, which refuses to start, is not
    modelled. *)
Definition pool_apply {A B} (processes : Z) (task : A → result B) (args : list A)
  : result (list B) :=
  map_result task args.

(** [node in cluster_items]: [node] is a [str] and the elements of
    [cluster_items] are tuples, which are never equal to a [str]. *)
Definition str_in_triples (node : string) (cluster_items : list (Z * F * list F)) : bool :=
  existsb (λ _, false) cluster_items.

(** The loop [for pmap in partial_node_maps] for one cluster. In its
    body, [for i, idx, dist in enumerate(pmap[node])] unpacks the pairs
    [(i, (idx, dist))] into three names, a [ValueError] at the first
    element. *)
Definition gather_cluster_items (f : Dataset F) (node : string)
    (partial_node_maps : list (gmap string (list (Z * F))))
  : result (list (Z * F * list F)) :=
  fold_result partial_node_maps [] (λ cluster_items pmap,
    if str_in_triples node cluster_items then
      entries ← py_getitem pmap node;
      let idx_mask := map fst entries in
      embs ← ds_gather f idx_mask;
      match entries with
      | [] => Ok (cluster_items ++ [])
      | _ :: _ => Raise ValueError
      end
    else Ok cluster_items).

(** The dictionary [clusters] of one slice of cluster numbers. *)
Definition prepare_chunk (f : Dataset F) (start_idx end_idx : Z)
    (partial_node_maps : list (gmap string (list (Z * F))))
  : result (list (string * list (Z * F * list F))) :=
  map_result (λ n,
      let node := node_name n in
      cluster_items ← gather_cluster_items f node partial_node_maps;
      Ok (node, cluster_items))
    (map (λ i, start_idx + i) (range (end_idx - start_idx))).

(** The merge phase, run when [save_to_file != ""]. *)
Definition merge_phase (f : Dataset F)
    (partial_node_maps : list (gmap string (list (Z * F)))) : Py F unit :=
  self ← get_self;
  tc ← lift (py_getattr (total_clusters self));
  let clst_chunks := Z.quot tc 20 in
  starts ← lift (range3 0 tc clst_chunks);
  for_each starts (λ start_idx,
    self ← get_self;
    tc ← lift (py_getattr (total_clusters self));
    let end_idx := Z.min (start_idx + clst_chunks) tc in
    clusters ← lift (prepare_chunk f start_idx end_idx partial_node_maps);
    write_cluster_items_to_file clusters).

Definition add_items_concurrent (f : Dataset F) (save_to_file : string)
    (chunk_size workers : Z) : Py F unit :=
  let processes := worker_processes workers in
  let total_items := ds_len f in
  starts ← lift (range3 0 total_items chunk_size);
  chunks ← lift (map_result (λ start_idx,
               let end_idx := Z.min (start_idx + chunk_size) total_items in
               chunk_data ← ds_slice f start_idx end_idx;
               Ok (chunk_data, start_idx)) starts);
  self ← get_self;
  partial_node_maps ← lift (pool_apply processes
      (λ '(chunk_data, offset), determine_node_map self (rows chunk_data) offset) chunks);
  if String.eqb save_to_file "" then mret ()
  else merge_phase f partial_node_maps.
End Concurrent.

(** ** Search *)

Section Search.
Context {F : Type} {ops : Scalar F}.

(** [a < b] on the tuples of [self.tree_pq]: the first components that
    differ decide. *)
Definition tree_lt (a b : TreeEntry F) : bool :=
  let '(d1, leaf1, l1, n1) := a in
  let '(d2, leaf2, l2, n2) := b in
  if negb (feq d1 d2) then flt d1 d2
  else if negb (Bool.eqb leaf1 leaf2) then negb leaf1 && leaf2
  else if negb (l1 =? l2) then l1 <? l2
  else n1 <? n2.

(** [a < b] on the tuples of [self.item_pq] *)
Definition item_lt (a b : ItemEntry F) : bool :=
  let '(d1, i1) := a in
  let '(d2, i2) := b in
  if negb (feq d1 d2) then flt d1 d2 else i1 <? i2.

(** The least element of [x :: q] (the first one among equals) and the
    other elements. *)
Fixpoint pq_pop {A} (lt : A → A → bool) (x : A) (q : list A) : A * list A :=
  match q with
  | [] => (x, [])
  | y :: q' =>
      let '(m, rest) := pq_pop lt y q' in
      if lt m x then (m, x :: rest) else (x, y :: q')
  end.

(** [PriorityQueue.get()] on a queue that is not empty *)
Definition pq_get {A} (lt : A → A → bool) (q : list A) : option (A * list A) :=
  match q with
  | [] => None
  | x :: q' => Some (pq_pop lt x q')
  end.

(** [PriorityQueue.put(x)] *)
Definition pq_put {A} (x : A) (q : list A) : list A := q ++ [x].

(** [self.tree_pq.put(x)]: the attribute is read before the tuple [x] is
    evaluated. *)
Definition tree_put (x : result (TreeEntry F)) : Py F unit :=
  self ← get_self;
  q ← lift (py_getattr (tree_pq self));
  e ← lift x;
  modify_self (set_tree_pq (Some (pq_put e q))).

(** [self.item_pq.put(x)] *)
Definition item_put (x : result (ItemEntry F)) : Py F unit :=
  self ← get_self;
  q ← lift (py_getattr (item_pq self));
  e ← lift x;
  modify_self (set_item_pq (Some (pq_put e q))).

(** The local variables of [search_tree] that only the leaf branch
    assigns; [None] is a variable not yet bound. *)
Record Locals : Type := {
  loc_lvl : option string;
  loc_node : option string;
  loc_radius : option F;
}.

Definition py_local {A} (v : option A) : result A :=
  match v with
  | Some a => Ok a
  | None => Raise UnboundLocalError
  end.

(** The branch [if is_leaf] of the loop body. *)
Definition expand_leaf (query : list F) (l n : Z) : Py F Locals :=
  let lvl := lvl_name l in
  let node := node_name n in
  nd ← get_node lvl node;
  let radius := snd (border nd) in
  self ← get_self;
  r ← lift (distance_level_node self query lvl node);
  '(top, dists) ← lift (unpack2 r);
  _ ← for_each top (λ t,
        self ← get_self;
        item_put (d ← py_index dists t;
                  nd ← index_node self lvl node;
                  item ← py_index (item_ids nd) t;
                  Ok (d, item)));
  mret {| loc_lvl := Some lvl; loc_node := Some node; loc_radius := Some radius |}.

(** The branch [else]: [lvl], [node] and [radius] are read, never
    assigned; the popped [l] only sets the level of the pushed entries. *)
Definition expand_internal (query : list F) (l : Z) (loc : Locals) : Py F unit :=
  lvl ← lift (py_local (loc_lvl loc));
  node ← lift (py_local (loc_node loc));
  self ← get_self;
  r ← lift (distance_level_node self query lvl node);
  '(top, dists) ← lift (unpack2 r);
  for_each top (λ t,
    self ← get_self;
    dist ← (match metric self with
            | L2 =>
                d ← lift (py_index dists t);
                radius ← lift (py_local (loc_radius loc));
                mret (fsub d radius)
            | IP | COS =>
                d ← lift (py_index dists t);
                radius ← lift (py_local (loc_radius loc));
                mret (fadd d radius)
            end);
    tree_put (nd ← index_node self lvl node;
              child ← py_index (node_ids nd) t;
              Ok (dist, bool_decide (l + 1 = levels self - 1), l + 1, child))).

(** [while leaf_cnt != search_exp and not self.tree_pq.empty()]; [fuel]
    bounds the number of iterations of the model. *)
Fixpoint search_loop (fuel : nat) (query : list F) (search_exp leaf_cnt : Z) (loc : Locals)
  : Py F unit :=
  if bool_decide (leaf_cnt = search_exp) then mret ()
  else
    self ← get_self;
    q ← lift (py_getattr (tree_pq self));
    match pq_get tree_lt q with
    | None => mret ()
    | Some ((_, is_leaf, l, n), rest) =>
        match fuel with
        | O => lift OutOfFuel
        | S fuel' =>
            _ ← modify_self (set_tree_pq (Some rest));
            if (is_leaf : bool) then
              loc' ← expand_leaf query l n;
              search_loop fuel' query search_exp (leaf_cnt + 1) loc'
            else
              _ ← expand_internal query l loc;
              search_loop fuel' query search_exp leaf_cnt loc
        end
    end.

(** [[self.item_pq.get() for _ in range(k) if not self.item_pq.empty()]] *)
Fixpoint drain (k : nat) : Py F (list (ItemEntry F)) :=
  match k with
  | O => mret []
  | S k' =>
      self ← get_self;
      q ← lift (py_getattr (item_pq self));
      match pq_get item_lt q with
      | None => drain k'
      | Some (x, rest) =>
          _ ← modify_self (set_item_pq (Some rest));
          xs ← drain k';
          mret (x :: xs)
      end
  end.

Definition search_tree (fuel : nat) (query : list F) (search_exp k : Z) (restart : bool)
  : Py F (list (ItemEntry F)) :=
  let leaf_cnt := 0 in
  _ ← (if restart
       then _ ← modify_self (set_tree_pq (Some [])); modify_self (set_item_pq (Some []))
       else mret ());
  self ← get_self;
  '(top, dists) ← lift (distance_root_node self query);
  _ ← for_each top (λ t,
        tree_put (d ← py_index dists t; Ok (d, false, 0, Z.of_nat t)));
  _ ← search_loop fuel query search_exp leaf_cnt
        {| loc_lvl := None; loc_node := None; loc_radius := None |};
  drain (Z.to_nat k).
End Search.

(** ** Instances of the scalars *)

(** Binary64 floats, numpy's default [dtype]. The cosine similarity is
    computed the way scikit-learn does: both vectors are divided by their
    norms (a zero norm counts as one) and the results are multiplied. *)
Definition float_scalar : Scalar float :=
  let fdot (a b : list float) :=
    fold_left PrimFloat.add (zip_with PrimFloat.mul a b) 0%float in
  let normalize (a : list float) :=
    let n := PrimFloat.sqrt (fdot a a) in
    let n := if PrimFloat.eqb n 0%float then 1%float else n in
    map (λ x, PrimFloat.div x n) a in
  {| fzero := 0%float;
     fone := 1%float;
     fadd := PrimFloat.add;
     fsub := PrimFloat.sub;
     fmul := PrimFloat.mul;
     fsqrt := PrimFloat.sqrt;
     flt := PrimFloat.ltb;
     feq := PrimFloat.eqb;
     cosine := λ a b, fdot (normalize a) (normalize b) |}.

(** An in-memory array read the way the dataset of a file is. *)
Definition dataset_of_array {F} (a : ndarray2 F) : Dataset F :=
  {| ds_len := Z.of_nat (length (rows a));
     ds_stride := λ step,
       if 0 <? step then Ok (Build_ndarray2 (stride step (rows a)) (shape1 a))
       else Raise ValueError;
     ds_gather := λ ids,
       rs ← map_result (λ i, if i <? 0 then Raise IndexError
                             else py_index (rows a) (Z.to_nat i)) ids;
       Ok (Build_ndarray2 rs (shape1 a));
     ds_slice := λ start stop,
       Ok (Build_ndarray2 (drop (Z.to_nat start) (take (Z.to_nat stop) (rows a))) (shape1 a)) |}.

(** ** Small indexes used as examples *)

(** The ceiling of the [l]-th root of [c] for [0 <= c] and [1 <= l], which
    is what the floating-point expression yields on the small values below
    ([20 ** 0.5] is [4.47...], [4 ** 0.5] is [2.0], [c ** 1.0] is [c]). *)
Definition exact_ceil_root (c l : Z) : result Z :=
  if (0 <=? c) && (1 <=? l)
  then Ok (default 0 (find (λ n, c <=? n ^ l) (range (c + 1))))
  else Raise ValueError.

(** A machine with four CPUs; the sampler returns the first [k] ids. *)
Definition demo_world : World :=
  {| cpu_count := 4;
     ceil_root := exact_ceil_root;
     random_choice := λ n k, Ok (range k) |}.

(** [n] embeddings of dimension 2: [[1.0, 1.0], [2.0, 1.0], ...]. *)
Definition demo_data (n : Z) : ndarray2 float :=
  Build_ndarray2
    (map (λ i, [PrimFloat.of_uint63 (Uint63.of_Z (i + 1)); 1%float]) (range n)) 2.

(** [ECPBuilder(levels, logger, target_cluster_size, metric)], then
    [select_cluster_representatives(file, "offset")] and [build_tree_h5()]
    over a file of [n] embeddings. *)
Definition demo_selected (levels tcs : Z) (m : Metric) (n : Z) : ECPBuilder float :=
  snd (select_cluster_representatives demo_world (dataset_of_array (demo_data n)) "offset"
         (init levels tcs m)).

Definition demo_built (levels tcs : Z) (m : Metric) (n : Z) : ECPBuilder float :=
  snd (build_tree_h5 (ops := float_scalar) (demo_selected levels tcs m n)).

(** The item lists of the nodes of one level, by node name. *)
Definition level_item_ids {F} (self : ECPBuilder F) (lvl : string) : list (string * list Z) :=
  match index self with
  | Some idx =>
      match lvls idx !! lvl with
      | Some lv => map (λ p, (fst p, item_ids (snd p))) (map_to_list lv)
      | None => []
      end
  | None => []
  end.

(** The item list of one node, if the node exists. *)
Definition node_items {F} (self : ECPBuilder F) (lvl node : string) : option (list Z) :=
  match index self with
  | Some idx => lv ← lvls idx !! lvl; nd ← lv !! node; Some (item_ids nd)
  | None => None
  end.

(** [c] leaves the item list of every node as it found it, whether it
    returns or raises. *)
Definition keeps_items {F A} (c : Py F A) : Prop :=
  ∀ (self : ECPBuilder F) (lvl node : string),
    node_items (snd (c self)) lvl node = node_items self lvl node.

(** A one-level index over one leaf that holds three items with the given
    scores: the node of the border scenario. *)
Definition scenario_node (scores : list float) : Node float :=
  Build_Node (Build_ndarray2 [[1%float]; [2%float]; [3%float]] 1) [10; 11; 12] [] scores
    (-1, 1%float).

Definition scenario_builder (m : Metric) (scores : list float) : ECPBuilder float :=
  set_index (Some (Build_Index None {[ "lvl_0" := {[ "node_0" := scenario_node scores ]} ]}))
    (set_node_size (Some 1) (set_total_clusters (Some 1) (init 1 3 m))).

(** ** What a method leaves alone *)

(** [c] leaves the part [proj] of the builder as it found it, whether it
    returns or raises. *)
Definition keeps {F A X} (proj : ECPBuilder F → X) (c : Py F A) : Prop :=
  ∀ self : ECPBuilder F, proj (snd (c self)) = proj self.

(** The builder apart from its two search queues. *)
Definition without_queues {F} (s : ECPBuilder F) : ECPBuilder F :=
  set_tree_pq None (set_item_pq None s).

(** The builder apart from [self.index]. *)
Definition without_index {F} (s : ECPBuilder F) : ECPBuilder F :=
  set_index None s.

(** The builder apart from [self.item_to_cluster_map]. *)
Definition without_item_map {F} (s : ECPBuilder F) : ECPBuilder F :=
  set_item_to_cluster_map ∅ s.

(** The item ids a node map holds, over all its nodes. *)
Definition node_map_ids {F} (node_map : gmap string (list (Z * F))) : list Z :=
  map_to_list node_map ≫= λ entry, fst <$> snd entry.

(** * Properties *)

(** ** Sorting *)

Section SortFacts.
Context {A : Type} (lt : A → A → bool).

Lemma insert_by_perm (x : A) (l : list A) : insert_by lt x l ≡ₚ x :: l.
Proof.
  induction l as [|y l IH]; simpl; [done|].
  destruct (lt y x); [|done].
  rewrite IH. apply Permutation_swap.
Qed.

Lemma sort_by_perm (l : list A) : sort_by lt l ≡ₚ l.
Proof.
  induction l as [|x l IH]; simpl; [done|].
  rewrite insert_by_perm. by rewrite IH.
Qed.

Lemma sort_by_length (l : list A) : length (sort_by lt l) = length l.
Proof. by rewrite sort_by_perm. Qed.

Hypothesis lt_asym : ∀ x y, lt x y = true → lt y x = false.

Lemma insert_by_ascending (x : A) (l : list A) :
  ascending lt l → ascending lt (insert_by lt x l).
Proof.
  induction l as [|y l IH]; simpl; [done|].
  intros Hl. destruct (lt y x) eqn:Hyx.
  - destruct l as [|z l]; simpl in *.
    + split; [by apply lt_asym|done].
    + destruct Hl as [Hzy Hl]. specialize (IH Hl).
      destruct (lt z x) eqn:Hzx.
      * split; [done|exact IH].
      * split; [by apply lt_asym|exact IH].
  - split; [done|]. exact Hl.
Qed.

Lemma sort_by_ascending (l : list A) : ascending lt (sort_by lt l).
Proof.
  induction l as [|x l IH]; simpl; [done|].
  by apply insert_by_ascending.
Qed.
End SortFacts.

Lemma ascending_lookup {A} (lt : A → A → bool) (l : list A) (i : nat) (x y : A) :
  ascending lt l → l !! i = Some x → l !! S i = Some y → lt y x = false.
Proof.
  revert i. induction l as [|a l IH]; intros i Hl Hx Hy; [done|].
  destruct l as [|b l]; [done|]. destruct Hl as [Hba Hl].
  destruct i as [|i]; simpl in *.
  - by simplify_eq.
  - by apply (IH i).
Qed.

Lemma ascending_snoc {A} (lt : A → A → bool) (l : list A) (x : A) :
  ascending lt l → (∀ y, last l = Some y → lt x y = false) → ascending lt (l ++ [x]).
Proof.
  induction l as [|a l IH]; intros Hl Hlast; [done|].
  destruct l as [|b l].
  - simpl. split; [by apply Hlast|done].
  - destruct Hl as [Hba Hl]. split; [exact Hba|].
    apply IH; [exact Hl|]. intros y Hy. by apply Hlast.
Qed.

(** A list that ascends, reversed, descends. *)
Lemma ascending_rev {A} (lt : A → A → bool) (l : list A) :
  ascending lt l → ascending (λ x y, lt y x) (rev l).
Proof.
  induction l as [|a l IH]; intros Hl; [done|].
  simpl. destruct l as [|b l].
  - done.
  - destruct Hl as [Hba Hl]. apply ascending_snoc; [by apply IH|].
    intros y Hy. simpl in Hy. rewrite last_snoc in Hy. by injection Hy as <-.
Qed.

(** Sorting a run of positions whose keys already ascend changes nothing. *)
Lemma sort_by_seq_id (lt : nat → nat → bool) (n a : nat) :
  (∀ i, (a ≤ i)%nat → (S i < a + n)%nat → lt (S i) i = false) →
  sort_by lt (seq a n) = seq a n.
Proof.
  revert a. induction n as [|n IH]; intros a Hasc; [done|].
  simpl. rewrite IH by (intros i ? ?; apply Hasc; lia).
  destruct n as [|n]; simpl; [done|].
  rewrite Hasc by lia. done.
Qed.

Section ArgsortFacts.
Context {F : Type} {ops : Scalar F}.

Lemma np_argsort_perm (d : list F) : np_argsort d ≡ₚ seq 0 (length d).
Proof. apply sort_by_perm. Qed.

Lemma np_argsort_length (d : list F) : length (np_argsort d) = length d.
Proof. by rewrite np_argsort_perm, length_seq. Qed.

Lemma np_argsort_bound (d : list F) (t : nat) : t ∈ np_argsort d → (t < length d)%nat.
Proof. rewrite np_argsort_perm, elem_of_seq. lia. Qed.

Lemma np_argsort_ascending_id (s : list F) :
  ascending flt s → np_argsort s = seq 0 (length s).
Proof.
  intros Hs. apply sort_by_seq_id. intros i _ Hi. unfold key.
  destruct (lookup_lt_is_Some_2 s (S i)) as [y Hy]; [lia|].
  destruct (lookup_lt_is_Some_2 s i) as [x Hx]; [lia|].
  rewrite Hx, Hy. simpl. by eapply ascending_lookup.
Qed.
End ArgsortFacts.

(** The strict order of binary64 floats is asymmetric (a NaN is smaller than
    nothing). *)
Lemma SFcompare_antisym (a b : SpecFloat.spec_float) :
  SpecFloat.SFcompare b a = option_map CompOpp (SpecFloat.SFcompare a b).
Proof.
  destruct a as [sa|sa| |sa ma ea], b as [sb|sb| |sb mb eb]; simpl;
    try reflexivity; try (by destruct sa); try (by destruct sb);
    try (by destruct sa, sb).
  destruct sa, sb; simpl; try reflexivity.
  - rewrite (Z.compare_antisym ea eb).
    destruct (ea ?= eb)%Z eqn:He; simpl; try reflexivity.
    by rewrite (Pos.compare_cont_antisym ma mb Eq).
  - rewrite (Z.compare_antisym ea eb).
    destruct (ea ?= eb)%Z eqn:He; simpl; try reflexivity.
    by rewrite (Pos.compare_cont_antisym ma mb Eq).
Qed.

Lemma float_ltb_asym (x y : float) :
  PrimFloat.ltb x y = true → PrimFloat.ltb y x = false.
Proof.
  rewrite !FloatAxioms.ltb_spec. unfold SpecFloat.SFltb.
  rewrite (SFcompare_antisym (Prim2SF x) (Prim2SF y)).
  by destruct (SpecFloat.SFcompare (Prim2SF x) (Prim2SF y)) as [[]|].
Qed.

(** ** Ranking *)

Section RankingFacts.
Context {F : Type} {ops : Scalar F}.

(** C1 (the code departs from the claim). [distance_level_node] returns a
    pair only for the metric [cos]: for [IP] and for [L2], whatever the
    node holds and whatever the query is, the call returns [None], where
    the claim promises the ordering and the scores. *)
Theorem distance_level_node_returns_None
    (self : ECPBuilder F) (emb : list F) (lvl node : string) (nd : Node F) :
  metric self = IP ∨ metric self = L2 →
  index_node self lvl node = Ok nd →
  distance_level_node self emb lvl node = Ok None.
Proof.
  intros Hm Hnd. unfold distance_level_node.
  destruct Hm as [-> | ->]; rewrite Hnd; reflexivity.
Qed.

(** For [cos] the same call returns the similarities and their positions. *)
Lemma distance_level_node_cos
    (self : ECPBuilder F) (emb : list F) (lvl node : string) (nd : Node F) :
  metric self = COS →
  index_node self lvl node = Ok nd →
  distance_level_node self emb lvl node =
    Ok (Some (rev (np_argsort (cosine_similarity (rows (embeddings nd)) emb)),
              cosine_similarity (rows (embeddings nd)) emb)).
Proof. intros Hm Hnd. unfold distance_level_node. by rewrite Hm, Hnd. Qed.

Lemma distance_root_node_scores (self : ECPBuilder F) (emb : list F) (r : Root F) :
  index_root self = Ok r →
  ∃ top, distance_root_node self emb
           = Ok (top, root_scores (metric self) (rows (root_embeddings r)) emb)
         ∧ top ≡ₚ seq 0 (length (rows (root_embeddings r))).
Proof.
  intros Hr. unfold distance_root_node, root_scores.
  destruct (metric self); rewrite Hr; simpl; eexists; (split; [reflexivity|]).
  - rewrite np_argsort_perm. unfold norm_axis1, np_sub. by rewrite !length_map.
  - rewrite <- Permutation_rev, np_argsort_perm. unfold np_dot. by rewrite length_map.
  - rewrite <- Permutation_rev, np_argsort_perm. unfold cosine_similarity.
    by rewrite length_map.
Qed.
(** The ranking of the root, for a query the library calls accept (it
    has the dimension of the root's rows; for cos the root has a row and
    all entries are finite): the raw scores, and the row positions sorted
    best first, that is by ascending distance for L2 (no score is smaller
    than the one before it) and by descending similarity for IP and cos (no
    score is greater than the one before it). On other queries numpy and
    scikit-learn raise [ValueError] or broadcast. *)
Theorem distance_root_node_ranks (self : ECPBuilder F) (emb : list F) (r : Root F) :
  (∀ x y : F, flt x y = true → flt y x = false) →
  index_root self = Ok r →
  rankable (metric self) (root_embeddings r) emb = true →
  ∃ top scores,
    distance_root_node self emb = Ok (top, scores)
    ∧ scores = root_scores (metric self) (rows (root_embeddings r)) emb
    ∧ top ≡ₚ seq 0 (length (rows (root_embeddings r)))
    ∧ match metric self with
      | L2 => ascending (λ i j, flt (key scores i) (key scores j)) top
      | IP | COS => ascending (λ i j, flt (key scores j) (key scores i)) top
      end.
Proof.
  intros Hasym Hr _.
  destruct (distance_root_node_scores self emb r Hr) as (top & Hrank & Hperm).
  exists top, (root_scores (metric self) (rows (root_embeddings r)) emb).
  repeat split; [exact Hrank|exact Hperm|].
  unfold distance_root_node in Hrank. rewrite Hr in Hrank.
  destruct (metric self); simpl in Hrank; injection Hrank as <-.
  - apply sort_by_ascending. intros i j. apply Hasym.
  - apply (ascending_rev (λ i j, flt (key _ i) (key _ j))).
    apply sort_by_ascending. intros i j. apply Hasym.
  - apply (ascending_rev (λ i j, flt (key _ i) (key _ j))).
    apply sort_by_ascending. intros i j. apply Hasym.
Qed.
End RankingFacts.

(** The root of the two-level index of eight embeddings, ranked for L2
    against the query [[1.0, 1.0]]. *)
Lemma distance_root_node_ranks_witness :
  ∃ top scores,
    distance_root_node (ops := float_scalar) (demo_built 2 2 L2 8) [1; 1]%float
      = Ok (top, scores)
    ∧ scores = [0; 2]%float
    ∧ top ≡ₚ [0; 1]%nat
    ∧ ascending (λ i j, PrimFloat.ltb (key (ops := float_scalar) scores i)
                                      (key (ops := float_scalar) scores j)) top.
Proof.
  destruct (distance_root_node_ranks (ops := float_scalar) (demo_built 2 2 L2 8)
              [1; 1]%float
              (Build_Root [0; 2] (Build_ndarray2 [[1; 1]; [3; 1]]%float 2))
              float_ltb_asym)
    as (top & scores & Hrank & Hscores & Hperm & Hasc).
  { vm_compute. reflexivity. }
  { vm_compute. reflexivity. }
  exists top, scores. repeat split; [exact Hrank| |exact Hperm|exact Hasc].
  rewrite Hscores. vm_compute. reflexivity.
Defined.

(** The same index built for IP: ranking the children of ["node_1"] of
    level 0 returns [None]. *)
Lemma distance_level_node_returns_None_witness :
  metric (demo_built 2 2 IP 8) = IP
  ∧ distance_level_node (ops := float_scalar) (demo_built 2 2 IP 8)
      [1%float; 1%float] "lvl_0" "node_1" = Ok None.
Proof.
  split; [reflexivity|].
  eapply (distance_level_node_returns_None (ops := float_scalar)).
  - left. reflexivity.
  - vm_compute. reflexivity.
Defined.

(** ** Reading and writing nodes *)

(** Unfolds the binds of [Py] and of [result] in the goal. *)
Ltac py_unfold :=
  unfold mbind, mret, Py_bind, Py_ret, py_bind, py_ret, result_bind, result_ret,
    get_self, modify_self, lift, raise; simpl.

Section NodeFacts.
Context {F : Type} {ops : Scalar F}.

Lemma py_bind_ok {A B} (c : Py F A) (k : A → Py F B) (s s' : ECPBuilder F) (a : A) :
  c s = (Ok a, s') → (c ≫= k) s = k a s'.
Proof. intros H. unfold mbind, Py_bind, py_bind. by rewrite H. Qed.

Lemma py_bind_raise {A B} (c : Py F A) (k : A → Py F B) (s s' : ECPBuilder F) (e : exn) :
  c s = (Raise e, s') → (c ≫= k) s = (Raise e, s').
Proof. intros H. unfold mbind, Py_bind, py_bind. by rewrite H. Qed.

Lemma index_node_inv (self : ECPBuilder F) (lvl node : string) (nd : Node F) :
  index_node self lvl node = Ok nd →
  ∃ idx lv, index self = Some idx ∧ lvls idx !! lvl = Some lv ∧ lv !! node = Some nd.
Proof.
  unfold index_node, py_getattr, py_getitem, mbind, result_bind. intros H.
  destruct (index self) as [idx|]; [|discriminate].
  destruct (lvls idx !! lvl) as [lv|] eqn:Hlv; [|discriminate].
  destruct (lv !! node) as [nd'|] eqn:Hnd; [|discriminate].
  exists idx, lv. injection H as ->. done.
Qed.

Lemma get_node_ok (self : ECPBuilder F) (lvl node : string) (nd : Node F) :
  index_node self lvl node = Ok nd → get_node lvl node self = (Ok nd, self).
Proof. intros H. unfold get_node. py_unfold. by rewrite H. Qed.

(** Assigning a key of an existing node replaces that node and nothing
    else of [self]. *)
Lemma update_node_ok (self : ECPBuilder F) (lvl node : string) (nd : Node F)
    (f : Node F → Node F) :
  index_node self lvl node = Ok nd →
  ∃ self', update_node lvl node f self = (Ok (), self')
         ∧ index_node self' lvl node = Ok (f nd)
         ∧ metric self' = metric self
         ∧ tree_pq self' = tree_pq self
         ∧ item_pq self' = item_pq self.
Proof.
  intros H. destruct (index_node_inv _ _ _ _ H) as (idx & lv & Hidx & Hlv & Hnd).
  unfold update_node. py_unfold.
  rewrite Hidx. simpl. unfold py_getitem. rewrite Hlv, Hnd.
  eexists. split; [reflexivity|]. split; [|done].
  unfold index_node. py_unfold. unfold py_getitem.
  by rewrite !lookup_insert_eq.
Qed.
End NodeFacts.

(** ** Borders *)

Section BorderFacts.
Context {F : Type} {ops : Scalar F}.
Hypothesis flt_asym : ∀ x y : F, flt x y = true → flt y x = false.

(** [np.argsort(np.sort(d))] is the identity ranking: the values of [d] do
    not reach the position that is chosen. *)
Lemma np_argsort_np_sort (d : list F) : np_argsort (np_sort d) = seq 0 (length d).
Proof.
  rewrite np_argsort_ascending_id by (by apply sort_by_ascending).
  unfold np_sort. by rewrite sort_by_length.
Qed.

Lemma new_border_by_position (m : Metric) (d0 : F) (d : list F) :
  new_border m (d0 :: d) =
    Ok (match m with
        | L2 => (Z.of_nat (length d), default d0 (last (d0 :: d)))
        | IP | COS => (0, d0)
        end).
Proof.
  assert (Hlast : (d0 :: d) !! length d = Some (default d0 (last (d0 :: d)))).
  { rewrite last_lookup. simpl.
    destruct (lookup_lt_is_Some_2 (d0 :: d) (length d)) as [x Hx]; [simpl; lia|].
    by rewrite Hx. }
  assert (Hrev : rev (seq 0 (S (length d))) !! 0%nat = Some (length d)).
  { by rewrite seq_S, rev_app_distr. }
  unfold new_border. rewrite np_argsort_np_sort.
  destruct m; simpl length.
  - unfold py_index. rewrite Hrev. simpl. by rewrite Hlast.
  - reflexivity.
  - reflexivity.
Qed.

(** C2 (the code departs from the claim). After [update_node_border_info]
    the border of a node with scores [d0 :: d] is position 0 with [d0] for
    IP and cos, and the last position with the last score for L2: the
    position comes from ranking an already sorted copy, so it is the first
    (or last) position whatever the scores are, not the position of the
    least (or greatest) score. *)
Theorem update_node_border_info_by_position
    (self : ECPBuilder F) (lvl node : string) (nd : Node F) (d0 : F) (d : list F) :
  index_node self lvl node = Ok nd →
  distances nd = d0 :: d →
  ∃ self', update_node_border_info lvl node self = (Ok (), self')
         ∧ index_node self' lvl node =
             Ok (set_border
                   (match metric self with
                    | L2 => (Z.of_nat (length d), default d0 (last (d0 :: d)))
                    | IP | COS => (0, d0)
                    end) nd).
Proof.
  intros Hnd Hd.
  destruct (update_node_ok self lvl node nd
              (set_border (match metric self with
                           | L2 => (Z.of_nat (length d), default d0 (last (d0 :: d)))
                           | IP | COS => (0, d0)
                           end)) Hnd) as (self' & Hupd & Hnd' & _).
  exists self'. split; [|exact Hnd'].
  unfold update_node_border_info. py_unfold.
  rewrite Hnd, Hd, new_border_by_position. exact Hupd.
Qed.
End BorderFacts.

(** The border scenario for IP: scores [3.0, 1.0, 4.0], border [(0, 3.0)]. *)
Lemma update_node_border_info_by_position_witness :
  index_node (scenario_builder IP [3; 1; 4]%float) "lvl_0" "node_0"
    = Ok (scenario_node [3; 1; 4]%float)
  ∧ ∃ self', update_node_border_info (ops := float_scalar) "lvl_0" "node_0"
               (scenario_builder IP [3; 1; 4]%float) = (Ok (), self')
           ∧ index_node self' "lvl_0" "node_0"
               = Ok (set_border (0, 3%float) (scenario_node [3; 1; 4]%float)).
Proof.
  split; [reflexivity|].
  exact (update_node_border_info_by_position (ops := float_scalar) float_ltb_asym
           (scenario_builder IP [3; 1; 4]%float) "lvl_0" "node_0"
           (scenario_node [3; 1; 4]%float) 3%float [1; 4]%float eq_refl eq_refl).
Defined.

(** The border scenario, run through the align pass that follows a build:
    with IP and the scores [3.0, 1.0, 4.0] the stored border is [(0, 3.0)],
    and with L2 and the scores [4.0, 1.0, 3.0] it is [(2, 3.0)]. *)
Example align_border_scenario :
  (let self' := snd (align_node_embeddings_and_distances (ops := float_scalar)
                       (scenario_builder IP [3; 1; 4]%float)) in
   index_node self' "lvl_0" "node_0"
     = Ok (set_border (0, 3%float) (scenario_node [3; 1; 4]%float)))
  ∧ (let self' := snd (align_node_embeddings_and_distances (ops := float_scalar)
                         (scenario_builder L2 [4; 1; 3]%float)) in
     index_node self' "lvl_0" "node_0"
       = Ok (set_border (2, 3%float) (scenario_node [4; 1; 3]%float))).
Proof. split; vm_compute; reflexivity. Qed.

(** ** The merge phase of the concurrent assignment *)

Section KeepsItems.
Context {F : Type} {ops : Scalar F}.

Lemma keeps_items_lift {A} (r : result A) : keeps_items (F := F) (lift r).
Proof. by intros self lvl node. Qed.

Lemma keeps_items_ret {A} (a : A) : keeps_items (F := F) (mret a).
Proof. by intros self lvl node. Qed.

Lemma keeps_items_bind {A B} (c : Py F A) (k : A → Py F B) :
  keeps_items c → (∀ a, keeps_items (k a)) → keeps_items (c ≫= k).
Proof.
  intros Hc Hk self lvl node. specialize (Hc self lvl node).
  unfold mbind, Py_bind, py_bind. destruct (c self) as [[a| e|] s']; simpl in *.
  - by rewrite Hk.
  - done.
  - done.
Qed.

Lemma keeps_items_bind_lift {A B} (r : result A) (k : A → Py F B) :
  (∀ a, r = Ok a → keeps_items (k a)) → keeps_items (lift r ≫= k).
Proof.
  intros Hk self lvl node. unfold mbind, Py_bind, py_bind, lift.
  destruct r as [a| e|]; simpl; [|done..]. by apply Hk.
Qed.

Lemma keeps_items_bind_self {B} (k : ECPBuilder F → Py F B) :
  (∀ s, keeps_items (k s)) → keeps_items (get_self ≫= k).
Proof. intros Hk self lvl node. unfold mbind, Py_bind, py_bind, get_self. apply Hk. Qed.

Lemma keeps_items_for_each {A} (l : list A) (body : A → Py F unit) :
  (∀ x, x ∈ l → keeps_items (body x)) → keeps_items (for_each l body).
Proof.
  induction l as [|x l IH]; intros Hbody; simpl.
  - apply keeps_items_ret.
  - apply keeps_items_bind.
    + apply Hbody. by left.
    + intros _. apply IH. intros y Hy. apply Hbody. by right.
Qed.

Lemma keeps_items_get_node {B} (lvl node : string) (k : Node F → Py F B) :
  (∀ nd, keeps_items (k nd)) → keeps_items (get_node lvl node ≫= k).
Proof.
  intros Hk. apply keeps_items_bind; [|exact Hk].
  apply keeps_items_bind_self. intros s. apply keeps_items_lift.
Qed.

(** Assigning a key other than ["item_ids"] keeps the item lists. *)
Lemma keeps_items_update_node (lvl node : string) (f : Node F → Node F) :
  (∀ nd, item_ids (f nd) = item_ids nd) → keeps_items (update_node lvl node f).
Proof.
  intros Hf self lvl' node'. unfold update_node. py_unfold.
  destruct (index self) as [idx|] eqn:Hidx; simpl; [|done].
  unfold py_getitem.
  destruct (lvls idx !! lvl) as [lv|] eqn:Hlv; simpl; [|done].
  destruct (lv !! node) as [nd|] eqn:Hnd; simpl; [|done].
  unfold node_items. simpl. rewrite Hidx.
  destruct (decide (lvl = lvl')) as [<-|Hne].
  - rewrite lookup_insert_eq, Hlv. simpl.
    destruct (decide (node = node')) as [<-|Hne].
    + rewrite lookup_insert_eq, Hnd. simpl. by rewrite Hf.
    + by rewrite lookup_insert_ne.
  - by rewrite lookup_insert_ne.
Qed.

Lemma keeps_items_align_specific_node (lvl node : string) :
  keeps_items (align_specific_node lvl node).
Proof.
  unfold align_specific_node, resize_node.
  apply keeps_items_get_node. intros nd. apply keeps_items_bind.
  { by apply keeps_items_update_node. }
  intros _. apply keeps_items_get_node. intros nd'.
  by apply keeps_items_update_node.
Qed.

(** A flush whose clusters are all empty appends nothing. *)
Lemma keeps_items_write_empty (clusters : list (string * list (Z * F * list F))) :
  Forall (λ c, snd c = []) clusters →
  keeps_items (write_cluster_items_to_file clusters).
Proof.
  intros Hempty. unfold write_cluster_items_to_file.
  apply keeps_items_bind_self. intros s. apply keeps_items_for_each.
  intros [k v] Hin. rewrite Forall_forall in Hempty.
  specialize (Hempty _ Hin). simpl in Hempty. subst v. simpl.
  apply keeps_items_bind; [apply keeps_items_ret|].
  intros _. apply keeps_items_align_specific_node.
Qed.
End KeepsItems.

Lemma fold_result_collect {A B} (f : A → result B) (g : A → B) (l : list A) (acc : list B) :
  (∀ x, f x = Ok (g x)) →
  fold_result l acc (λ acc x, y ← f x; Ok (acc ++ [y])) = Ok (acc ++ map g l).
Proof.
  intros Hf. revert acc. induction l as [|x l IH]; intros acc; simpl.
  - by rewrite app_nil_r.
  - rewrite Hf. simpl. rewrite IH. by rewrite <- app_assoc.
Qed.

Section MergeFacts.
Context {F : Type} {ops : Scalar F} (w : World).

(** The test [node in cluster_items] is made on the list being built,
    which is empty, so no partial map is ever read. *)
Lemma gather_cluster_items_nil (f : Dataset F) (node : string)
    (partial_node_maps : list (gmap string (list (Z * F)))) :
  gather_cluster_items f node partial_node_maps = Ok [].
Proof.
  unfold gather_cluster_items.
  induction partial_node_maps as [|pmap pmaps IH]; simpl; [done|exact IH].
Qed.

Lemma prepare_chunk_empty (f : Dataset F) (start_idx end_idx : Z)
    (partial_node_maps : list (gmap string (list (Z * F)))) :
  ∃ clusters, prepare_chunk f start_idx end_idx partial_node_maps = Ok clusters
            ∧ Forall (λ c, snd c = []) clusters.
Proof.
  unfold prepare_chunk, map_result.
  rewrite (fold_result_collect _ (λ n, (node_name n, []))).
  - eexists. split; [reflexivity|]. simpl.
    apply Forall_forall. intros c Hc. apply list_elem_of_fmap in Hc.
    by destruct Hc as (n & -> & _).
  - intros n. by rewrite gather_cluster_items_nil.
Qed.

Lemma keeps_items_merge_phase (f : Dataset F)
    (partial_node_maps : list (gmap string (list (Z * F)))) :
  keeps_items (merge_phase f partial_node_maps).
Proof.
  unfold merge_phase.
  apply keeps_items_bind_self. intros s.
  apply keeps_items_bind_lift. intros tc _.
  apply keeps_items_bind_lift. intros starts _.
  apply keeps_items_for_each. intros start_idx _.
  apply keeps_items_bind_self. intros s'.
  apply keeps_items_bind_lift. intros tc' _.
  apply keeps_items_bind_lift. intros clusters Hclusters.
  apply keeps_items_write_empty.
  destruct (prepare_chunk_empty f start_idx (Z.min (start_idx + Z.quot tc 20) tc')
              partial_node_maps) as (clusters' & Heq & Hempty).
  rewrite Heq in Hclusters. by injection Hclusters as <-.
Qed.

(** C3 (the code departs from the claim). Whatever the dataset, the
    chunking, the number of workers and the state of the builder, and
    whether the call returns or raises, [add_items_concurrent] leaves the
    item list of every node as it was: the merge phase hands empty lists to
    the leaf store, so no item id reaches a leaf cluster. *)
Theorem add_items_concurrent_keeps_items (f : Dataset F) (save_to_file : string)
    (chunk_size workers : Z) :
  keeps_items (add_items_concurrent w f save_to_file chunk_size workers).
Proof.
  unfold add_items_concurrent.
  apply keeps_items_bind_lift. intros starts _.
  apply keeps_items_bind_lift. intros chunks _.
  apply keeps_items_bind_self. intros s.
  apply keeps_items_bind_lift. intros pmaps _.
  destruct (String.eqb save_to_file "").
  - apply keeps_items_ret.
  - apply keeps_items_merge_phase.
Qed.
End MergeFacts.

(** The run behind C3: forty embeddings, clusters of two, one level, L2.
    After selecting by offset and building, the concurrent assignment with
    persistence returns normally, and each of the twenty leaves still holds
    no item. *)
Example add_items_concurrent_run :
  let self := demo_built 1 2 L2 40 in
  let out := add_items_concurrent (ops := float_scalar) demo_world
               (dataset_of_array (demo_data 40)) "leaves.h5" 10 2 self in
  total_clusters self = Some 20
  ∧ fst out = Ok ()
  ∧ length (level_item_ids (snd out) "lvl_0") = 20%nat
  ∧ Forall (λ c, snd c = []) (level_item_ids (snd out) "lvl_0").
Proof.
  vm_compute. repeat split. repeat constructor.
Qed.

(** ** Search *)

Section SearchFacts.
Context {F : Type} {ops : Scalar F}.

Lemma pq_pop_elem {A} (lt : A → A → bool) (q : list A) (x m : A) (rest : list A) :
  pq_pop lt x q = (m, rest) → m ∈ x :: q.
Proof.
  revert x m rest. induction q as [|y q IH]; intros x m rest; simpl.
  - intros [= <- <-]. by left.
  - destruct (pq_pop lt y q) as [m' rest'] eqn:Hpop.
    specialize (IH _ _ _ Hpop).
    destruct (lt m' x); intros [= <- <-]; [by right|by left].
Qed.

(** Pushing the ranked children of the root appends one internal entry of
    level 0 per child. *)
Lemma push_root_entries (top : list nat) (dists : list F) (self : ECPBuilder F)
    (q : list (TreeEntry F)) :
  tree_pq self = Some q →
  Forall (λ t, t < length dists)%nat top →
  for_each top (λ t, tree_put (d ← py_index dists t; Ok (d, false, 0, Z.of_nat t))) self
    = (Ok (), set_tree_pq
                (Some (q ++ map (λ t, (key dists t, false, 0, Z.of_nat t)) top)) self).
Proof.
  revert self q. induction top as [|t top IH]; intros self q Hq Hbound.
  - simpl. rewrite app_nil_r. unfold mret, Py_ret, py_ret.
    destruct self; simpl in *. by rewrite Hq.
  - apply Forall_cons in Hbound as [Ht Hbound].
    destruct (lookup_lt_is_Some_2 dists t Ht) as [d Hd].
    set (body := λ t, tree_put (d ← py_index dists t; Ok (d, false, 0, Z.of_nat t))) in *.
    simpl for_each.
    rewrite (py_bind_ok (body t) _ self
               (set_tree_pq (Some (pq_put (d, false, 0, Z.of_nat t) q)) self) ()).
    + rewrite (IH _ (pq_put (d, false, 0, Z.of_nat t) q)) by done.
      assert (Hk : key dists t = d) by (unfold key; by rewrite Hd).
      simpl map. rewrite Hk. unfold pq_put. by rewrite <- app_assoc.
    + unfold body, tree_put, py_index. py_unfold. by rewrite Hd, Hq.
Qed.

(** The branch that expands an internal candidate reads the local names
    [lvl], [node] and [radius], which only the leaf branch assigns: while
    no leaf has been expanded it raises [UnboundLocalError] and pushes no
    child, whatever the query, the popped level and the state of the index.
    The number of the popped node is not among the inputs of the branch:
    once a leaf has bound the names, the children and the border used are
    those of that leaf, not of the popped node. *)
Lemma expand_internal_unbound (query : list F) (l : Z) (self : ECPBuilder F) :
  expand_internal query l {| loc_lvl := None; loc_node := None; loc_radius := None |} self
    = (Raise UnboundLocalError, self).
Proof. reflexivity. Qed.

Lemma root_scores_length (m : Metric) (M : list (list F)) (emb : list F) :
  length (root_scores m M emb) = length M.
Proof.
  destruct m; unfold root_scores, norm_axis1, np_sub, np_dot, cosine_similarity;
    by rewrite ?length_map.
Qed.

Lemma pq_pop_rest {A} (lt : A → A → bool) (q : list A) (x m : A) (rest : list A) :
  pq_pop lt x q = (m, rest) → ∀ y, y ∈ rest → y ∈ x :: q.
Proof.
  revert x m rest. induction q as [|y q IH]; intros x m rest; simpl.
  - intros [= <- <-] z Hz. by apply elem_of_nil in Hz.
  - destruct (pq_pop lt y q) as [m' rest'] eqn:Hpop.
    specialize (IH _ _ _ Hpop).
    destruct (lt m' x); intros [= <- <-] z Hz.
    + apply elem_of_cons in Hz as [->|Hz]; [by left|]. right. by apply IH.
    + by right.
Qed.

(** The first iteration of the loop of a fresh search: the candidate popped
    is internal, its expansion raises, and the frontier keeps what it held. *)
Lemma search_loop_first_pop (fuel : nat) (query : list F) (search_exp : Z)
    (self : ECPBuilder F) (e : TreeEntry F) (q : list (TreeEntry F)) :
  search_exp ≠ 0 →
  tree_pq self = Some (e :: q) →
  Forall (λ x, snd (fst (fst x)) = false) (e :: q) →
  ∃ rest, search_loop (S fuel) query search_exp 0
            {| loc_lvl := None; loc_node := None; loc_radius := None |} self
          = (Raise UnboundLocalError, set_tree_pq (Some rest) self)
        ∧ ∀ y, y ∈ rest → y ∈ e :: q.
Proof.
  intros Hexp Hq Hint. simpl.
  rewrite bool_decide_eq_false_2 by done.
  py_unfold. rewrite Hq. simpl.
  destruct (pq_pop tree_lt e q) as [[[[d is_leaf] l] n] rest] eqn:Hpop.
  pose proof (pq_pop_rest _ _ _ _ _ Hpop) as Hrest.
  apply pq_pop_elem in Hpop. rewrite Forall_forall in Hint.
  specialize (Hint _ Hpop). simpl in Hint. subst is_leaf.
  by exists rest.
Qed.

(** A fresh search with a budget other than zero, over a root that is not
    empty: the state it starts from, the exception, and the frontier left. *)
Lemma search_tree_first_pop (fuel : nat) (query : list F) (search_exp k : Z)
    (self : ECPBuilder F) (r : Root F) :
  index_root self = Ok r →
  rows (root_embeddings r) ≠ [] →
  search_exp ≠ 0 →
  ∃ rest, search_tree (S fuel) query search_exp k true self
          = (Raise UnboundLocalError,
             set_tree_pq (Some rest) (set_item_pq (Some []) (set_tree_pq (Some []) self)))
        ∧ Forall (λ x : TreeEntry F, snd (fst (fst x)) = false ∧ snd (fst x) = 0) rest.
Proof.
  intros Hroot Hne Hexp.
  set (s0 := set_item_pq (Some []) (set_tree_pq (Some []) self)).
  assert (Hroot0 : index_root s0 = Ok r) by exact Hroot.
  destruct (distance_root_node_scores s0 query r Hroot0) as (top & Hrank & Hperm).
  set (dists := root_scores (metric s0) (rows (root_embeddings r)) query) in *.
  assert (Hbound : Forall (λ t, t < length dists)%nat top).
  { apply Forall_forall. intros t Ht. rewrite Hperm in Ht.
    apply elem_of_seq in Ht. unfold dists. rewrite root_scores_length. lia. }
  assert (Htop : ∃ t top', top = t :: top').
  { destruct top as [|t top']; [|by eauto].
    apply Permutation_length in Hperm. rewrite length_seq in Hperm.
    destruct (rows (root_embeddings r)); [done|discriminate]. }
  destruct Htop as (t & top' & ->).
  pose proof (push_root_entries (t :: top') dists s0 [] eq_refl Hbound) as Hpush.
  simpl app in Hpush.
  assert (Hentries : ∀ x, x ∈ map (λ t, (key dists t, false, 0, Z.of_nat t)) (t :: top') →
                          snd (fst (fst x)) = false ∧ snd (fst x) = 0).
  { intros x Hx. apply list_elem_of_fmap in Hx. by destruct Hx as (t' & -> & _). }
  destruct (search_loop_first_pop fuel query search_exp
              (set_tree_pq (Some (map (λ t, (key dists t, false, 0, Z.of_nat t)) (t :: top'))) s0)
              (key dists t, false, 0, Z.of_nat t)
              (map (λ t, (key dists t, false, 0, Z.of_nat t)) top') Hexp eq_refl)
    as (rest & Hloop & Hrest).
  { apply Forall_forall. intros x Hx. by apply Hentries. }
  exists rest. split.
  - unfold search_tree.
    rewrite (py_bind_ok _ _ self s0 ()) by reflexivity.
    rewrite (py_bind_ok get_self _ s0 s0 s0) by reflexivity.
    rewrite (py_bind_ok _ _ s0 s0 (t :: top', dists)) by (unfold lift; by rewrite Hrank).
    rewrite (py_bind_ok _ _ s0 _ () Hpush).
    rewrite (py_bind_raise _ _ _ _ _ Hloop). reflexivity.
  - apply Forall_forall. intros x Hx. apply Hentries. by apply Hrest.
Qed.

(** C4 (the code departs from the claim). In a fresh search with a budget
    other than zero over a root that is not empty, the first candidate
    popped is internal, of level 0, and expanding it pushes no child: the
    call raises [UnboundLocalError] (the branch reads [lvl], [node] and
    [radius], which only the leaf branch assigns), and every entry left on
    the frontier is still an internal entry of level 0. No entry of level 1
    with a score adjusted by a border has been pushed, for any metric. *)
Theorem search_tree_pushes_no_child (fuel : nat) (query : list F) (search_exp k : Z)
    (self : ECPBuilder F) (r : Root F) :
  index_root self = Ok r →
  rows (root_embeddings r) ≠ [] →
  search_exp ≠ 0 →
  ∃ self' frontier,
    search_tree (S fuel) query search_exp k true self = (Raise UnboundLocalError, self')
    ∧ tree_pq self' = Some frontier
    ∧ Forall (λ x : TreeEntry F, snd (fst (fst x)) = false ∧ snd (fst x) = 0) frontier.
Proof.
  intros Hroot Hne Hexp.
  destruct (search_tree_first_pop fuel query search_exp k self r Hroot Hne Hexp)
    as (rest & Hrun & Hrest).
  eexists _, rest. split; [exact Hrun|]. split; [reflexivity|exact Hrest].
Qed.

(** C5 (the code departs from the claim). A fresh search with a budget
    other than zero over an index whose root has at least one
    representative raises [UnboundLocalError] at its first iteration, for
    every metric and every query: it returns nothing, and no leaf has been
    expanded (the results queue is still empty), however many leaves the
    frontier reaches. *)
Theorem search_tree_raises_before_any_leaf (fuel : nat) (query : list F) (search_exp k : Z)
    (self : ECPBuilder F) (r : Root F) :
  index_root self = Ok r →
  rows (root_embeddings r) ≠ [] →
  search_exp ≠ 0 →
  ∃ self', search_tree (S fuel) query search_exp k true self = (Raise UnboundLocalError, self')
         ∧ item_pq self' = Some [].
Proof.
  intros Hroot Hne Hexp.
  destruct (search_tree_first_pop fuel query search_exp k self r Hroot Hne Hexp)
    as (rest & Hrun & _).
  eexists. split; [exact Hrun|reflexivity].
Qed.
Lemma drain_empty (k : nat) (self : ECPBuilder F) :
  item_pq self = Some [] → drain k self = (Ok [], self).
Proof.
  intros Hq. induction k as [|k IH]; simpl; [done|].
  py_unfold. rewrite Hq. simpl. exact IH.
Qed.

(** A fresh search with an empty leaf budget expands nothing and returns
    the empty list: the root's children are ranked and pushed, the loop is
    not entered, and the results queue has nothing to drain. The query is
    one the ranking of the root accepts (with a query of another dimension
    the ranking raises [ValueError] before anything is pushed). *)
Theorem search_tree_zero_budget (fuel : nat) (query : list F) (k : Z)
    (self : ECPBuilder F) (r : Root F) :
  index_root self = Ok r →
  rankable (metric self) (root_embeddings r) query = true →
  ∃ self', search_tree fuel query 0 k true self = (Ok [], self')
         ∧ item_pq self' = Some []
         ∧ index self' = index self.
Proof.
  intros Hroot _.
  set (s0 := set_item_pq (Some []) (set_tree_pq (Some []) self)).
  assert (Hroot0 : index_root s0 = Ok r) by exact Hroot.
  destruct (distance_root_node_scores s0 query r Hroot0) as (top & Hrank & Hperm).
  set (dists := root_scores (metric s0) (rows (root_embeddings r)) query) in *.
  assert (Hbound : Forall (λ t, t < length dists)%nat top).
  { apply Forall_forall. intros t Ht. rewrite Hperm in Ht.
    apply elem_of_seq in Ht. unfold dists. rewrite root_scores_length. lia. }
  pose proof (push_root_entries top dists s0 [] eq_refl Hbound) as Hpush.
  simpl app in Hpush.
  eexists. split; [|split].
  - unfold search_tree.
    rewrite (py_bind_ok _ _ self s0 ()) by reflexivity.
    rewrite (py_bind_ok get_self _ s0 s0 s0) by reflexivity.
    rewrite (py_bind_ok _ _ s0 s0 (top, dists)) by (unfold lift; by rewrite Hrank).
    rewrite (py_bind_ok _ _ s0 _ () Hpush).
    erewrite py_bind_ok; [|by destruct fuel].
    by apply drain_empty.
  - reflexivity.
  - reflexivity.
Qed.
End SearchFacts.

(** The searches below run on the two-level index of eight embeddings: a
    root of two representatives, two internal nodes, four leaves. *)
Lemma search_tree_zero_budget_witness :
  ∃ self', search_tree (ops := float_scalar) 0 [1; 1]%float 0 3 true (demo_built 2 2 IP 8)
             = (Ok [], self')
         ∧ item_pq self' = Some []
         ∧ index self' = index (demo_built 2 2 IP 8).
Proof.
  eapply (search_tree_zero_budget (ops := float_scalar) 0 [1; 1]%float 3
            (demo_built 2 2 IP 8)
            (Build_Root [0; 2] (Build_ndarray2 [[1; 1]; [3; 1]]%float 2))).
  - vm_compute. reflexivity.
  - vm_compute. reflexivity.
Defined.

Lemma search_tree_pushes_no_child_witness :
  ∃ self' frontier,
    search_tree (ops := float_scalar) 1 [1; 1]%float 1 1 true (demo_built 2 2 COS 8)
      = (Raise UnboundLocalError, self')
    ∧ tree_pq self' = Some frontier
    ∧ Forall (λ x : TreeEntry float, snd (fst (fst x)) = false ∧ snd (fst x) = 0) frontier.
Proof.
  eapply (search_tree_pushes_no_child (ops := float_scalar) 0).
  - vm_compute. reflexivity.
  - simpl. discriminate.
  - lia.
Defined.

Lemma search_tree_raises_before_any_leaf_witness :
  ∃ self', search_tree (ops := float_scalar) 1 [1; 1]%float 1 1 true (demo_built 2 2 L2 8)
             = (Raise UnboundLocalError, self')
         ∧ item_pq self' = Some [].
Proof.
  eapply (search_tree_raises_before_any_leaf (ops := float_scalar) 0).
  - vm_compute. reflexivity.
  - simpl. discriminate.
  - lia.
Defined.

(** C6 (the code departs from the claim). Two runs with the metric IP over
    the two-level index of eight embeddings. A fresh search for one result
    within one leaf returns no list: it raises [UnboundLocalError]. And
    draining a results queue that holds the similarities 0.75 and 0.25 yields
    0.25 first: the queue gives its least tuple first for every metric,
    which for IP and cos is the worst result, not the best. *)
Theorem search_tree_answer_order :
  fst (search_tree (ops := float_scalar) 100 [1; 1]%float 1 1 true (demo_built 2 2 IP 8))
    = Raise UnboundLocalError
  ∧ fst (drain (ops := float_scalar) 2
           (set_item_pq (Some [(0.75%float, 7); (0.25%float, 3)]) (demo_built 2 2 IP 8)))
    = Ok [(0.25%float, 3); (0.75%float, 7)].
Proof. split; vm_compute; reflexivity. Qed.

(** The run behind C4 and C5: the same search with each metric. The index
    has four leaves below two internal nodes, the budget is one leaf. *)
Example search_tree_run :
  ∀ m, fst (search_tree (ops := float_scalar) 100 [1; 1]%float 1 1 true (demo_built 2 2 m 8))
       = Raise UnboundLocalError.
Proof. intros []; vm_compute; reflexivity. Qed.

(** ** The number of worker processes *)

(** C7 (counterexample). On a machine with four CPUs a request for four
    workers is used as it is: four processes, more than [cpu_count() - 1]. *)
Lemma worker_processes_not_below_cpu_count :
  ¬ (∀ (w : World) (workers : Z), worker_processes w workers ≤ cpu_count w - 1).
Proof.
  intros H. specialize (H demo_world 4). vm_compute in H. by apply H.
Qed.

(** C7 (amended). The number of processes is the request itself when the
    request is at most [cpu_count()], and [cpu_count() - 1] when it is
    larger; so it is at most [cpu_count()]. The computation is a
    comparison and a subtraction and raises nothing. *)
Theorem worker_processes_clamped (w : World) (workers : Z) :
  (workers ≤ cpu_count w → worker_processes w workers = workers)
  ∧ (cpu_count w < workers → worker_processes w workers = cpu_count w - 1)
  ∧ worker_processes w workers ≤ cpu_count w.
Proof.
  unfold worker_processes.
  destruct (Z.ltb_spec (cpu_count w) workers); repeat split; intros; lia.
Qed.

(** ** Selecting representatives and building *)

(** [ceil_div] is the ceiling of the quotient. *)
Lemma ceil_div_ceiling (a b q : Z) :
  0 < b → ceil_div a b = Ok q → b * (q - 1) < a ≤ b * q.
Proof.
  intros Hb. unfold ceil_div. destruct (decide (b = 0)); [lia|].
  intros [= <-].
  pose proof (Z.div_mod (- a) b ltac:(lia)).
  pose proof (Z.mod_pos_bound (- a) b Hb). nia.
Qed.

Section SelectionFacts.
Context {F : Type} (w : World).

(** What [select_cluster_representatives] does for an option that is
    neither ["offset"] nor ["random"], once the two derived parameters have
    been computed. *)
Lemma select_other_option (f : Dataset F) (self : ECPBuilder F) (opt : string) (ns : Z) :
  target_cluster_size self ≠ 0 →
  levels self ≠ 0 →
  ceil_root w (- (- ds_len f / target_cluster_size self)) (levels self) = Ok ns →
  opt ≠ "offset" →
  opt ≠ "random" →
  select_cluster_representatives w f opt self
    = (Raise (if String.eqb opt "dissimilar" then NotImplementedError else ValueError),
       set_node_size (Some ns)
         (set_total_clusters (Some (- (- ds_len f / target_cluster_size self))) self)).
Proof.
  intros Htcs Hlv Hroot Hoff Hrand.
  apply String.eqb_neq in Hoff, Hrand.
  unfold select_cluster_representatives, ceil_div. py_unfold.
  destruct (decide (target_cluster_size self = 0)); [done|]. simpl.
  destruct (decide (levels self = 0)); [done|].
  rewrite Hroot. simpl. rewrite Hoff, Hrand.
  by destruct (String.eqb opt "dissimilar").
Qed.

(** C8 (amended). With a usable configuration ([target_cluster_size] and
    [levels] not zero, the root computed), the option ["dissimilar"] raises
    [NotImplementedError] for every metric, and an option outside
    ["offset"], ["random"], ["dissimilar"] raises [ValueError]; in both
    cases nothing is returned and no representative has been selected. The
    option is looked at after the two derived parameters are computed, so
    the three conditions are needed. *)
Theorem select_cluster_representatives_rejects
    (f : Dataset F) (self : ECPBuilder F) (opt : string) (ns : Z) :
  target_cluster_size self ≠ 0 →
  levels self ≠ 0 →
  ceil_root w (- (- ds_len f / target_cluster_size self)) (levels self) = Ok ns →
  (opt = "dissimilar" →
     fst (select_cluster_representatives w f opt self) = Raise NotImplementedError)
  ∧ (opt ≠ "offset" → opt ≠ "random" → opt ≠ "dissimilar" →
     fst (select_cluster_representatives w f opt self) = Raise ValueError)
  ∧ (opt ≠ "offset" → opt ≠ "random" →
     representative_ids (snd (select_cluster_representatives w f opt self))
       = representative_ids self
     ∧ representative_embeddings (snd (select_cluster_representatives w f opt self))
       = representative_embeddings self).
Proof.
  intros Htcs Hlv Hroot. repeat split.
  - intros ->. by rewrite (select_other_option f self _ ns).
  - intros Hoff Hrand Hdis. rewrite (select_other_option f self _ ns) by done.
    apply String.eqb_neq in Hdis. by rewrite Hdis.
  - by rewrite (select_other_option f self _ ns).
  - by rewrite (select_other_option f self _ ns).
Qed.

(** C10. When the selection fails on its option, [total_clusters] and
    [node_size] have been assigned before the exception and stay assigned:
    the first is the ceiling of [total_items / target_cluster_size], the
    second the root computed from it and [levels]. *)
Theorem select_cluster_representatives_not_atomic
    (f : Dataset F) (self : ECPBuilder F) (opt : string) (ns : Z) :
  target_cluster_size self ≠ 0 →
  levels self ≠ 0 →
  ceil_root w (- (- ds_len f / target_cluster_size self)) (levels self) = Ok ns →
  opt ≠ "offset" →
  opt ≠ "random" →
  (∃ e, fst (select_cluster_representatives w f opt self) = Raise e)
  ∧ ceil_div (ds_len f) (target_cluster_size self)
      = py_getattr (total_clusters (snd (select_cluster_representatives w f opt self)))
  ∧ node_size (snd (select_cluster_representatives w f opt self)) = Some ns.
Proof.
  intros Htcs Hlv Hroot Hoff Hrand.
  rewrite (select_other_option f self opt ns) by done. simpl.
  repeat split; [by eexists|].
  unfold ceil_div. by destruct (decide (target_cluster_size self = 0)).
Qed.
End SelectionFacts.

Section BuildFacts.
Context {F : Type} {ops : Scalar F}.

(** C9. Without representative embeddings or without representative ids,
    [build_tree_h5] raises [ValueError] (the precondition error) at once:
    the builder is left exactly as it was, with no index. *)
Theorem build_tree_h5_needs_representatives (self : ECPBuilder F) :
  representative_embeddings self = None ∨ representative_ids self = None →
  build_tree_h5 self = (Raise ValueError, self).
Proof.
  intros H. unfold build_tree_h5. py_unfold.
  destruct H as [-> | ->]; [done|].
  by destruct (representative_embeddings self).
Qed.
End BuildFacts.

(** C8 (counterexample). The error of the option is not raised
    immediately: with [target_cluster_size = 0] the option ["dissimilar"],
    and with [levels = 0] an unknown option, raise [ZeroDivisionError],
    from the computation of [total_clusters] and of [node_size], where the
    claim has [NotImplementedError] and [ValueError]. *)
Lemma select_cluster_representatives_divides_first :
  fst (select_cluster_representatives demo_world (dataset_of_array (demo_data 8))
         "dissimilar" (init 2 0 L2)) = Raise ZeroDivisionError
  ∧ fst (select_cluster_representatives demo_world (dataset_of_array (demo_data 8))
           "nearest" (init 0 2 L2)) = Raise ZeroDivisionError.
Proof. split; vm_compute; reflexivity. Qed.

(** The scenario of the specification: 1000 items, clusters of 50, two
    levels, so 20 clusters and nodes of size 5. *)
Lemma select_cluster_representatives_rejects_witness :
  fst (select_cluster_representatives demo_world (dataset_of_array (demo_data 1000))
         "dissimilar" (init 2 50 IP)) = Raise NotImplementedError
  ∧ fst (select_cluster_representatives demo_world (dataset_of_array (demo_data 1000))
           "nearest" (init 2 50 IP)) = Raise ValueError.
Proof.
  split.
  - apply (select_cluster_representatives_rejects demo_world
             (dataset_of_array (demo_data 1000)) (init 2 50 IP) "dissimilar" 5);
      [simpl; lia | simpl; lia | vm_compute; reflexivity | reflexivity].
  - apply (select_cluster_representatives_rejects demo_world
             (dataset_of_array (demo_data 1000)) (init 2 50 IP) "nearest" 5);
      [simpl; lia | simpl; lia | vm_compute; reflexivity | discriminate..].
Defined.

(** The same scenario: both parameters are unset before the call and set
    after it, though the call raised. *)
Lemma select_cluster_representatives_not_atomic_witness :
  let self := init (F := float) 2 50 L2 in
  let out := select_cluster_representatives demo_world (dataset_of_array (demo_data 1000))
               "dissimilar" self in
  (total_clusters self = None ∧ node_size self = None)
  ∧ (∃ e, fst out = Raise e)
  ∧ ceil_div 1000 50 = py_getattr (total_clusters (snd out))
  ∧ node_size (snd out) = Some 5.
Proof.
  split; [split; reflexivity|].
  apply (select_cluster_representatives_not_atomic demo_world
           (dataset_of_array (demo_data 1000)) (init 2 50 L2) "dissimilar" 5);
    [simpl; lia | simpl; lia | vm_compute; reflexivity | discriminate..].
Defined.

(** A builder straight from its constructor. *)
Lemma build_tree_h5_needs_representatives_witness :
  build_tree_h5 (ops := float_scalar) (init 2 100 L2) = (Raise ValueError, init 2 100 L2).
Proof.
  apply (build_tree_h5_needs_representatives (ops := float_scalar)).
  left. reflexivity.
Defined.

(** * Further properties *)

(** ** Frames *)

Section KeepsFacts.
Context {F : Type} {ops : Scalar F} {X : Type} (proj : ECPBuilder F → X).

Lemma keeps_lift {A} (r : result A) : keeps proj (lift r).
Proof. by intros self. Qed.

Lemma keeps_ret {A} (a : A) : keeps proj (mret a).
Proof. by intros self. Qed.

Lemma keeps_modify (f : ECPBuilder F → ECPBuilder F) :
  (∀ s, proj (f s) = proj s) → keeps proj (modify_self f).
Proof. intros Hf self. apply Hf. Qed.

Lemma keeps_bind {A B} (c : Py F A) (k : A → Py F B) :
  keeps proj c → (∀ a, keeps proj (k a)) → keeps proj (c ≫= k).
Proof.
  intros Hc Hk self. specialize (Hc self).
  unfold mbind, Py_bind, py_bind. destruct (c self) as [[a| e|] s']; simpl in *.
  - by rewrite Hk.
  - done.
  - done.
Qed.

Lemma keeps_bind_lift {A B} (r : result A) (k : A → Py F B) :
  (∀ a, r = Ok a → keeps proj (k a)) → keeps proj (lift r ≫= k).
Proof.
  intros Hk self. unfold mbind, Py_bind, py_bind, lift.
  destruct r as [a| e|]; simpl; [|done..]. by apply Hk.
Qed.

Lemma keeps_bind_self {B} (k : ECPBuilder F → Py F B) :
  (∀ s, keeps proj (k s)) → keeps proj (get_self ≫= k).
Proof. intros Hk self. unfold mbind, Py_bind, py_bind, get_self. apply Hk. Qed.

Lemma keeps_for_each {A} (l : list A) (body : A → Py F unit) :
  (∀ x, keeps proj (body x)) → keeps proj (for_each l body).
Proof.
  intros Hbody. induction l as [|x l IH]; simpl.
  - apply keeps_ret.
  - apply keeps_bind; [apply Hbody|]. intros _. apply IH.
Qed.

Lemma keeps_get_node {B} (lvl node : string) (k : Node F → Py F B) :
  (∀ nd, keeps proj (k nd)) → keeps proj (get_node lvl node ≫= k).
Proof.
  intros Hk. apply keeps_bind; [|exact Hk].
  apply keeps_bind_self. intros s. apply keeps_lift.
Qed.

End KeepsFacts.

(** The three ways the tree is written: a key of a node, a new level, a
    new node. *)
Section IndexWrites.
Context {F : Type} {ops : Scalar F} {X : Type} (proj : ECPBuilder F → X).

(** A part of the builder that does not depend on [self.index]. *)
Hypothesis proj_index : ∀ v s, proj (set_index v s) = proj s.

Lemma keeps_update_node (lvl node : string) (f : Node F → Node F) :
  keeps proj (update_node lvl node f).
Proof.
  unfold update_node.
  apply keeps_bind_self. intros s.
  apply keeps_bind_lift. intros idx _.
  apply keeps_bind_lift. intros lv _.
  apply keeps_bind_lift. intros nd _.
  by apply keeps_modify.
Qed.

Lemma keeps_new_level (lvl : string) : keeps proj (new_level lvl).
Proof.
  unfold new_level.
  apply keeps_bind_self. intros s.
  apply keeps_bind_lift. intros idx _.
  by apply keeps_modify.
Qed.

Lemma keeps_new_node (lvl node : string) (nd : Node F) : keeps proj (new_node lvl node nd).
Proof.
  unfold new_node.
  apply keeps_bind_self. intros s.
  apply keeps_bind_lift. intros idx _.
  apply keeps_bind_lift. intros lv _.
  by apply keeps_modify.
Qed.
End IndexWrites.

(** What the methods that write the tree keep, given that the three
    writes keep it. *)
Section TreeFrames.
Context {F : Type} {ops : Scalar F} {X : Type} (proj : ECPBuilder F → X).
Hypothesis keeps_upd : ∀ lvl node (f : Node F → Node F), keeps proj (update_node lvl node f).
Hypothesis keeps_lvl : ∀ lvl, keeps proj (new_level (F := F) lvl).
Hypothesis keeps_nd : ∀ lvl node (nd : Node F), keeps proj (new_node lvl node nd).

Lemma keeps_update_node_border_info (lvl node : string) :
  keeps proj (update_node_border_info lvl node).
Proof.
  unfold update_node_border_info.
  apply keeps_bind_self. intros s.
  apply keeps_get_node. intros nd.
  apply keeps_bind_lift. intros b _.
  apply keeps_upd.
Qed.

Lemma keeps_resize_node (lvl node : string) : keeps proj (resize_node lvl node).
Proof.
  unfold resize_node.
  apply keeps_get_node. intros nd. apply keeps_bind; [apply keeps_upd|].
  intros _. apply keeps_get_node. intros nd'. apply keeps_upd.
Qed.

Lemma keeps_align_node_embeddings_and_distances :
  keeps proj align_node_embeddings_and_distances.
Proof.
  unfold align_node_embeddings_and_distances.
  apply keeps_bind_self. intros s.
  apply keeps_bind_lift. intros lvl_range _.
  generalize (range (levels s)). intros todo. revert lvl_range.
  induction todo as [|i todo IH]; intros lvl_range; simpl.
  - apply keeps_ret.
  - apply keeps_bind.
    + apply keeps_for_each. intros j. unfold align_one.
      apply keeps_bind; [apply keeps_resize_node|]. intros _.
      apply keeps_get_node. intros nd.
      destruct (decide (0 < length (item_ids nd))%nat).
      * apply keeps_update_node_border_info.
      * apply keeps_ret.
    + intros _. apply keeps_bind_self. intros s'.
      apply keeps_bind.
      * destruct (decide (i + 1 = levels s' - 1)).
        -- apply keeps_lift.
        -- apply keeps_bind_lift. intros ns _. apply keeps_ret.
      * intros lvl_range'. apply IH.
Qed.

Lemma keeps_next_range (lvl_range : Z) : keeps proj (next_range lvl_range).
Proof.
  unfold next_range.
  apply keeps_bind_self. intros s.
  apply keeps_bind_lift. intros ns _.
  apply keeps_bind_lift. intros tc _.
  apply keeps_ret.
Qed.

Lemma keeps_construct_levels (remb : ndarray2 F) (todo : list Z) (lvl_range : Z) :
  keeps proj (construct_levels remb todo lvl_range).
Proof.
  revert lvl_range. induction todo as [|l todo IH]; intros lvl_range; simpl.
  - apply keeps_ret.
  - apply keeps_bind; [apply keeps_next_range|]. intros lvl_range'.
    apply keeps_bind; [apply keeps_lvl|]. intros _.
    apply keeps_bind; [|intros _; apply IH].
    apply keeps_for_each. intros i.
    apply keeps_bind_self. intros s.
    apply keeps_bind_lift. intros ns _.
    apply keeps_bind_lift. intros nd _.
    apply keeps_nd.
Qed.

Lemma keeps_grow_if_full (lvl node : string) (next : nat) :
  keeps proj (grow_if_full lvl node next).
Proof.
  unfold grow_if_full.
  apply keeps_get_node. intros nd.
  destruct (decide (length (rows (embeddings nd)) ≤ next)%nat); [|apply keeps_ret].
  apply keeps_bind_self. intros s.
  apply keeps_bind_lift. intros ns _.
  apply keeps_bind_lift. intros remb _.
  apply keeps_bind_lift. intros ze _.
  apply keeps_bind_lift. intros zd _.
  apply keeps_bind_lift. intros e _.
  apply keeps_bind; [apply keeps_upd|]. intros _.
  apply keeps_get_node. intros nd'. apply keeps_upd.
Qed.

Lemma keeps_border_on_insert (lvl node : string) (next : nat) (dist : F) :
  keeps proj (border_on_insert lvl node next dist).
Proof.
  unfold border_on_insert.
  apply keeps_bind_self. intros s.
  apply keeps_get_node. intros nd.
  destruct (metric s).
  - destruct (flt (snd (border nd)) dist); [apply keeps_upd|apply keeps_ret].
  - destruct (flt dist (snd (border nd))); [apply keeps_upd|apply keeps_ret].
  - destruct (flt dist (snd (border nd))); [apply keeps_upd|apply keeps_ret].
Qed.

Lemma keeps_append_child (rids : list Z) (lvl node : string) (emb : list F) (cl_idx : Z)
    (top : list nat) (dists : list F) :
  keeps proj (append_child rids lvl node emb cl_idx top dists).
Proof.
  unfold append_child.
  apply keeps_get_node. intros nd.
  apply keeps_bind; [apply keeps_grow_if_full|]. intros _.
  apply keeps_get_node. intros nd1.
  apply keeps_bind_lift. intros e _.
  apply keeps_bind; [apply keeps_upd|]. intros _.
  apply keeps_get_node. intros nd2.
  apply keeps_bind_lift. intros rid _.
  apply keeps_bind; [apply keeps_upd|]. intros _.
  apply keeps_get_node. intros nd3.
  apply keeps_bind; [apply keeps_upd|]. intros _.
  apply keeps_get_node. intros nd4.
  apply keeps_bind_lift. intros t0 _.
  apply keeps_bind_lift. intros d _.
  apply keeps_bind_lift. intros ds _.
  apply keeps_bind; [apply keeps_upd|]. intros _.
  apply keeps_border_on_insert.
Qed.

Lemma keeps_descend (remb : ndarray2 F) (rids : list Z) (emb : list F) (cl_idx : Z)
    (rem : nat) (curr_lvl n : Z) (top : list nat) (dists : list F) :
  keeps proj (descend remb rids emb cl_idx rem curr_lvl n top dists).
Proof.
  revert curr_lvl n top dists.
  induction rem as [|rem IH]; intros curr_lvl n top dists; simpl.
  - apply keeps_append_child.
  - apply keeps_bind_self. intros s.
    apply keeps_bind_lift. intros r _.
    apply keeps_bind_lift. intros [top' dists'] _.
    apply keeps_get_node. intros nd.
    apply keeps_bind_lift. intros t0 _.
    apply keeps_bind_lift. intros n' _.
    apply IH.
Qed.

Lemma keeps_insert_levels (remb : ndarray2 F) (rids : list Z) (todo : list Z) (lvl_range : Z) :
  keeps proj (insert_levels remb rids todo lvl_range).
Proof.
  revert lvl_range. induction todo as [|l todo IH]; intros lvl_range; simpl.
  - apply keeps_ret.
  - apply keeps_bind; [apply keeps_next_range|]. intros lvl_range'.
    apply keeps_bind; [|intros _; apply IH].
    apply keeps_for_each. intros [cl_idx emb].
    apply keeps_bind_self. intros s.
    apply keeps_bind_lift. intros [top dists] _.
    apply keeps_bind_lift. intros t0 _.
    apply keeps_descend.
Qed.

Lemma keeps_append_item (lvl node : string) (item : Z) (dist : F) (emb : list F) :
  keeps proj (append_item lvl node item dist emb).
Proof.
  unfold append_item.
  apply keeps_get_node. intros nd.
  apply keeps_bind; [apply keeps_grow_if_full|]. intros _.
  apply keeps_get_node. intros nd1.
  apply keeps_bind_lift. intros e _.
  apply keeps_bind; [apply keeps_upd|]. intros _.
  apply keeps_get_node. intros nd2.
  apply keeps_bind; [apply keeps_upd|]. intros _.
  apply keeps_get_node. intros nd3.
  apply keeps_bind_lift. intros ds _.
  apply keeps_bind; [apply keeps_upd|]. intros _.
  apply keeps_border_on_insert.
Qed.

Lemma keeps_write_cluster_items_to_file (clusters : list (string * list (Z * F * list F))) :
  keeps proj (write_cluster_items_to_file clusters).
Proof.
  unfold write_cluster_items_to_file.
  apply keeps_bind_self. intros s.
  apply keeps_for_each. intros [k v].
  apply keeps_bind.
  - apply keeps_for_each. intros [[item dist] emb]. apply keeps_append_item.
  - intros _. apply keeps_resize_node.
Qed.

Lemma keeps_add_items_concurrent (w : World) (f : Dataset F) (save_to_file : string)
    (chunk_size workers : Z) :
  keeps proj (add_items_concurrent w f save_to_file chunk_size workers).
Proof.
  unfold add_items_concurrent.
  apply keeps_bind_lift. intros starts _.
  apply keeps_bind_lift. intros chunks _.
  apply keeps_bind_self. intros s.
  apply keeps_bind_lift. intros pmaps _.
  destruct (String.eqb save_to_file ""); [apply keeps_ret|].
  unfold merge_phase.
  apply keeps_bind_self. intros s1.
  apply keeps_bind_lift. intros tc _.
  apply keeps_bind_lift. intros starts' _.
  apply keeps_for_each. intros start_idx.
  apply keeps_bind_self. intros s2.
  apply keeps_bind_lift. intros tc' _.
  apply keeps_bind_lift. intros clusters _.
  apply keeps_write_cluster_items_to_file.
Qed.
End TreeFrames.

Section FrameTheorems.
Context {F : Type} {ops : Scalar F}.

Lemma keeps_build_tree_h5 {X} (proj : ECPBuilder F → X) :
  (∀ v s, proj (set_index v s) = proj s) → keeps proj build_tree_h5.
Proof.
  intros Hproj. unfold build_tree_h5.
  pose proof (keeps_update_node proj Hproj) as Hupd.
  pose proof (keeps_new_level proj Hproj) as Hlvl.
  pose proof (keeps_new_node proj Hproj) as Hnd.
  apply keeps_bind_self. intros s.
  destruct (representative_embeddings s) as [remb|]; [|apply keeps_lift].
  destruct (representative_ids s) as [rids|]; [|apply keeps_lift].
  apply keeps_bind; [by apply keeps_modify|]. intros _.
  apply keeps_bind_lift. intros ns _.
  apply keeps_bind; [by apply keeps_modify|]. intros _.
  apply keeps_bind; [by apply keeps_construct_levels|]. intros _.
  apply keeps_bind_lift. intros ns' _.
  apply keeps_bind; [by apply keeps_insert_levels|]. intros _.
  by apply keeps_align_node_embeddings_and_distances.
Qed.

(** The methods that build and fill the tree assign [self.index] and
    nothing else: after [build_tree_h5], the align pass, a flush of
    clusters or the concurrent assignment, the representatives, the derived
    parameters, the metric, the item map and the search queues are what
    they were, whether the method returned or raised. *)
Theorem tree_methods_assign_only_index :
  keeps (F := F) without_index build_tree_h5
  ∧ keeps (F := F) without_index align_node_embeddings_and_distances
  ∧ (∀ clusters, keeps (F := F) without_index (write_cluster_items_to_file clusters))
  ∧ (∀ w f save_to_file chunk_size workers,
       keeps (F := F) without_index
         (add_items_concurrent w f save_to_file chunk_size workers)).
Proof.
  assert (Hproj : ∀ v (s : ECPBuilder F), without_index (set_index v s) = without_index s)
    by done.
  pose proof (keeps_update_node without_index Hproj) as Hupd.
  pose proof (keeps_new_level without_index Hproj) as Hlvl.
  pose proof (keeps_new_node without_index Hproj) as Hnd.
  repeat split.
  - by apply keeps_build_tree_h5.
  - by apply keeps_align_node_embeddings_and_distances.
  - intros clusters. by apply keeps_write_cluster_items_to_file.
  - intros w f save chunk workers. by apply keeps_add_items_concurrent.
Qed.

(** The root of the index is written once. *)
Lemma keeps_root_update_node (lvl node : string) (f : Node F → Node F) :
  keeps (λ s, root <$> index s) (update_node lvl node f).
Proof.
  intros self. unfold update_node. py_unfold.
  destruct (index self) as [idx|] eqn:Hidx; simpl; [|by rewrite Hidx].
  unfold py_getitem.
  destruct (lvls idx !! lvl) as [lv|]; simpl; [|by rewrite Hidx].
  destruct (lv !! node) as [nd|]; simpl; [|by rewrite Hidx].
  done.
Qed.

Lemma keeps_root_new_level (lvl : string) :
  keeps (F := F) (λ s, root <$> index s) (new_level lvl).
Proof.
  intros self. unfold new_level. py_unfold.
  destruct (index self) as [idx|] eqn:Hidx; simpl; [|by rewrite Hidx]. done.
Qed.

Lemma keeps_root_new_node (lvl node : string) (nd : Node F) :
  keeps (λ s, root <$> index s) (new_node lvl node nd).
Proof.
  intros self. unfold new_node. py_unfold.
  destruct (index self) as [idx|] eqn:Hidx; simpl; [|by rewrite Hidx].
  unfold py_getitem.
  destruct (lvls idx !! lvl) as [lv|]; simpl; [|by rewrite Hidx].
  done.
Qed.

(** Once representatives are selected and [node_size] is known,
    [build_tree_h5] leaves a root that holds the first [node_size]
    representatives, ids and embeddings, in selection order: nothing that
    follows the creation of the root, not even an exception raised while
    the levels are filled, changes it. *)
Theorem build_tree_h5_root (self : ECPBuilder F) (remb : ndarray2 F) (rids : list Z) (ns : Z) :
  representative_embeddings self = Some remb →
  representative_ids self = Some rids →
  node_size self = Some ns →
  index_root (snd (build_tree_h5 self))
    = Ok (Build_Root (slice_to ns rids) (slice_to2 ns remb)).
Proof.
  intros Hemb Hids Hns.
  set (s2 := set_index (Some (Build_Index
               (Some (Build_Root (slice_to ns rids) (slice_to2 ns remb))) ∅))
               (set_index (Some (Build_Index None ∅)) self)).
  set (rest := (_ ← construct_levels remb (range (levels self)) 1;
                ns ← lift (py_getattr (node_size self));
                _ ← insert_levels remb rids (range (levels self - 1)) ns;
                align_node_embeddings_and_distances) : Py F unit).
  assert (Hrun : build_tree_h5 self = rest s2).
  { unfold build_tree_h5.
    rewrite (py_bind_ok get_self _ self self self) by reflexivity.
    rewrite Hemb, Hids.
    rewrite (py_bind_ok _ _ self (set_index (Some (Build_Index None ∅)) self) ())
      by reflexivity.
    rewrite (py_bind_ok _ _ _ (set_index (Some (Build_Index None ∅)) self) ns)
      by (unfold lift; by rewrite Hns).
    rewrite (py_bind_ok _ _ _ s2 ()) by reflexivity.
    reflexivity. }
  assert (Hkeep : keeps (λ s, root <$> index s) rest).
  { pose proof keeps_root_update_node as Hupd.
    pose proof keeps_root_new_level as Hlvl.
    pose proof keeps_root_new_node as Hnd.
    unfold rest.
    apply keeps_bind; [by apply keeps_construct_levels|]. intros _.
    apply keeps_bind_lift. intros ns' _.
    apply keeps_bind; [by apply keeps_insert_levels|]. intros _.
    by apply keeps_align_node_embeddings_and_distances. }
  rewrite Hrun. specialize (Hkeep s2). simpl in Hkeep.
  unfold index_root, py_getattr.
  destruct (index (snd (rest s2))) as [idx|]; simpl in *; [|done].
  injection Hkeep as ->. done.
Qed.

(** [add_items] assigns [self.item_to_cluster_map] and nothing else: the
    single-pass assignment puts no item into any leaf of the index. *)
Theorem add_items_assigns_only_item_map (item_embeddings : list (list F)) (offset : Z) :
  keeps without_item_map (add_items item_embeddings offset).
Proof.
  unfold add_items. apply keeps_for_each. intros [idx emb].
  apply keeps_bind_self. intros s.
  apply keeps_bind_lift. intros found _.
  destruct found as [entry|]; [|apply keeps_ret].
  by apply keeps_modify.
Qed.
End FrameTheorems.

(** ** Search: what it writes, and restarting *)

Section SearchFrames.
Context {F : Type} {ops : Scalar F}.

Lemma keeps_tree_put (x : result (TreeEntry F)) : keeps without_queues (tree_put x).
Proof.
  unfold tree_put.
  apply keeps_bind_self. intros s.
  apply keeps_bind_lift. intros q _.
  apply keeps_bind_lift. intros e _.
  by apply keeps_modify.
Qed.

Lemma keeps_item_put (x : result (ItemEntry F)) : keeps without_queues (item_put x).
Proof.
  unfold item_put.
  apply keeps_bind_self. intros s.
  apply keeps_bind_lift. intros q _.
  apply keeps_bind_lift. intros e _.
  by apply keeps_modify.
Qed.

Lemma keeps_expand_leaf (query : list F) (l n : Z) :
  keeps without_queues (expand_leaf query l n).
Proof.
  unfold expand_leaf.
  apply keeps_get_node. intros nd.
  apply keeps_bind_self. intros s.
  apply keeps_bind_lift. intros r _.
  apply keeps_bind_lift. intros [top dists] _.
  apply keeps_bind; [|intros _; apply keeps_ret].
  apply keeps_for_each. intros t.
  apply keeps_bind_self. intros s'. apply keeps_item_put.
Qed.

Lemma keeps_expand_internal (query : list F) (l : Z) (loc : Locals) :
  keeps without_queues (expand_internal query l loc).
Proof.
  unfold expand_internal.
  apply keeps_bind_lift. intros lvl _.
  apply keeps_bind_lift. intros node _.
  apply keeps_bind_self. intros s.
  apply keeps_bind_lift. intros r _.
  apply keeps_bind_lift. intros [top dists] _.
  apply keeps_for_each. intros t.
  apply keeps_bind_self. intros s'.
  apply keeps_bind; [|intros dist; apply keeps_tree_put].
  destruct (metric s').
  - apply keeps_bind_lift. intros d _. apply keeps_bind_lift. intros rad _. apply keeps_ret.
  - apply keeps_bind_lift. intros d _. apply keeps_bind_lift. intros rad _. apply keeps_ret.
  - apply keeps_bind_lift. intros d _. apply keeps_bind_lift. intros rad _. apply keeps_ret.
Qed.

Lemma keeps_search_loop (fuel : nat) (query : list F) (search_exp leaf_cnt : Z)
    (loc : Locals) :
  keeps without_queues (search_loop fuel query search_exp leaf_cnt loc).
Proof.
  revert leaf_cnt loc.
  induction fuel as [|fuel IH]; intros leaf_cnt loc; simpl;
    (destruct (bool_decide (leaf_cnt = search_exp)); [apply keeps_ret|]);
    apply keeps_bind_self; intros s;
    apply keeps_bind_lift; intros q _;
    (destruct (pq_get tree_lt q) as [[[[[d is_leaf] l] n] rest]|]; [|apply keeps_ret]).
  - apply keeps_lift.
  - apply keeps_bind; [by apply keeps_modify|]. intros _.
    destruct is_leaf.
    + apply keeps_bind; [apply keeps_expand_leaf|]. intros loc'. apply IH.
    + apply keeps_bind; [apply keeps_expand_internal|]. intros _. apply IH.
Qed.

Lemma keeps_drain (k : nat) : keeps (F := F) without_queues (drain k).
Proof.
  induction k as [|k IH]; simpl; [apply keeps_ret|].
  apply keeps_bind_self. intros s.
  apply keeps_bind_lift. intros q _.
  destruct (pq_get item_lt q) as [[x rest]|]; [|exact IH].
  apply keeps_bind; [by apply keeps_modify|]. intros _.
  apply keeps_bind; [exact IH|]. intros xs. apply keeps_ret.
Qed.

Lemma keeps_search_tree (fuel : nat) (query : list F) (search_exp k : Z) (restart : bool) :
  keeps without_queues (search_tree fuel query search_exp k restart).
Proof.
  unfold search_tree.
  apply keeps_bind.
  { destruct restart; [|apply keeps_ret].
    apply keeps_bind; [by apply keeps_modify|]. intros _. by apply keeps_modify. }
  intros _. apply keeps_bind_self. intros s.
  apply keeps_bind_lift. intros [top dists] _.
  apply keeps_bind.
  { apply keeps_for_each. intros t. apply keeps_tree_put. }
  intros _. apply keeps_bind; [apply keeps_search_loop|].
  intros _. apply keeps_drain.
Qed.

(** A search writes its two queues and nothing else: the index, the
    representatives and the parameters of the builder are what they were
    after any call of [search_tree], whether it returned, raised or (in the
    model) ran out of fuel. *)
Theorem search_tree_writes_only_queues (fuel : nat) (query : list F) (search_exp k : Z)
    (restart : bool) (self : ECPBuilder F) :
  without_queues (snd (search_tree fuel query search_exp k restart self))
    = without_queues self
  ∧ index (snd (search_tree fuel query search_exp k restart self)) = index self.
Proof.
  pose proof (keeps_search_tree fuel query search_exp k restart self) as H.
  split; [exact H|]. by apply (f_equal index) in H.
Qed.

(** With [restart=True] the queues a builder had play no part. *)
Lemma search_tree_restart_forgets (fuel : nat) (query : list F) (search_exp k : Z)
    (self : ECPBuilder F) :
  search_tree fuel query search_exp k true self
    = search_tree fuel query search_exp k true
        (set_item_pq (Some []) (set_tree_pq (Some []) (without_queues self))).
Proof.
  unfold search_tree.
  rewrite (py_bind_ok _ _ self (set_item_pq (Some []) (set_tree_pq (Some []) self)) ())
    by reflexivity.
  rewrite (py_bind_ok _ _ (set_item_pq (Some []) (set_tree_pq (Some []) (without_queues self)))
             (set_item_pq (Some []) (set_tree_pq (Some []) self)) ())
    by reflexivity.
  reflexivity.
Qed.

(** A restarted search does not depend on the searches made before it:
    [search_tree(q, B, k, restart=True)] gives the same outcome and leaves
    the same queues after any earlier call of [search_tree] (with any
    arguments) as on the builder before that call. In particular two
    identical restarted searches in a row agree. *)
Theorem search_tree_restart_independent (fuel fuel' : nat) (query query' : list F)
    (search_exp k search_exp' k' : Z) (restart' : bool) (self : ECPBuilder F) :
  search_tree fuel query search_exp k true
    (snd (search_tree fuel' query' search_exp' k' restart' self))
  = search_tree fuel query search_exp k true self.
Proof.
  rewrite (search_tree_restart_forgets fuel query search_exp k
             (snd (search_tree fuel' query' search_exp' k' restart' self))).
  rewrite (keeps_search_tree fuel' query' search_exp' k' restart' self).
  symmetry. apply search_tree_restart_forgets.
Qed.
End SearchFrames.

(** ** Selecting by offset *)

Lemma omap_all_some {A B} (f : A → option B) (g : A → B) (l : list A) :
  (∀ x, x ∈ l → f x = Some (g x)) → omap f l = map g l.
Proof.
  induction l as [|x l IH]; intros H; simpl; [done|].
  rewrite (H x) by by left. f_equal. apply IH.
  intros y Hy. apply H. by right.
Qed.

Lemma omap_all_none {A B} (f : A → option B) (l : list A) :
  (∀ x, x ∈ l → f x = None) → omap f l = [].
Proof.
  induction l as [|x l IH]; intros H; simpl; [done|].
  rewrite (H x) by by left. simpl. apply IH.
  intros y Hy. apply H. by right.
Qed.

Lemma lookup_map {A B} (f : A → B) (l : list A) (i : nat) :
  map f l !! i = f <$> l !! i.
Proof.
  revert i. induction l as [|x l IH]; intros [|i]; simpl; try done.
Qed.

(** [ids[::step]] over the ids [0 .. n-1], for a positive step: the
    multiples of the step below [n], which are [ceil(n / step)] many. *)
Lemma stride_range (step n : Z) :
  0 < step → 0 ≤ n ≤ 2 ^ 32 →
  stride step (map (λ i, i mod 2 ^ 32) (range n))
    = map (λ i, i * step) (range (- (- n / step))).
Proof.
  intros Hstep Hn. unfold stride.
  rewrite (proj2 (Z.ltb_lt 0 step) Hstep). cbv beta zeta.
  set (q := - (- n / step)).
  assert (Hq : step * (q - 1) < n ≤ step * q).
  { apply (ceil_div_ceiling n step q Hstep). unfold ceil_div.
    destruct (decide (step = 0)); [lia|done]. }
  assert (Hq0 : 0 ≤ q) by nia.
  rewrite List.length_map. unfold range at 2. rewrite List.length_map, length_seq.
  assert (Hle : (Z.to_nat q ≤ Z.to_nat n)%nat) by nia.
  replace (Z.to_nat n) with (Z.to_nat q + (Z.to_nat n - Z.to_nat q))%nat at 1 by lia.
  rewrite seq_app, omap_app.
  rewrite (omap_all_none _ (seq (0 + Z.to_nat q) _)).
  - rewrite app_nil_r. unfold range at 2. rewrite map_map.
    apply (omap_all_some _ (λ i : nat, Z.of_nat i * step)).
    intros i Hi. apply elem_of_seq in Hi.
    rewrite lookup_map. unfold range. rewrite lookup_map.
    rewrite lookup_seq_lt by nia. simpl. f_equal.
    rewrite Z.mod_small by nia. lia.
  - intros i Hi. apply elem_of_seq in Hi.
    rewrite lookup_map. unfold range. rewrite lookup_map.
    rewrite lookup_seq_ge by nia. done.
Qed.

Section OffsetFacts.
Context {F : Type} (w : World).

(** With a positive cluster size, the option ["offset"] selects the item
    ids [0, s, 2s, ...] below the number of items, [s] being
    [target_cluster_size]: exactly [total_clusters] of them, so that the
    diagnostic about a mismatching count cannot fire; the embeddings are
    the dataset read with the same stride, and the call returns the pair
    it has stored. *)
Theorem select_offset_ids (f : Dataset F) (self : ECPBuilder F) (ns : Z) (emb : ndarray2 F) :
  0 < target_cluster_size self →
  0 ≤ ds_len f ≤ 2 ^ 32 →
  levels self ≠ 0 →
  ceil_root w (- (- ds_len f / target_cluster_size self)) (levels self) = Ok ns →
  ds_stride f (target_cluster_size self) = Ok emb →
  ∃ self' ids,
    select_cluster_representatives w f "offset" self = (Ok (Some emb, Some ids), self')
    ∧ ids = map (λ i, i * target_cluster_size self)
              (range (- (- ds_len f / target_cluster_size self)))
    ∧ total_clusters self' = Some (Z.of_nat (length ids))
    ∧ node_size self' = Some ns
    ∧ representative_ids self' = Some ids
    ∧ representative_embeddings self' = Some emb.
Proof.
  intros Htcs Hn Hlv Hroot Hstride.
  set (tc := - (- ds_len f / target_cluster_size self)) in *.
  assert (Htc : 0 ≤ tc).
  { pose proof (ceil_div_ceiling (ds_len f) (target_cluster_size self) tc Htcs) as H.
    unfold ceil_div in H. destruct (decide (target_cluster_size self = 0)); [lia|].
    specialize (H eq_refl). nia. }
  eexists _, (map (λ i, i * target_cluster_size self) (range tc)).
  split; [|split; [reflexivity|]].
  - unfold select_cluster_representatives, ceil_div. py_unfold.
    destruct (decide (target_cluster_size self = 0)); [lia|]. simpl.
    destruct (decide (levels self = 0)); [done|].
    fold tc. rewrite Hroot. simpl. rewrite Hstride. simpl.
    rewrite stride_range by done. reflexivity.
  - simpl. repeat split.
    rewrite length_map. unfold range. rewrite length_map, length_seq.
    f_equal. lia.
Qed.

(** The option is looked at last: with [target_cluster_size] zero, or with
    [levels] zero, every call raises [ZeroDivisionError], also for an
    unknown option; in the first case nothing has been assigned, in the
    second [total_clusters] has. *)
Theorem select_zero_parameters (f : Dataset F) (self : ECPBuilder F) (opt : string) :
  (target_cluster_size self = 0 →
     select_cluster_representatives w f opt self = (Raise ZeroDivisionError, self))
  ∧ (target_cluster_size self ≠ 0 → levels self = 0 →
     select_cluster_representatives w f opt self
       = (Raise ZeroDivisionError,
          set_total_clusters (Some (- (- ds_len f / target_cluster_size self))) self)).
Proof.
  split.
  - intros Htcs. unfold select_cluster_representatives, ceil_div. py_unfold.
    by destruct (decide (target_cluster_size self = 0)).
  - intros Htcs Hlv. unfold select_cluster_representatives, ceil_div. py_unfold.
    destruct (decide (target_cluster_size self = 0)); [done|]. simpl.
    by destruct (decide (levels self = 0)).
Qed.
End OffsetFacts.

Section LoadFacts.
Context {F : Type} {ops : Scalar F}.

(** Representatives loaded from a file are not enough to build: the
    loader assigns the two representative arrays only, so on a builder that
    has not selected before, [build_tree_h5] passes its check, creates an
    empty index and raises [AttributeError] when it reads [node_size]. *)
Theorem build_after_load_raises (levels tcs : Z) (m : Metric)
    (emb : ndarray2 F) (ids : list Z) :
  let loaded := snd (get_cluster_representatives_from_file emb ids (init levels tcs m)) in
  representative_embeddings loaded = Some emb
  ∧ representative_ids loaded = Some ids
  ∧ build_tree_h5 loaded
      = (Raise AttributeError, set_index (Some (Build_Index None ∅)) loaded).
Proof. repeat split. Qed.
End LoadFacts.

(** ** Ranking the children of a node, and aligning *)

Section LevelFacts.
Context {F : Type} {ops : Scalar F}.
Hypothesis flt_asym : ∀ x y : F, flt x y = true → flt y x = false.

(** For the metric cos, on a node whose embeddings array has a row and a
    query of the dimension of its rows, all entries finite,
    [distance_level_node] returns the raw cosine similarities of the rows
    of the array and the row positions by descending similarity. The
    positions are those of the whole array: before the align pass they
    include the rows allocated in advance. On a node without rows (every
    leaf after [build_tree_h5]) or a query of another dimension
    [cosine_similarity] raises [ValueError]. *)
Theorem distance_level_node_cos_ranks
    (self : ECPBuilder F) (emb : list F) (lvl node : string) (nd : Node F) :
  metric self = COS →
  index_node self lvl node = Ok nd →
  rankable COS (embeddings nd) emb = true →
  ∃ top scores,
    distance_level_node self emb lvl node = Ok (Some (top, scores))
    ∧ scores = cosine_similarity (rows (embeddings nd)) emb
    ∧ top ≡ₚ seq 0 (length (rows (embeddings nd)))
    ∧ ascending (λ i j, flt (key scores j) (key scores i)) top.
Proof.
  intros Hm Hnd _. eexists _, _. split; [by apply distance_level_node_cos|].
  split; [reflexivity|]. split.
  - rewrite <- Permutation_rev, np_argsort_perm. unfold cosine_similarity.
    by rewrite List.length_map.
  - apply (ascending_rev (λ i j, flt (key _ i) (key _ j))).
    apply sort_by_ascending. intros i j. apply flt_asym.
Qed.

(** A node without scores has no border to recompute:
    [update_node_border_info] raises [IndexError] and changes nothing. This
    is the case the align pass guards against. *)
Theorem update_node_border_info_empty
    (self : ECPBuilder F) (lvl node : string) (nd : Node F) :
  index_node self lvl node = Ok nd →
  distances nd = [] →
  update_node_border_info lvl node self = (Raise IndexError, self).
Proof.
  intros Hnd Hd. unfold update_node_border_info. py_unfold.
  rewrite Hnd, Hd. by destruct (metric self).
Qed.

Lemma resize_node_ok (self : ECPBuilder F) (lvl node : string) (nd : Node F) :
  index_node self lvl node = Ok nd →
  ∃ self', resize_node lvl node self = (Ok (), self')
         ∧ index_node self' lvl node
             = Ok (set_distances (resize (length (item_ids nd)) (distances nd))
                     (set_embeddings (resize2 (length (item_ids nd)) (embeddings nd)) nd))
         ∧ metric self' = metric self.
Proof.
  intros Hnd. unfold resize_node.
  rewrite (py_bind_ok _ _ _ _ _ (get_node_ok _ _ _ _ Hnd)).
  destruct (update_node_ok self lvl node nd
              (set_embeddings (resize2 (length (item_ids nd)) (embeddings nd))) Hnd)
    as (s1 & Hrun1 & Hnd1 & Hm1 & _).
  rewrite (py_bind_ok _ _ _ _ _ Hrun1).
  rewrite (py_bind_ok _ _ _ _ _ (get_node_ok _ _ _ _ Hnd1)).
  destruct (update_node_ok s1 lvl node _
              (set_distances (resize (length (item_ids nd)) (distances nd))) Hnd1)
    as (s2 & Hrun2 & Hnd2 & Hm2 & _).
  exists s2. split; [exact Hrun2|]. split; [exact Hnd2|]. congruence.
Qed.

Lemma resize_length (n : nat) (a : list F) : length (resize n a) = n.
Proof. unfold resize. rewrite length_app, length_take, length_replicate. lia. Qed.

(** [align_specific_node] on an existing node always returns, and makes
    the two arrays of the node as long as its item list: rows and scores
    beyond the items are dropped, missing scores are zeros and missing
    rows are rows of zeros, of the second dimension of the array, which is
    kept. The item list, the child list and the border are left as they are
    (the border is not recomputed here). *)
Theorem align_specific_node_trims (self : ECPBuilder F) (lvl node : string) (nd : Node F) :
  index_node self lvl node = Ok nd →
  ∃ self' nd',
    align_specific_node lvl node self = (Ok (), self')
    ∧ index_node self' lvl node = Ok nd'
    ∧ item_ids nd' = item_ids nd
    ∧ node_ids nd' = node_ids nd
    ∧ border nd' = border nd
    ∧ length (rows (embeddings nd')) = length (item_ids nd)
    ∧ length (distances nd') = length (item_ids nd)
    ∧ distances nd' = take (length (item_ids nd)) (distances nd)
                        ++ replicate (length (item_ids nd) - length (distances nd)) fzero
    ∧ take (length (rows (embeddings nd))) (rows (embeddings nd'))
        = take (length (item_ids nd)) (rows (embeddings nd))
    ∧ rows (embeddings nd')
        = take (length (item_ids nd)) (rows (embeddings nd))
            ++ replicate (length (item_ids nd) - length (rows (embeddings nd)))
                 (replicate (shape1 (embeddings nd)) fzero)
    ∧ shape1 (embeddings nd') = shape1 (embeddings nd).
Proof.
  intros Hnd. destruct (resize_node_ok self lvl node nd Hnd) as (self' & Hrun & Hnd' & _).
  eexists self', _. split; [exact Hrun|]. split; [exact Hnd'|]. simpl.
  repeat split.
  - rewrite length_app, length_take, length_replicate. lia.
  - apply resize_length.
  - destruct (decide (length (item_ids nd) ≤ length (rows (embeddings nd)))%nat) as [Hle|Hgt].
    + replace (length (item_ids nd) - length (rows (embeddings nd)))%nat with 0%nat by lia.
      simpl. rewrite app_nil_r. apply take_ge. rewrite length_take. lia.
    + rewrite (take_ge (rows (embeddings nd))) by lia. by rewrite take_app_length.
Qed.

(** The step of the align pass at one existing node whose trimmed scores
    have no tie: it returns, trims the arrays as [align_specific_node]
    does, and then stores as border, when the node has items, the first
    position and score of the trimmed scores (IP, cos) or the last ones
    (L2); a node without items keeps the border it had. (With tied scores
    the position [np.argsort] gives depends on its sorting algorithm.) *)
Theorem align_pass_at_node (self : ECPBuilder F) (lvl node : string) (nd : Node F) :
  index_node self lvl node = Ok nd →
  tie_free (resize (length (item_ids nd)) (distances nd)) = true →
  ∃ self' nd',
    align_one lvl node self = (Ok (), self')
    ∧ index_node self' lvl node = Ok nd'
    ∧ item_ids nd' = item_ids nd
    ∧ node_ids nd' = node_ids nd
    ∧ distances nd' = resize (length (item_ids nd)) (distances nd)
    ∧ embeddings nd' = resize2 (length (item_ids nd)) (embeddings nd)
    ∧ match distances nd' with
      | [] => border nd' = border nd
      | d0 :: d =>
          border nd' = match metric self with
                       | L2 => (Z.of_nat (length d), default d0 (last (d0 :: d)))
                       | IP | COS => (0, d0)
                       end
      end.
Proof.
  intros Hnd _.
  destruct (resize_node_ok self lvl node nd Hnd) as (s1 & Hrun1 & Hnd1 & Hm1).
  unfold align_one.
  rewrite (py_bind_ok _ _ _ _ _ Hrun1).
  rewrite (py_bind_ok _ _ _ _ _ (get_node_ok _ _ _ _ Hnd1)).
  cbn [item_ids set_distances set_embeddings].
  destruct (decide (0 < length (item_ids nd))%nat) as [Hpos|Hzero].
  - destruct (resize (length (item_ids nd)) (distances nd)) as [|d0 d] eqn:Hres.
    { pose proof (resize_length (length (item_ids nd)) (distances nd)) as Hlen.
      rewrite Hres in Hlen. simpl in Hlen. lia. }
    destruct (update_node_ok s1 lvl node _
                (set_border (match metric s1 with
                             | L2 => (Z.of_nat (length d), default d0 (last (d0 :: d)))
                             | IP | COS => (0, d0)
                             end)) Hnd1) as (s2 & Hrun2 & Hnd2 & _).
    eexists s2, _. split; [|split; [exact Hnd2|]].
    + unfold update_node_border_info.
      rewrite (py_bind_ok get_self _ s1 s1 s1) by reflexivity.
      rewrite (py_bind_ok _ _ _ _ _ (get_node_ok _ _ _ _ Hnd1)).
      cbn [distances set_distances].
      rewrite (py_bind_ok _ _ s1 s1 _)
        by (unfold lift; by rewrite (new_border_by_position flt_asym)).
      exact Hrun2.
    + simpl. rewrite Hm1. done.
  - eexists s1, _. split; [reflexivity|]. split; [exact Hnd1|]. simpl.
    repeat split; try done.
    assert (Hn : length (item_ids nd) = 0%nat) by lia. rewrite Hn. done.
Qed.
End LevelFacts.

(** ** Locating the leaf of an item *)

Section LocateFacts.
Context {F : Type} {ops : Scalar F}.

(** The pair of the last level is recorded when the loop passes the last
    level. *)
Lemma locate_levels_found (self : ECPBuilder F) (emb : list F) (todo : list Z)
    (top : list nat) (dists : list F) (lvl node : string) (t : option nat)
    (found res : option (string * F)) :
  locate_levels self emb todo top dists lvl node t found = Ok res →
  is_Some found ∨ (levels self - 1) ∈ todo →
  is_Some res.
Proof.
  revert top dists lvl node t found.
  induction todo as [|l todo IH]; intros top dists lvl node t found Hrun Hcase.
  - simpl in Hrun. injection Hrun as <-.
    destruct Hcase as [H|H]; [done|]. by apply elem_of_nil in H.
  - simpl in Hrun. destruct (decide (l = levels self - 1)) as [Hl|Hl].
    + destruct t as [t'|]; simpl in Hrun; [|done].
      destruct (py_index top t') as [i| |]; simpl in Hrun; [|done..].
      destruct (py_index dists i) as [d| |]; simpl in Hrun; [|done..].
      apply (IH _ _ _ _ _ _ Hrun). by left.
    + assert (Hcase' : is_Some found ∨ (levels self - 1) ∈ todo).
      { destruct Hcase as [H|H]; [by left|right].
        apply elem_of_cons in H as [H|H]; [lia|done]. }
      destruct (distance_level_node self emb lvl node) as [r| |]; simpl in Hrun; [|done..].
      destruct (unpack2 r) as [[top' dists']| |]; simpl in Hrun; [|done..].
      destruct (decide (l + 1 < levels self - 1)).
      * destruct (scan_level self (lvl_name (l + 1)) (enumerate top') node t)
          as [[node' t']| |]; simpl in Hrun; [|done..].
        by apply (IH _ _ _ _ _ _ Hrun).
      * by apply (IH _ _ _ _ _ _ Hrun).
Qed.

Lemma elem_of_range (n i : Z) : i ∈ range n ↔ 0 ≤ i < n.
Proof.
  unfold range. split.
  - intros H. apply list_elem_of_In, in_map_iff in H as (j & <- & Hj).
    apply in_seq in Hj. lia.
  - intros H. apply list_elem_of_In, in_map_iff. exists (Z.to_nat i).
    split; [lia|]. apply in_seq. lia.
Qed.

Lemma locate_found (self : ECPBuilder F) (emb : list F) (res : option (string * F)) :
  1 ≤ levels self → locate self emb = Ok res → is_Some res.
Proof.
  intros Hlv Hrun. unfold locate in Hrun.
  destruct (distance_root_node self emb) as [[top dists]| |]; simpl in Hrun; [|done..].
  destruct (scan_root self "lvl_0" top "" None) as [[node t]| |]; simpl in Hrun; [|done..].
  apply (locate_levels_found _ _ _ _ _ _ _ _ _ _ Hrun).
  right. apply elem_of_range. lia.
Qed.

Lemma node_map_ids_insert_new (node_map : gmap string (list (Z * F))) (node : string)
    (entries : list (Z * F)) :
  node_map !! node = None →
  node_map_ids (<[node := entries]> node_map) ≡ₚ (fst <$> entries) ++ node_map_ids node_map.
Proof.
  intros Hnone. unfold node_map_ids.
  rewrite (map_to_list_insert node_map node entries Hnone). done.
Qed.

Lemma node_map_ids_append (node_map : gmap string (list (Z * F))) (node : string)
    (entries : list (Z * F)) (x : Z * F) :
  node_map !! node = Some entries →
  node_map_ids (<[node := entries ++ [x]]> node_map) ≡ₚ fst x :: node_map_ids node_map.
Proof.
  intros Hsome.
  rewrite <- (insert_delete_eq node_map node (entries ++ [x])).
  rewrite node_map_ids_insert_new by apply lookup_delete_eq.
  unfold node_map_ids at 2.
  rewrite <- (map_to_list_delete node_map node entries Hsome).
  rewrite fmap_app. simpl.
  change (map_to_list (delete node node_map) ≫= λ entry, fst <$> snd entry)
    with (node_map_ids (delete node node_map)).
  rewrite <- app_assoc. simpl.
  by rewrite <- Permutation_middle.
Qed.

Lemma determine_node_map_fold (self : ECPBuilder F) (offset : Z)
    (items : list (Z * list F)) (acc node_map : gmap string (list (Z * F))) :
  1 ≤ levels self →
  fold_result items acc (λ node_map '(idx, emb),
      found ← locate self emb;
      match found with
      | Some (node, d) =>
          match node_map !! node with
          | Some entries => Ok (<[node := entries ++ [(offset + idx, d)]]> node_map)
          | None => Ok (<[node := [(offset + idx, d)]]> node_map)
          end
      | None => Ok node_map
      end) = Ok node_map →
  node_map_ids node_map ≡ₚ node_map_ids acc ++ ((λ item, offset + fst item) <$> items).
Proof.
  intros Hlv. revert acc. induction items as [|[idx emb] items IH]; intros acc Hrun.
  - simpl in Hrun. injection Hrun as <-. by rewrite app_nil_r.
  - simpl in Hrun.
    destruct (locate self emb) as [found| |] eqn:Hloc; simpl in Hrun; [|done..].
    destruct (locate_found self emb found Hlv Hloc) as [[node d] ->].
    destruct (acc !! node) as [entries|] eqn:Hacc; simpl in Hrun.
    + rewrite (IH _ Hrun), node_map_ids_append by done. simpl.
      by rewrite <- Permutation_middle.
    + rewrite (IH _ Hrun), node_map_ids_insert_new by done. simpl.
      by rewrite <- Permutation_middle.
Qed.

(** The map [determine_node_map] returns covers its input: on a builder
    with at least one level, when the call returns, the item ids in the
    lists of the map are [offset], [offset + 1], ..., one for each
    embedding of the batch, each id once and so in one list only. *)
Theorem determine_node_map_covers (self : ECPBuilder F) (item_embeddings : list (list F))
    (offset : Z) (node_map : gmap string (list (Z * F))) :
  1 ≤ levels self →
  determine_node_map self item_embeddings offset = Ok node_map →
  node_map_ids node_map
    ≡ₚ map (λ i, offset + i) (range (Z.of_nat (length item_embeddings))).
Proof.
  intros Hlv Hrun. unfold determine_node_map in Hrun.
  rewrite (determine_node_map_fold self offset _ _ _ Hlv Hrun).
  unfold node_map_ids at 1. rewrite map_to_list_empty. simpl.
  unfold enumerate.
  assert (Hzip : ∀ (l1 : list Z) (l2 : list (list F)),
             length l1 = length l2 →
             (λ item : Z * list F, offset + item.1) <$> zip l1 l2
               = map (λ i, offset + i) l1).
  { intros l1. induction l1 as [|a l1 IHl]; intros [|b l2] Hlen; simpl in *; try done.
    f_equal. apply IHl. lia. }
  rewrite Hzip; [done|].
  unfold range. rewrite List.length_map, length_seq. lia.
Qed.
End LocateFacts.

Section AssignErrors.
Context {F : Type} {ops : Scalar F}.

Lemma scan_root_ok (self : ECPBuilder F) (lvl : string) (top : list nat)
    (node : string) (t0 : option nat) :
  (∀ t, t ∈ top → ∃ nd, index_node self lvl (node_name (Z.of_nat t)) = Ok nd) →
  top ≠ [] →
  ∃ t', scan_root self lvl top node t0 = Ok (node_name (Z.of_nat t'), Some t') ∧ t' ∈ top.
Proof.
  revert node t0. induction top as [|t1 top IH]; intros node t0 Hall Hne; [done|].
  simpl. destruct (Hall t1) as [nd Hnd]; [by left|]. rewrite Hnd. simpl.
  destruct (decide (0 < length (item_ids nd))%nat).
  - exists t1. split; [done|by left].
  - destruct top as [|t2 top'].
    + exists t1. split; [done|by left].
    + destruct (IH (node_name (Z.of_nat t1)) (Some t1)) as (t' & Hrun & Hin); [|done|].
      { intros t Ht. apply Hall. by right. }
      exists t'. split; [exact Hrun|by right].
Qed.

Lemma range_cons (n : Z) : 1 ≤ n → ∃ todo, range n = 0 :: todo.
Proof.
  intros Hn. unfold range. destruct (Z.to_nat n) as [|k] eqn:Hk; [lia|].
  simpl. by eexists.
Qed.

Lemma enumerate_cons {A} (x : A) (l : list A) :
  ∃ rest, enumerate (x :: l) = (0, x) :: rest.
Proof.
  unfold enumerate. destruct (range_cons (Z.of_nat (length (x :: l)))) as [todo ->].
  { simpl. lia. }
  simpl. by eexists.
Qed.

Lemma locate_raises_TypeError (self : ECPBuilder F) (r : Root F) (emb : list F) :
  metric self = IP ∨ metric self = L2 →
  2 ≤ levels self →
  index_root self = Ok r →
  rows (root_embeddings r) ≠ [] →
  (∀ j, (j < length (rows (root_embeddings r)))%nat →
        ∃ nd, index_node self "lvl_0" (node_name (Z.of_nat j)) = Ok nd) →
  locate self emb = Raise TypeError.
Proof.
  intros Hm Hlv Hroot Hne Hnodes. unfold locate.
  destruct (distance_root_node_scores self emb r Hroot) as (top & -> & Hperm). simpl.
  destruct (scan_root_ok self "lvl_0" top "" None) as (t' & -> & Hin).
  { intros t Ht. apply Hnodes. rewrite Hperm in Ht. apply elem_of_seq in Ht. lia. }
  { intros ->. apply Permutation_length in Hperm. rewrite length_seq in Hperm.
    destruct (rows (root_embeddings r)); [done|discriminate]. }
  simpl. destruct (range_cons (levels self)) as [todo ->]; [lia|].
  simpl. destruct (decide (0 = levels self - 1)); [lia|].
  destruct (Hnodes t') as [nd Hnd].
  { rewrite Hperm in Hin. apply elem_of_seq in Hin. lia. }
  unfold distance_level_node. destruct Hm as [-> | ->]; by rewrite Hnd.
Qed.

(** With the metric IP or L2 and two or more levels, no item can be
    assigned: on a built index (a root that is not empty, a node of level
    0 for each of its children), [determine_node_map] and [add_items] raise
    [TypeError] at the first item of any batch that is not empty and whose
    first item has the dimension of the index (that of the rows of the
    root and of the nodes of level 0), because ranking the children of a
    node returns [None] for these metrics; [add_items] leaves the builder
    unchanged. (A first item of another dimension raises [ValueError] in
    the ranking itself.) *)
Theorem assignment_raises_TypeError (self : ECPBuilder F) (r : Root F)
    (emb : list F) (items : list (list F)) (offset : Z) :
  metric self = IP ∨ metric self = L2 →
  2 ≤ levels self →
  index_root self = Ok r →
  rows (root_embeddings r) ≠ [] →
  rankable (metric self) (root_embeddings r) emb = true →
  (∀ j, (j < length (rows (root_embeddings r)))%nat →
        ∃ nd, index_node self "lvl_0" (node_name (Z.of_nat j)) = Ok nd
              ∧ rankable (metric self) (embeddings nd) emb = true) →
  determine_node_map self (emb :: items) offset = Raise TypeError
  ∧ add_items (emb :: items) offset self = (Raise TypeError, self).
Proof.
  intros Hm Hlv Hroot Hne _ Hshaped.
  assert (Hnodes : ∀ j, (j < length (rows (root_embeddings r)))%nat →
            ∃ nd, index_node self "lvl_0" (node_name (Z.of_nat j)) = Ok nd).
  { intros j Hj. destruct (Hshaped j Hj) as (nd & Hnd & _). by exists nd. }
  pose proof (locate_raises_TypeError self r emb Hm Hlv Hroot Hne Hnodes) as Hloc.
  destruct (enumerate_cons emb items) as [rest Henum].
  split.
  - unfold determine_node_map. rewrite Henum. simpl. by rewrite Hloc.
  - unfold add_items. rewrite Henum. simpl. py_unfold. by rewrite Hloc.
Qed.
End AssignErrors.

(** ** The queues *)

Section QueueFacts.
Context {F : Type} {ops : Scalar F}.

Lemma pq_pop_perm {A} (lt : A → A → bool) (q : list A) (x m : A) (rest : list A) :
  pq_pop lt x q = (m, rest) → m :: rest ≡ₚ x :: q.
Proof.
  revert x m rest. induction q as [|y q IH]; intros x m rest; simpl.
  - by intros [= <- <-].
  - destruct (pq_pop lt y q) as [m' rest'] eqn:Hpop.
    specialize (IH _ _ _ Hpop).
    destruct (lt m' x); intros [= <- <-]; [|done].
    rewrite <- IH. apply Permutation_swap.
Qed.

(** The element popped is a least one, when the order is asymmetric and
    negatively transitive on the elements of the queue. *)
Lemma pq_pop_least {A} (lt : A → A → bool) (q : list A) (x m : A) (rest : list A) :
  (∀ a b, a ∈ x :: q → b ∈ x :: q → lt a b = true → lt b a = false) →
  (∀ a b c, a ∈ x :: q → b ∈ x :: q → c ∈ x :: q →
            lt a b = false → lt b c = false → lt a c = false) →
  pq_pop lt x q = (m, rest) →
  ∀ z, z ∈ x :: q → lt z m = false.
Proof.
  revert x m rest. induction q as [|y q IH]; intros x m rest Hasym Htrans; simpl.
  - intros [= <- <-] z Hz. apply list_elem_of_singleton in Hz as ->.
    destruct (lt x x) eqn:Hxx; [|done].
    rewrite (Hasym x x) in Hxx; [done|by left..|done].
  - destruct (pq_pop lt y q) as [m' rest'] eqn:Hpop.
    assert (Hm' : ∀ z, z ∈ y :: q → lt z m' = false).
    { apply (IH y m' rest'); [| |done].
      - intros a b Ha Hb. apply Hasym; by right.
      - intros a b c Ha Hb Hc. apply Htrans; by right. }
    assert (Hin : m' ∈ y :: q) by (by eapply pq_pop_elem).
    destruct (lt m' x) eqn:Hlt; intros [= <- <-] z Hz.
    + apply elem_of_cons in Hz as [->|Hz]; [|by apply Hm'].
      apply Hasym; [by right|by left|done].
    + apply elem_of_cons in Hz as [->|Hz].
      * destruct (lt x x) eqn:Hxx; [|done].
        rewrite (Hasym x x) in Hxx; [done|by left..|done].
      * apply (Htrans z m' x); [by right|by right|by left| |done]. by apply Hm'.
Qed.

Lemma drain_spec (k : nat) (self : ECPBuilder F) (q : list (ItemEntry F)) :
  item_pq self = Some q →
  ∃ out rest self',
    drain k self = (Ok out, self')
    ∧ item_pq self' = Some rest
    ∧ out ++ rest ≡ₚ q
    ∧ length out = (k `min` length q)%nat
    ∧ ((∀ a b, a ∈ q → b ∈ q → item_lt a b = true → item_lt b a = false) →
       (∀ a b c, a ∈ q → b ∈ q → c ∈ q →
                 item_lt a b = false → item_lt b c = false → item_lt a c = false) →
       ascending item_lt out ∧ ∀ x y, x ∈ out → y ∈ rest → item_lt y x = false).
Proof.
  revert self q. induction k as [|k IH]; intros self q Hq.
  - exists [], q, self. simpl. split; [done|]. split; [done|]. split; [done|].
    split; [done|]. intros _ _. split; [done|].
    intros x y Hx. by apply elem_of_nil in Hx.
  - simpl. py_unfold. rewrite Hq. simpl. destruct q as [|x q]; simpl.
    + destruct (IH self [] Hq) as (out & rest & self' & Hrun & Hq' & Hperm & Hlen & Hord).
      exists out, rest, self'. split; [done|]. split; [done|]. split; [done|].
      split; [|exact Hord]. rewrite Hlen. simpl. lia.
    + destruct (pq_pop item_lt x q) as [m rest0] eqn:Hpop.
      destruct (IH (set_item_pq (Some rest0) self) rest0 eq_refl)
        as (out & rest & self' & Hrun & Hq' & Hperm & Hlen & Hord).
      rewrite Hrun. simpl.
      pose proof (pq_pop_perm _ _ _ _ _ Hpop) as Hpp.
      exists (m :: out), rest, self'. split; [done|]. split; [done|]. split; [|split].
      * simpl. by rewrite Hperm.
      * simpl. rewrite Hlen. apply Permutation_length in Hpp. simpl in Hpp. lia.
      * intros Hasym Htrans.
        assert (Hleast : ∀ z, z ∈ x :: q → item_lt z m = false)
          by (by apply (pq_pop_least item_lt q x m rest0)).
        assert (Hsub : ∀ z, z ∈ rest0 → z ∈ x :: q).
        { intros z Hz. rewrite <- Hpp. by right. }
        destruct Hord as [Hasc Hcross].
        { intros a b Ha Hb. apply Hasym; by apply Hsub. }
        { intros a b c Ha Hb Hc. apply Htrans; by apply Hsub. }
        assert (Hout : ∀ z, z ∈ out → z ∈ rest0).
        { intros z Hz. rewrite <- Hperm. apply elem_of_app. by left. }
        split.
        -- destruct out as [|o out']; [done|]. split; [|exact Hasc].
           apply Hleast, Hsub, Hout. by left.
        -- intros a b Ha Hb. apply elem_of_cons in Ha as [->|Ha].
           ++ apply Hleast, Hsub. rewrite <- Hperm. apply elem_of_app. by right.
           ++ by apply Hcross.
Qed.

(** Draining takes [min(k, n)] entries off a results queue of [n] entries
    and leaves the others in the queue: nothing is lost or made up. *)
Theorem drain_takes (k : nat) (self : ECPBuilder F) (q : list (ItemEntry F)) :
  item_pq self = Some q →
  ∃ out rest self',
    drain k self = (Ok out, self')
    ∧ item_pq self' = Some rest
    ∧ out ++ rest ≡ₚ q
    ∧ length out = (k `min` length q)%nat.
Proof.
  intros Hq. destruct (drain_spec k self q Hq) as (out & rest & self' & H1 & H2 & H3 & H4 & _).
  by exists out, rest, self'.
Qed.

(** The entries drained come in ascending order of the tuple
    [(score, item_id)], and none left in the queue is smaller than one
    drained, for every metric (the order of the tuples being asymmetric and
    negatively transitive on the queue, as it is when no score is NaN): the
    lowest scores first, also when the scores are similarities. *)
Theorem drain_ascending (k : nat) (self : ECPBuilder F) (q : list (ItemEntry F)) :
  item_pq self = Some q →
  (∀ a b, a ∈ q → b ∈ q → item_lt a b = true → item_lt b a = false) →
  (∀ a b c, a ∈ q → b ∈ q → c ∈ q →
            item_lt a b = false → item_lt b c = false → item_lt a c = false) →
  ∃ out rest self',
    drain k self = (Ok out, self')
    ∧ item_pq self' = Some rest
    ∧ ascending item_lt out
    ∧ ∀ x y, x ∈ out → y ∈ rest → item_lt y x = false.
Proof.
  intros Hq Hasym Htrans.
  destruct (drain_spec k self q Hq) as (out & rest & self' & H1 & H2 & _ & _ & Hord).
  destruct (Hord Hasym Htrans) as [Hasc Hcross].
  by exists out, rest, self'.
Qed.

(** A search that continues ([restart=False]) needs queues: on a builder
    that has never restarted a search, over a root that is not empty and
    for a query the ranking of the root accepts, it raises
    [AttributeError] when it pushes the first child of the root, and leaves
    the builder as it was. (The root is ranked first: a query of another
    dimension raises [ValueError] there.) *)
Theorem search_tree_continue_without_queues (fuel : nat) (query : list F) (search_exp k : Z)
    (self : ECPBuilder F) (r : Root F) :
  tree_pq self = None →
  index_root self = Ok r →
  rows (root_embeddings r) ≠ [] →
  rankable (metric self) (root_embeddings r) query = true →
  search_tree fuel query search_exp k false self = (Raise AttributeError, self).
Proof.
  intros Hq Hroot Hne _.
  destruct (distance_root_node_scores self query r Hroot) as (top & Hrank & Hperm).
  destruct top as [|t top].
  { apply Permutation_length in Hperm. rewrite length_seq in Hperm.
    destruct (rows (root_embeddings r)); [done|discriminate]. }
  unfold search_tree.
  rewrite (py_bind_ok _ _ self self ()) by reflexivity.
  rewrite (py_bind_ok get_self _ self self self) by reflexivity.
  rewrite (py_bind_ok _ _ self self _) by (unfold lift; by rewrite Hrank).
  apply py_bind_raise. simpl for_each.
  apply py_bind_raise. unfold tree_put. py_unfold. by rewrite Hq.
Qed.
End QueueFacts.

(** ** The merge phase needs twenty clusters *)

Section MergeErrors.
Context {F : Type} {ops : Scalar F} (w : World).

Lemma merge_phase_small (f : Dataset F) (pmaps : list (gmap string (list (Z * F))))
    (self : ECPBuilder F) (tc : Z) :
  total_clusters self = Some tc →
  -20 < tc < 20 →
  merge_phase f pmaps self = (Raise ValueError, self).
Proof.
  intros Htc Hsmall. unfold merge_phase. py_unfold. rewrite Htc. simpl.
  assert (Hq : Z.quot tc 20 = 0) by (apply Z.quot_small_iff; lia).
  rewrite Hq. reflexivity.
Qed.

(** With fewer than twenty clusters the concurrent assignment cannot
    persist anything: the slice size [int(total_clusters / 20)] is zero, so
    that, once the workers are done, the merge raises [ValueError] from
    [range] before it reads a partial map; a call with a file to save to
    never returns normally. *)
Theorem add_items_concurrent_needs_twenty_clusters (f : Dataset F) (save_to_file : string)
    (chunk_size workers : Z) (self : ECPBuilder F) (tc : Z) :
  total_clusters self = Some tc →
  -20 < tc < 20 →
  save_to_file ≠ "" →
  (∀ pmaps, merge_phase f pmaps self = (Raise ValueError, self))
  ∧ fst (add_items_concurrent w f save_to_file chunk_size workers self) ≠ Ok ().
Proof.
  intros Htc Hsmall Hsave. split.
  - intros pmaps. by apply (merge_phase_small f pmaps self tc).
  - apply String.eqb_neq in Hsave.
    unfold add_items_concurrent.
    unfold mbind at 1, Py_bind at 1, py_bind at 1, lift at 1.
    destruct (range3 0 (ds_len f) chunk_size) as [starts| |]; [|done..].
    unfold mbind at 1, Py_bind at 1, py_bind at 1, lift at 1.
    destruct (map_result _ starts) as [chunks| |]; [|done..].
    rewrite (py_bind_ok get_self _ self self self) by reflexivity.
    unfold mbind at 1, Py_bind at 1, py_bind at 1, lift at 1.
    destruct (pool_apply _ _ chunks) as [pmaps| |]; [|done..].
    rewrite Hsave. by rewrite (merge_phase_small f pmaps self tc).
Qed.
End MergeErrors.

(** ** Appending items to a leaf *)

Section AppendFacts.
Context {F : Type} {ops : Scalar F}.

Lemma update_node_step (self : ECPBuilder F) (lvl node : string) (nd : Node F)
    (f : Node F → Node F) :
  index_node self lvl node = Ok nd →
  ∃ self', update_node lvl node f self = (Ok (), self')
         ∧ index_node self' lvl node = Ok (f nd)
         ∧ without_index self' = without_index self.
Proof.
  intros Hnd. destruct (update_node_ok self lvl node nd f Hnd) as (self' & Hrun & Hnd' & _).
  exists self'. split; [exact Hrun|]. split; [exact Hnd'|].
  pose proof (keeps_update_node without_index (λ v s, eq_refl) lvl node f self) as H.
  by rewrite Hrun in H.
Qed.

(** What an append needs of the builder: a positive [node_size] and
    representatives (their second dimension sizes the rows added). *)
Lemma ready_without_index (s s' : ECPBuilder F) :
  without_index s' = without_index s →
  node_size s' = node_size s
  ∧ representative_embeddings s' = representative_embeddings s
  ∧ metric s' = metric s.
Proof.
  intros H. repeat split.
  - by apply (f_equal node_size) in H.
  - by apply (f_equal representative_embeddings) in H.
  - by apply (f_equal metric) in H.
Qed.

Lemma grow_if_full_ok (self : ECPBuilder F) (lvl node : string) (nd : Node F)
    (next : nat) (ns : Z) (remb : ndarray2 F) :
  index_node self lvl node = Ok nd →
  node_size self = Some ns → 0 < ns →
  representative_embeddings self = Some remb →
  shape1 remb = shape1 (embeddings nd) →
  ∃ self' er ed,
    grow_if_full lvl node next self = (Ok (), self')
    ∧ index_node self' lvl node
        = Ok (set_distances (distances nd ++ ed)
                (set_embeddings (Build_ndarray2 (rows (embeddings nd) ++ er)
                                   (shape1 (embeddings nd))) nd))
    ∧ without_index self' = without_index self
    ∧ length er = length ed
    ∧ ((length (rows (embeddings nd)) ≤ next)%nat → (0 < length er)%nat).
Proof.
  intros Hnd Hns Hpos Hremb Hdim. unfold grow_if_full.
  rewrite (py_bind_ok _ _ _ _ _ (get_node_ok _ _ _ _ Hnd)).
  destruct (decide (length (rows (embeddings nd)) ≤ next)%nat) as [Hfull|Hroom].
  - rewrite (py_bind_ok get_self _ self self self) by reflexivity.
    rewrite (py_bind_ok _ _ self self ns) by (unfold lift; by rewrite Hns).
    rewrite (py_bind_ok _ _ self self remb) by (unfold lift; by rewrite Hremb).
    assert (Hz2 : np_zeros2 ns (shape1 remb)
                  = Ok (Build_ndarray2 (replicate (Z.to_nat ns) (replicate (shape1 remb) fzero))
                          (shape1 remb))).
    { unfold np_zeros2. destruct (Z.ltb_spec ns 0); [lia|done]. }
    assert (Hz1 : np_zeros ns = Ok (replicate (Z.to_nat ns) fzero)).
    { unfold np_zeros. destruct (Z.ltb_spec ns 0); [lia|done]. }
    rewrite (py_bind_ok _ _ self self _) by (unfold lift; by rewrite Hz2).
    rewrite (py_bind_ok _ _ self self _) by (unfold lift; by rewrite Hz1).
    assert (Hcat : np_concatenate2 (embeddings nd)
                     (Build_ndarray2 (replicate (Z.to_nat ns) (replicate (shape1 remb) fzero))
                        (shape1 remb))
                   = Ok (Build_ndarray2
                           (rows (embeddings nd)
                            ++ replicate (Z.to_nat ns) (replicate (shape1 remb) fzero))
                           (shape1 (embeddings nd)))).
    { unfold np_concatenate2. simpl.
      by destruct (decide (shape1 (embeddings nd) = shape1 remb)); [|congruence]. }
    rewrite (py_bind_ok _ _ self self _) by (unfold lift; by rewrite Hcat).
    destruct (update_node_step self lvl node nd
                (set_embeddings (Build_ndarray2
                   (rows (embeddings nd)
                    ++ replicate (Z.to_nat ns) (replicate (shape1 remb) fzero))
                   (shape1 (embeddings nd)))) Hnd) as (s1 & Hrun1 & Hnd1 & Hw1).
    rewrite (py_bind_ok _ _ _ _ _ Hrun1).
    rewrite (py_bind_ok _ _ _ _ _ (get_node_ok _ _ _ _ Hnd1)).
    destruct (update_node_step s1 lvl node _
                (set_distances (distances nd ++ replicate (Z.to_nat ns) fzero)) Hnd1)
      as (s2 & Hrun2 & Hnd2 & Hw2).
    exists s2, (replicate (Z.to_nat ns) (replicate (shape1 remb) fzero)),
      (replicate (Z.to_nat ns) fzero).
    split; [exact Hrun2|]. split; [exact Hnd2|]. split; [congruence|].
    rewrite !length_replicate. split; [done|]. lia.
  - exists self, [], []. split; [reflexivity|]. split.
    + rewrite Hnd. rewrite !app_nil_r. by destruct nd as [[rs s1] ? ? ? ?].
    + split; [done|]. split; [done|]. lia.
Qed.

Lemma border_on_insert_ok (self : ECPBuilder F) (lvl node : string) (nd : Node F)
    (next : nat) (dist : F) :
  index_node self lvl node = Ok nd →
  ∃ self' b,
    border_on_insert lvl node next dist self = (Ok (), self')
    ∧ index_node self' lvl node = Ok (set_border b nd)
    ∧ without_index self' = without_index self.
Proof.
  intros Hnd. unfold border_on_insert.
  rewrite (py_bind_ok get_self _ self self self) by reflexivity.
  rewrite (py_bind_ok _ _ _ _ _ (get_node_ok _ _ _ _ Hnd)).
  assert (Hkeep : ∃ self' b, (mret () : Py F unit) self = (Ok (), self')
                    ∧ index_node self' lvl node = Ok (set_border b nd)
                    ∧ without_index self' = without_index self).
  { exists self, (border nd). split; [done|]. split; [|done].
    rewrite Hnd. by destruct nd. }
  assert (Hset : ∃ self' b,
            update_node lvl node (set_border (Z.of_nat next, dist)) self = (Ok (), self')
            ∧ index_node self' lvl node = Ok (set_border b nd)
            ∧ without_index self' = without_index self).
  { destruct (update_node_step self lvl node nd (set_border (Z.of_nat next, dist)) Hnd)
      as (s1 & H1 & H2 & H3). by exists s1, (Z.of_nat next, dist). }
  destruct (metric self).
  - by destruct (flt (snd (border nd)) dist).
  - by destruct (flt dist (snd (border nd))).
  - by destruct (flt dist (snd (border nd))).
Qed.

(** One triple appended to an existing leaf whose two arrays have the same
    length and hold its items. *)
Lemma append_item_ok (self : ECPBuilder F) (lvl node : string) (nd : Node F)
    (item : Z) (dist : F) (emb : list F) (ns : Z) (remb : ndarray2 F) :
  index_node self lvl node = Ok nd →
  node_size self = Some ns → 0 < ns →
  representative_embeddings self = Some remb →
  shape1 remb = shape1 (embeddings nd) →
  length emb = shape1 (embeddings nd) →
  length (rows (embeddings nd)) = length (distances nd) →
  (length (item_ids nd) ≤ length (distances nd))%nat →
  ∃ self' nd',
    append_item lvl node item dist emb self = (Ok (), self')
    ∧ index_node self' lvl node = Ok nd'
    ∧ without_index self' = without_index self
    ∧ item_ids nd' = item_ids nd ++ [item]
    ∧ node_ids nd' = node_ids nd
    ∧ shape1 (embeddings nd') = shape1 (embeddings nd)
    ∧ length (rows (embeddings nd')) = length (distances nd')
    ∧ (length (item_ids nd') ≤ length (distances nd'))%nat
    ∧ take (S (length (item_ids nd))) (distances nd')
        = take (length (item_ids nd)) (distances nd) ++ [dist]
    ∧ take (S (length (item_ids nd))) (rows (embeddings nd'))
        = take (length (item_ids nd)) (rows (embeddings nd)) ++ [emb].
Proof.
  intros Hnd Hns Hpos Hremb Hdim Hemb Hlen Hfit.
  set (n := length (item_ids nd)).
  unfold append_item.
  rewrite (py_bind_ok _ _ _ _ _ (get_node_ok _ _ _ _ Hnd)). fold n.
  destruct (grow_if_full_ok self lvl node nd n ns remb Hnd Hns Hpos Hremb Hdim)
    as (s1 & er & ed & Hrun1 & Hnd1 & Hw1 & Hlen1 & Hgrow).
  rewrite (py_bind_ok _ _ _ _ _ Hrun1).
  rewrite (py_bind_ok _ _ _ _ _ (get_node_ok _ _ _ _ Hnd1)).
  set (rows1 := rows (embeddings nd) ++ er) in *.
  set (dists1 := distances nd ++ ed) in *.
  assert (Hn1 : (n < length rows1)%nat).
  { unfold rows1. rewrite length_app.
    destruct (decide (length (rows (embeddings nd)) ≤ n)%nat) as [Hfull|Hroom].
    - specialize (Hgrow Hfull). lia.
    - lia. }
  assert (Hn1' : (n < length dists1)%nat).
  { unfold dists1, rows1 in *. rewrite length_app in *. lia. }
  assert (Hrow : set_row (Build_ndarray2 rows1 (shape1 (embeddings nd))) n emb
                 = Ok (Build_ndarray2 (<[n := emb]> rows1) (shape1 (embeddings nd)))).
  { unfold set_row. simpl.
    destruct (decide (n < length rows1)%nat); [|done].
    by destruct (decide (length emb = shape1 (embeddings nd))). }
  cbn [embeddings set_distances set_embeddings].
  rewrite (py_bind_ok _ _ s1 s1 _) by (unfold lift; by rewrite Hrow).
  destruct (update_node_step s1 lvl node _
              (set_embeddings (Build_ndarray2 (<[n := emb]> rows1) (shape1 (embeddings nd))))
              Hnd1) as (s2 & Hrun2 & Hnd2 & Hw2).
  rewrite (py_bind_ok _ _ _ _ _ Hrun2).
  rewrite (py_bind_ok _ _ _ _ _ (get_node_ok _ _ _ _ Hnd2)).
  destruct (update_node_step s2 lvl node _ (set_item_ids (item_ids nd ++ [item])) Hnd2)
    as (s3 & Hrun3 & Hnd3 & Hw3).
  cbn [item_ids set_distances set_embeddings].
  rewrite (py_bind_ok _ _ _ _ _ Hrun3).
  rewrite (py_bind_ok _ _ _ _ _ (get_node_ok _ _ _ _ Hnd3)).
  cbn [distances set_distances set_embeddings set_item_ids].
  assert (Hset : py_setitem dists1 n dist = Ok (<[n := dist]> dists1)).
  { unfold py_setitem. by destruct (decide (n < length dists1)%nat). }
  rewrite (py_bind_ok _ _ s3 s3 _) by (unfold lift; by rewrite Hset).
  destruct (update_node_step s3 lvl node _ (set_distances (<[n := dist]> dists1)) Hnd3)
    as (s4 & Hrun4 & Hnd4 & Hw4).
  rewrite (py_bind_ok _ _ _ _ _ Hrun4).
  destruct (border_on_insert_ok s4 lvl node _ n dist Hnd4)
    as (s5 & b & Hrun5 & Hnd5 & Hw5).
  eexists s5, _. split; [exact Hrun5|]. split; [exact Hnd5|].
  split; [congruence|]. simpl.
  split; [done|]. split; [done|]. split; [done|].
  rewrite !length_insert, length_app. fold n.
  split; [unfold rows1, dists1; rewrite !length_app; lia|].
  split; [simpl; lia|].
  split.
  - rewrite (take_S_r _ _ dist) by (by apply list_lookup_insert_eq).
    rewrite take_insert. unfold dists1. rewrite take_app_le; [|unfold n; lia].
    by destruct (decide (n < n)%nat); [lia|].
  - rewrite (take_S_r _ _ emb) by (by apply list_lookup_insert_eq).
    rewrite take_insert. unfold rows1. rewrite take_app_le; [|unfold n; lia].
    by destruct (decide (n < n)%nat); [lia|].
Qed.
Lemma append_items_ok (lvl node : string) (ns : Z) (remb : ndarray2 F)
    (v : list (Z * F * list F)) :
  0 < ns →
  ∀ (self : ECPBuilder F) (nd : Node F),
  index_node self lvl node = Ok nd →
  node_size self = Some ns →
  representative_embeddings self = Some remb →
  shape1 remb = shape1 (embeddings nd) →
  Forall (λ t, length (snd t) = shape1 (embeddings nd)) v →
  length (rows (embeddings nd)) = length (distances nd) →
  (length (item_ids nd) ≤ length (distances nd))%nat →
  ∃ self' nd',
    for_each v (λ '(item, dist, emb), append_item lvl node item dist emb) self = (Ok (), self')
    ∧ index_node self' lvl node = Ok nd'
    ∧ without_index self' = without_index self
    ∧ item_ids nd' = item_ids nd ++ map (λ t, fst (fst t)) v
    ∧ node_ids nd' = node_ids nd
    ∧ shape1 (embeddings nd') = shape1 (embeddings nd)
    ∧ length (rows (embeddings nd')) = length (distances nd')
    ∧ (length (item_ids nd') ≤ length (distances nd'))%nat
    ∧ take (length (item_ids nd')) (distances nd')
        = take (length (item_ids nd)) (distances nd) ++ map (λ t, snd (fst t)) v
    ∧ take (length (item_ids nd')) (rows (embeddings nd'))
        = take (length (item_ids nd)) (rows (embeddings nd)) ++ map snd v.
Proof.
  intros Hpos.
  induction v as [|[[item dist] emb] v IH]; intros self nd Hnd Hns Hremb Hdim Hv Hlen Hfit.
  - exists self, nd. simpl. rewrite !app_nil_r. by repeat (split; [done|]).
  - apply Forall_cons in Hv as [Hemb Hv]. simpl in Hemb.
    destruct (append_item_ok self lvl node nd item dist emb ns remb
                Hnd Hns Hpos Hremb Hdim Hemb Hlen Hfit)
      as (s1 & nd1 & Hrun1 & Hnd1 & Hw1 & Hids1 & Hch1 & Hsh1 & Hlen1 & Hfit1 & Hd1 & Hr1).
    destruct (ready_without_index _ _ Hw1) as (Hns1 & Hremb1 & _).
    rewrite <- Hns1 in Hns. rewrite <- Hremb1 in Hremb.
    rewrite <- Hsh1 in Hdim, Hv.
    destruct (IH s1 nd1 Hnd1 Hns Hremb Hdim Hv Hlen1 Hfit1)
      as (s2 & nd2 & Hrun2 & Hnd2 & Hw2 & Hids2 & Hch2 & Hsh2 & Hlen2 & Hfit2 & Hd2 & Hr2).
    exists s2, nd2. cbn [for_each].
    rewrite (py_bind_ok _ _ _ _ _ Hrun1).
    split; [exact Hrun2|]. split; [exact Hnd2|]. split; [congruence|].
    assert (Hn1 : length (item_ids nd1) = S (length (item_ids nd))).
    { rewrite Hids1, length_app. simpl. lia. }
    rewrite Hn1 in Hd2, Hr2. rewrite Hd1 in Hd2. rewrite Hr1 in Hr2.
    split; [by rewrite Hids2, Hids1, <- app_assoc|].
    split; [congruence|]. split; [congruence|]. split; [done|]. split; [done|].
    split; [by rewrite Hd2, <- app_assoc|by rewrite Hr2, <- app_assoc].
Qed.

(** Writing one cluster to a leaf whose two arrays are as long as its item
    list (as the align pass and every earlier write leave them): the call
    returns, the leaf's item list, scores and rows are the old ones followed
    by the ids, scores and embeddings of the cluster in its order, so the
    arrays are again as long as the item list; the child list of the leaf
    and everything of the builder other than the index are unchanged. The
    builder has a positive [node_size] and representatives, and the shapes
    fit: the representatives and every embedding of the cluster have the
    dimension of the leaf's embeddings array (with another dimension
    [np.concatenate] or the assignment of the row raises [ValueError], or
    the assignment broadcasts). *)
Theorem write_cluster_items_to_file_appends (self : ECPBuilder F) (node : string)
    (v : list (Z * F * list F)) (nd : Node F) (ns : Z) (remb : ndarray2 F) :
  index_node self (lvl_name (levels self - 1)) node = Ok nd →
  node_size self = Some ns → 0 < ns →
  representative_embeddings self = Some remb →
  shape1 remb = shape1 (embeddings nd) →
  Forall (λ t, length (snd t) = shape1 (embeddings nd)) v →
  length (rows (embeddings nd)) = length (item_ids nd) →
  length (distances nd) = length (item_ids nd) →
  ∃ self' nd',
    write_cluster_items_to_file [(node, v)] self = (Ok (), self')
    ∧ index_node self' (lvl_name (levels self - 1)) node = Ok nd'
    ∧ without_index self' = without_index self
    ∧ item_ids nd' = item_ids nd ++ map (λ t, fst (fst t)) v
    ∧ node_ids nd' = node_ids nd
    ∧ distances nd' = distances nd ++ map (λ t, snd (fst t)) v
    ∧ rows (embeddings nd') = rows (embeddings nd) ++ map snd v
    ∧ shape1 (embeddings nd') = shape1 (embeddings nd).
Proof.
  intros Hnd Hns Hpos Hremb Hdim Hv Hrows Hdists.
  set (lvl := lvl_name (levels self - 1)) in *.
  destruct (append_items_ok lvl node ns remb v Hpos self nd Hnd Hns Hremb Hdim Hv)
    as (s1 & nd1 & Hrun1 & Hnd1 & Hw1 & Hids1 & Hch1 & Hsh1 & Hlen1 & Hfit1 & Hd1 & Hr1);
    [lia|lia|].
  destruct (resize_node_ok s1 lvl node nd1 Hnd1) as (s2 & Hrun2 & Hnd2 & _).
  assert (Hw2 : without_index s2 = without_index s1).
  { pose proof (keeps_resize_node without_index
                  (λ l n f, keeps_update_node without_index (λ v s, eq_refl) l n f)
                  lvl node s1) as H.
    by rewrite Hrun2 in H. }
  eexists s2, _.
  unfold write_cluster_items_to_file.
  rewrite (py_bind_ok get_self _ self self self) by reflexivity.
  fold lvl. cbn [for_each].
  assert (Hone : (for_each v (λ '(item, dist, emb), append_item lvl node item dist emb)
                    ≫= λ _, align_specific_node lvl node) self = (Ok (), s2)).
  { by rewrite (py_bind_ok _ _ _ _ _ Hrun1). }
  rewrite (py_bind_ok _ _ _ _ _ Hone).
  split; [reflexivity|]. split; [exact Hnd2|]. split; [congruence|].
  cbn [item_ids node_ids distances embeddings rows set_distances set_embeddings resize2].
  split; [done|]. split; [done|].
  unfold resize.
  replace (length (item_ids nd1) - length (distances nd1))%nat with 0%nat by lia.
  replace (length (item_ids nd1) - length (rows (embeddings nd1)))%nat with 0%nat by lia.
  simpl. rewrite !app_nil_r, Hd1, Hr1.
  rewrite (take_ge (distances nd)) by lia. by rewrite (take_ge (rows (embeddings nd))) by lia.
Qed.
End AppendFacts.

(** ** The further properties on the example builders *)

(** Eight items, two levels, clusters of two: the root holds the first
    [node_size = 2] of the four representatives. *)
Lemma build_tree_h5_root_witness :
  index_root (snd (build_tree_h5 (ops := float_scalar) (demo_selected 2 2 L2 8)))
  = Ok (Build_Root (slice_to 2 [0; 2; 4; 6])
          (slice_to2 2 (Build_ndarray2 [[1; 1]; [3; 1]; [5; 1]; [7; 1]]%float 2))).
Proof.
  apply (build_tree_h5_root (ops := float_scalar)); vm_compute; reflexivity.
Defined.

Lemma select_offset_ids_witness :
  ∃ self' ids,
    select_cluster_representatives demo_world (dataset_of_array (demo_data 8)) "offset"
      (init 2 2 L2)
    = (Ok (Some (Build_ndarray2 [[1; 1]; [3; 1]; [5; 1]; [7; 1]]%float 2), Some ids), self')
    ∧ ids = [0; 2; 4; 6]
    ∧ total_clusters self' = Some 4
    ∧ node_size self' = Some 2.
Proof.
  destruct (select_offset_ids demo_world (dataset_of_array (demo_data 8)) (init 2 2 L2) 2
              (Build_ndarray2 [[1; 1]; [3; 1]; [5; 1]; [7; 1]]%float 2))
    as (self' & ids & Hrun & Hids & Htc & Hns & _).
  - simpl. lia.
  - vm_compute. split; discriminate.
  - simpl. discriminate.
  - vm_compute. reflexivity.
  - vm_compute. reflexivity.
  - exists self', ids. split; [exact Hrun|]. split; [rewrite Hids; vm_compute; reflexivity|].
    split; [|exact Hns]. rewrite Htc, Hids. vm_compute. reflexivity.
Defined.

Lemma select_zero_parameters_witness :
  select_cluster_representatives demo_world (dataset_of_array (demo_data 8)) "offset"
    (init 2 0 L2)
  = (Raise ZeroDivisionError, init 2 0 L2)
  ∧ select_cluster_representatives demo_world (dataset_of_array (demo_data 8)) "offset"
      (init 0 2 L2)
    = (Raise ZeroDivisionError, set_total_clusters (Some 4) (init 0 2 L2)).
Proof.
  split.
  - apply (proj1 (select_zero_parameters demo_world (dataset_of_array (demo_data 8))
                    (init 2 0 L2) "offset")).
    reflexivity.
  - apply (proj2 (select_zero_parameters demo_world (dataset_of_array (demo_data 8))
                    (init 0 2 L2) "offset")).
    + simpl. discriminate.
    + reflexivity.
Defined.

Lemma distance_level_node_cos_ranks_witness :
  ∃ top scores,
    distance_level_node (ops := float_scalar)
      (scenario_builder COS [0.75; 0.25; 0.5]%float) [1]%float "lvl_0" "node_0"
    = Ok (Some (top, scores))
    ∧ scores = [1; 1; 1]%float
    ∧ top ≡ₚ [0; 1; 2]%nat.
Proof.
  destruct (distance_level_node_cos_ranks (ops := float_scalar) float_ltb_asym
              (scenario_builder COS [0.75; 0.25; 0.5]%float) [1]%float "lvl_0" "node_0"
              (scenario_node [0.75; 0.25; 0.5]%float))
    as (top & scores & Hrun & Hscores & Hperm & _).
  - reflexivity.
  - reflexivity.
  - vm_compute. reflexivity.
  - exists top, scores. split; [exact Hrun|]. split; [|exact Hperm].
    rewrite Hscores. vm_compute. reflexivity.
Defined.

(** A leaf as [build_tree_h5] leaves it has no score yet. *)
Lemma update_node_border_info_empty_witness :
  update_node_border_info (ops := float_scalar) "lvl_0" "node_0" (demo_built 1 2 L2 8)
  = (Raise IndexError, demo_built 1 2 L2 8).
Proof.
  eapply (update_node_border_info_empty (ops := float_scalar)).
  - vm_compute. reflexivity.
  - reflexivity.
Defined.

Lemma align_specific_node_trims_witness :
  ∃ self' nd',
    align_specific_node (ops := float_scalar) "lvl_0" "node_0"
      (scenario_builder L2 [4; 1; 3; 0; 0]%float) = (Ok (), self')
    ∧ index_node self' "lvl_0" "node_0" = Ok nd'
    ∧ item_ids nd' = [10; 11; 12]
    ∧ distances nd' = [4; 1; 3]%float
    ∧ rows (embeddings nd') = [[1]; [2]; [3]]%float
    ∧ shape1 (embeddings nd') = 1%nat.
Proof.
  destruct (align_specific_node_trims (ops := float_scalar)
              (scenario_builder L2 [4; 1; 3; 0; 0]%float) "lvl_0" "node_0"
              (scenario_node [4; 1; 3; 0; 0]%float) eq_refl)
    as (self' & nd' & Hrun & Hnd & Hids & _ & _ & _ & _ & Hd & _ & Hrows & Hshape).
  exists self', nd'. by repeat (split; [done|]).
Defined.

Lemma align_pass_at_node_witness :
  ∃ self' nd',
    align_one (ops := float_scalar) "lvl_0" "node_0"
      (scenario_builder L2 [4; 1; 3]%float) = (Ok (), self')
    ∧ index_node self' "lvl_0" "node_0" = Ok nd'
    ∧ distances nd' = [4; 1; 3]%float
    ∧ border nd' = (2, 3%float).
Proof.
  destruct (align_pass_at_node (ops := float_scalar) float_ltb_asym
              (scenario_builder L2 [4; 1; 3]%float) "lvl_0" "node_0"
              (scenario_node [4; 1; 3]%float) eq_refl eq_refl)
    as (self' & nd' & Hrun & Hnd & _ & _ & Hd & _ & Hb).
  exists self', nd'. split; [exact Hrun|]. split; [exact Hnd|].
  change (distances nd' = [4; 1; 3]%float) in Hd. split; [exact Hd|].
  rewrite Hd in Hb. exact Hb.
Defined.

(** Two items ranked against the four leaves of a one-level cos index. *)
Lemma determine_node_map_covers_witness :
  ∃ node_map,
    determine_node_map (ops := float_scalar) (demo_built 1 2 COS 8) [[1; 1]; [5; 1]]%float 100
      = Ok node_map
    ∧ node_map_ids node_map ≡ₚ [100; 101].
Proof.
  destruct (determine_node_map (ops := float_scalar) (demo_built 1 2 COS 8)
              [[1; 1]; [5; 1]]%float 100) as [node_map| |] eqn:Hrun;
    [|vm_compute in Hrun; discriminate..].
  exists node_map. split; [reflexivity|].
  apply (determine_node_map_covers (ops := float_scalar) (demo_built 1 2 COS 8)
           [[1; 1]; [5; 1]]%float 100 node_map);
    [vm_compute; discriminate|exact Hrun].
Defined.

Lemma assignment_raises_TypeError_witness :
  determine_node_map (ops := float_scalar) (demo_built 2 2 L2 8) [[1; 1]]%float 0
    = Raise TypeError
  ∧ add_items (ops := float_scalar) [[1; 1]]%float 0 (demo_built 2 2 L2 8)
    = (Raise TypeError, demo_built 2 2 L2 8).
Proof.
  apply (assignment_raises_TypeError (ops := float_scalar) (demo_built 2 2 L2 8)
           (Build_Root [0; 2] (Build_ndarray2 [[1; 1]; [3; 1]]%float 2))).
  - right. reflexivity.
  - vm_compute. discriminate.
  - vm_compute. reflexivity.
  - discriminate.
  - vm_compute. reflexivity.
  - intros j Hj. destruct j as [|[|j]]; [| |simpl in Hj; lia].
    + eexists. split; vm_compute; reflexivity.
    + eexists. split; vm_compute; reflexivity.
Defined.

Lemma drain_takes_witness :
  ∃ out rest self',
    drain (ops := float_scalar) 1
      (set_item_pq (Some [(0.75%float, 7); (0.25%float, 3)]) (init 1 2 IP))
    = (Ok out, self')
    ∧ item_pq self' = Some rest
    ∧ out ++ rest ≡ₚ [(0.75%float, 7); (0.25%float, 3)]
    ∧ length out = 1%nat.
Proof.
  apply (drain_takes (ops := float_scalar) 1
           (set_item_pq (Some [(0.75%float, 7); (0.25%float, 3)]) (init 1 2 IP))).
  reflexivity.
Defined.

Lemma drain_ascending_witness :
  ∃ out rest self',
    drain (ops := float_scalar) 2
      (set_item_pq (Some [(0.75%float, 7); (0.25%float, 3); (0.5%float, 5)]) (init 1 2 IP))
    = (Ok out, self')
    ∧ item_pq self' = Some rest
    ∧ ascending (item_lt (ops := float_scalar)) out
    ∧ ∀ x y, x ∈ out → y ∈ rest → item_lt (ops := float_scalar) y x = false.
Proof.
  apply (drain_ascending (ops := float_scalar) 2
           (set_item_pq (Some [(0.75%float, 7); (0.25%float, 3); (0.5%float, 5)]) (init 1 2 IP))
           [(0.75%float, 7); (0.25%float, 3); (0.5%float, 5)]).
  - reflexivity.
  - intros a b Ha Hb. rewrite !elem_of_cons, elem_of_nil in Ha, Hb.
    destruct Ha as [->|[->|[->|[]]]], Hb as [->|[->|[->|[]]]];
      vm_compute; intros; congruence.
  - intros a b c Ha Hb Hc. rewrite !elem_of_cons, elem_of_nil in Ha, Hb, Hc.
    destruct Ha as [->|[->|[->|[]]]], Hb as [->|[->|[->|[]]]], Hc as [->|[->|[->|[]]]];
      vm_compute; intros; congruence.
Defined.

(** The attributes [tree_pq] and [item_pq] do not exist before the first
    search with [restart=True]. *)
Lemma search_tree_continue_without_queues_witness :
  search_tree (ops := float_scalar) 5 [1; 1]%float 1 1 false (demo_built 2 2 L2 8)
  = (Raise AttributeError, demo_built 2 2 L2 8).
Proof.
  apply (search_tree_continue_without_queues (ops := float_scalar) 5 [1; 1]%float 1 1
           (demo_built 2 2 L2 8)
           (Build_Root [0; 2] (Build_ndarray2 [[1; 1]; [3; 1]]%float 2))).
  - reflexivity.
  - vm_compute. reflexivity.
  - discriminate.
  - vm_compute. reflexivity.
Defined.

(** Eight items in clusters of two: four clusters, fewer than twenty. *)
Lemma add_items_concurrent_needs_twenty_clusters_witness :
  (∀ pmaps, merge_phase (ops := float_scalar) (dataset_of_array (demo_data 8)) pmaps
              (demo_built 1 2 L2 8)
            = (Raise ValueError, demo_built 1 2 L2 8))
  ∧ fst (add_items_concurrent (ops := float_scalar) demo_world
           (dataset_of_array (demo_data 8)) "leaves.h5" 4 2 (demo_built 1 2 L2 8)) ≠ Ok ().
Proof.
  apply (add_items_concurrent_needs_twenty_clusters (ops := float_scalar) demo_world
           (dataset_of_array (demo_data 8)) "leaves.h5" 4 2 (demo_built 1 2 L2 8) 4).
  - vm_compute. reflexivity.
  - lia.
  - discriminate.
Defined.

(** Two items written to the first leaf of a freshly built one-level index. *)
Lemma write_cluster_items_to_file_appends_witness :
  ∃ self' nd',
    write_cluster_items_to_file (ops := float_scalar)
      [("node_0", [(100, 0.5%float, [1; 1]%float); (101, 0.25%float, [5; 1]%float)])]
      (demo_built 1 2 COS 8) = (Ok (), self')
    ∧ index_node self' "lvl_0" "node_0" = Ok nd'
    ∧ item_ids nd' = [100; 101]
    ∧ distances nd' = [0.5; 0.25]%float
    ∧ rows (embeddings nd') = [[1; 1]; [5; 1]]%float
    ∧ shape1 (embeddings nd') = 2%nat.
Proof.
  destruct (write_cluster_items_to_file_appends (ops := float_scalar) (demo_built 1 2 COS 8)
              "node_0" [(100, 0.5%float, [1; 1]%float); (101, 0.25%float, [5; 1]%float)]
              (Build_Node (Build_ndarray2 [] 2) [] [] [] (-1, 1%float)) 4
              (Build_ndarray2 [[1; 1]; [3; 1]; [5; 1]; [7; 1]]%float 2))
    as (self' & nd' & Hrun & Hnd & _ & Hids & _ & Hd & Hr & Hsh).
  - vm_compute. reflexivity.
  - vm_compute. reflexivity.
  - lia.
  - vm_compute. reflexivity.
  - reflexivity.
  - repeat constructor.
  - reflexivity.
  - reflexivity.
  - exists self', nd'. split; [exact Hrun|]. split; [exact Hnd|]. by repeat split.
Defined.
